(** * Decision engine and backtest simulator of the trading bot

    A shallow embedding of the indicator library
    ([client/src/lib/technicalAnalysis.ts]), the candlestick pattern
    detector ([client/src/lib/candlestickAnalysis.ts]) and the two copies
    of the multi-timeframe engine (fusion, ATR, backtest, DCA ladder),
    with the analysis of a timeframe that feeds the fusion, the sizing of a
    trade, the GPU monitor and the exchange configuration.

    Numbers.  The laws are stated and proved with a JavaScript [number]
    modelled by an exact rational in canonical form ([Qc]): [+], [-], [*],
    [/] are the field operations and the comparisons are the order of the
    rationals.  In that model rounding, [NaN] and the signed zeros do not
    exist, and a division by zero, which JavaScript answers with [NaN] or
    an infinity, is answered with [0]; the one place where the code
    produces [Infinity] as a value (the profit factor) has a result type of
    its own.  [undefined] array slots are [None].  [Math.sqrt] and
    [Math.pow] are taken as parameters.  A literal is written ['0.5].

    The chart readers of the indicator library and the analysis of one
    timeframe divide by prices and ranges that can be zero and go on
    computing with the quotient; there a number is a [Number.t], a rational
    or one of the two infinities and [NaN].  [determineCurrentTrend] tests
    a quotient by a price once; its model decides the zero price as the
    infinities and [NaN] do.

    Where rounding decides what the code does, the same source text is
    evaluated over IEEE binary64 floats (module [Binary64]). *)

From Stdlib Require Import String Bool Arith.
From Stdlib Require Import List Sorted ZArith QArith Qcanon Qround Qabs Lqa Lia.
From Stdlib Require Import Floats.
Import ListNotations.
Open Scope Qc_scope.

Notation "' x" := (Q2Qc x%Q)
  (at level 1, x constr at level 0, format "' x") : Qc_scope.

(** ** JavaScript built-ins used by the code *)

Module Js.

(** [a < b], [a > b], [a <= b] and [a === b] on numbers. *)
Definition ltb (a b : Qc) : bool := negb (Qle_bool b a).
Definition gtb (a b : Qc) : bool := ltb b a.
Definition leb (a b : Qc) : bool := Qle_bool a b.
Definition eqb (a b : Qc) : bool := Qeq_bool a b.

(** [Math.abs], [Math.max], [Math.min] and [Math.round] (the nearest
    integer, halves upwards). *)
Definition abs (x : Qc) : Qc := Q2Qc (Qabs x).
Definition max (a b : Qc) : Qc := if ltb a b then b else a.
Definition min (a b : Qc) : Qc := if ltb b a then b else a.
Definition round (x : Qc) : Z := Qfloor (x + '0.5).

(** An integer (a length, an index, a count) used as a number. *)
Definition of_Z (z : Z) : Qc := Q2Qc (inject_Z z).
Definition of_nat (n : nat) : Qc := of_Z (Z.of_nat n).

(** Truthiness of a possibly [undefined] number: [undefined] and [0] are
    falsy. *)
Definition truthy (x : option Qc) : bool :=
  match x with
  | Some q => negb (eqb q 0)
  | None => false
  end.

(** [x || d] for a possibly [undefined] number [x]. *)
Definition or_default (x : option Qc) (d : Qc) : Qc :=
  match x with
  | Some q => if eqb q 0 then d else q
  | None => d
  end.

(** [a[a.length - 1]]: [undefined] on the empty array. *)
Definition last_elem {A : Type} (l : list A) : option A :=
  nth_error l (length l - 1).

(** [l.reduce((sum, x) => sum + x, 0)]. *)
Definition sum (l : list Qc) : Qc := fold_left Qcplus l 0.

(** [l.slice(start, stop)] for [0 <= start <= stop]. *)
Definition slice {A : Type} (l : list A) (start stop : nat) : list A :=
  firstn (stop - start) (skipn start l).

(** [l.slice(-n)]: the last [n] elements ([slice(-0)] is the whole array). *)
Definition slice_last {A : Type} (n : nat) (l : list A) : list A :=
  if (n =? 0)%nat then l else skipn (length l - n) l.

(** [l.slice(0, stop)] for an integer [stop] of either sign. *)
Definition slice_to {A : Type} (l : list A) (stop : Z) : list A :=
  if (stop <? 0)%Z
  then firstn (Z.to_nat (Z.of_nat (length l) + stop)) l
  else firstn (Z.to_nat stop) l.

(** [Array.prototype.sort(cmp)]: a stable sort; [x] goes before [y] when
    [cmp x y < 0]. *)
Fixpoint insert_by {A : Type} (cmp : A -> A -> Qc) (x : A) (l : list A)
  : list A :=
  match l with
  | [] => [x]
  | y :: r => if ltb (cmp x y) 0 then x :: y :: r else y :: insert_by cmp x r
  end.

Definition sort {A : Type} (cmp : A -> A -> Qc) (l : list A) : list A :=
  fold_left (fun acc x => insert_by cmp x acc) l [].

End Js.

(** ** binanceClient.ts: the candle record *)

Record CandleData : Type := mkCandle {
  time : Z;
  open : Qc;
  high : Qc;
  close : Qc;
  low : Qc;
  volume : Qc
}.

(** ** technicalAnalysis.ts *)

Module TA.

(** [closePrices[i] - closePrices[i - 1]] for [i = 1 ..]. *)
Fixpoint changes (closePrices : list Qc) : list Qc :=
  match closePrices with
  | a :: (b :: _) as t => (b - a) :: changes t
  | _ => []
  end.

(** One RSI value from the two running averages. *)
Definition rsi_value (avgGain avgLoss : Qc) : Qc :=
  if Js.eqb avgLoss 0 then '100
  else let rs := avgGain / avgLoss in '100 - ('100 / (1 + rs)).

(** The smoothing loop [for (i = period; i < gains.length; i++)]. *)
Fixpoint rsi_smooth (period : Qc) (avgGain avgLoss : Qc) (gl : list (Qc * Qc))
  : list Qc :=
  match gl with
  | [] => []
  | (g, l) :: r =>
      let avgGain := ((avgGain * (period - 1)) + g) / period in
      let avgLoss := ((avgLoss * (period - 1)) + l) / period in
      rsi_value avgGain avgLoss :: rsi_smooth period avgGain avgLoss r
  end.

(** [calculateRSI(candles, period = 14)]. *)
Definition calculateRSI (candles : list CandleData) (period : nat)
  : list (option Qc) :=
  if (length candles <? period + 1)%nat
  then repeat (Some '50) (length candles)
  else
    let closePrices := map close candles in
    let gains := map (fun change => if Js.gtb change 0 then change else 0)
                     (changes closePrices) in
    let losses := map (fun change => if Js.ltb change 0 then Js.abs change else 0)
                      (changes closePrices) in
    let p := Js.of_nat period in
    let avgGain := Js.sum (Js.slice gains 0 period) / p in
    let avgLoss := Js.sum (Js.slice losses 0 period) / p in
    let rsiValues :=
      rsi_value avgGain avgLoss
      :: rsi_smooth p avgGain avgLoss
           (combine (skipn period gains) (skipn period losses)) in
    repeat None period ++ map Some rsiValues.

(** The loop [for (i = period; i < prices.length; i++)] of [calculateEMA];
    [prev] is [ema[i - 1]]. *)
Fixpoint ema_loop (multiplier prev : Qc) (prices : list Qc) : list Qc :=
  match prices with
  | [] => []
  | price :: r =>
      let e := (price - prev) * multiplier + prev in
      e :: ema_loop multiplier e r
  end.

(** [calculateEMA(prices, period)] for [period >= 1] (the callers pass 8,
    21 and 50).  The assignment [ema[period - 1] = sma] lengthens the
    array when [prices] is shorter than [period]. *)
Definition calculateEMA (prices : list Qc) (period : nat) : list (option Qc) :=
  let p := Js.of_nat period in
  let sma := Js.sum (Js.slice prices 0 period) / p in
  let multiplier := '2 / (p + 1) in
  repeat None (period - 1)
    ++ Some sma :: map Some (ema_loop multiplier sma (skipn period prices)).

(** [Math.max(tr1, tr2, tr3)] of one candle against the previous close. *)
Definition true_range (c : CandleData) (prevClose : Qc) : Qc :=
  let tr1 := high c - low c in
  let tr2 := Js.abs (high c - prevClose) in
  let tr3 := Js.abs (low c - prevClose) in
  Js.max (Js.max tr1 tr2) tr3.

(** The true ranges of the candles [1 ..], each against its predecessor. *)
Fixpoint trueRanges (candles : list CandleData) : list Qc :=
  match candles with
  | prev :: (c :: _) as t => true_range c (close prev) :: trueRanges t
  | _ => []
  end.

(** [calculateATR(candles, period = 14)] of technicalAnalysis.ts. *)
Definition calculateATR (candles : list CandleData) (period : nat) : Qc :=
  if (length candles <? period)%nat then 0
  else Js.sum (Js.slice_last period (trueRanges candles)) / Js.of_nat period.

End TA.

(** ** candlestickAnalysis.ts *)

Module Candlestick.

Inductive CandlestickPattern : Type :=
| BULLISH_ENGULFING | BEARISH_ENGULFING | HAMMER | INVERTED_HAMMER
| MORNING_STAR | EVENING_STAR | DOJI | DARK_CLOUD_COVER | PIERCING_LINE
| THREE_WHITE_SOLDIERS | THREE_BLACK_CROWS | BULLISH_HARAMI | BEARISH_HARAMI
| SHOOTING_STAR | HANGING_MAN | TWEEZER_TOP | TWEEZER_BOTTOM | SPINNING_TOP
| INSIDE_BAR.

Inductive Trend : Type := BULLISH | BEARISH | NEUTRAL.

Definition Trend_eqb (a b : Trend) : bool :=
  match a, b with
  | BULLISH, BULLISH | BEARISH, BEARISH | NEUTRAL, NEUTRAL => true
  | _, _ => false
  end.

(** [description] is [getPatternDescription(pattern)], a fixed bilingual
    text determined by [pattern]; the record does not carry it. *)
Record PatternResult : Type := mkPattern {
  pattern : CandlestickPattern;
  significance : Qc;
  trend : Trend;
  candles : list nat
}.

Definition isDoji (candle : CandleData) : bool :=
  let bodySize := Js.abs (open candle - close candle) in
  let totalSize := high candle - low candle in
  Js.gtb totalSize 0 && Js.ltb (bodySize / totalSize) '0.05.

Definition isBullishEngulfing (current previous : CandleData) : bool :=
  let isPreviousBearish := Js.ltb (close previous) (open previous) in
  let isCurrentBullish := Js.gtb (close current) (open current) in
  let isEngulfing := Js.ltb (open current) (close previous)
                     && Js.gtb (close current) (open previous) in
  isPreviousBearish && isCurrentBullish && isEngulfing.

Definition isBearishEngulfing (current previous : CandleData) : bool :=
  let isPreviousBullish := Js.gtb (close previous) (open previous) in
  let isCurrentBearish := Js.ltb (close current) (open current) in
  let isEngulfing := Js.gtb (open current) (close previous)
                     && Js.ltb (close current) (open previous) in
  isPreviousBullish && isCurrentBearish && isEngulfing.

Definition isHammer (candle : CandleData) : bool :=
  let bodySize := Js.abs (open candle - close candle) in
  let lowerShadow := Js.min (open candle) (close candle) - low candle in
  let upperShadow := high candle - Js.max (open candle) (close candle) in
  let hasLongLowerShadow := Js.leb ('2 * bodySize) lowerShadow in
  let hasShortUpperShadow := Js.leb upperShadow ('0.1 * bodySize) in
  hasLongLowerShadow && hasShortUpperShadow.

Definition isInvertedHammer (candle : CandleData) : bool :=
  let bodySize := Js.abs (open candle - close candle) in
  let lowerShadow := Js.min (open candle) (close candle) - low candle in
  let upperShadow := high candle - Js.max (open candle) (close candle) in
  let hasLongUpperShadow := Js.leb ('2 * bodySize) upperShadow in
  let hasShortLowerShadow := Js.leb lowerShadow ('0.1 * bodySize) in
  hasLongUpperShadow && hasShortLowerShadow.

(** The three-candle predicates read [candles[index - 2 .. index]]; their
    caller only passes indices inside the array. *)
Definition three_at (candles : list CandleData) (index : nat)
  : option (CandleData * CandleData * CandleData) :=
  match nth_error candles (index - 2), nth_error candles (index - 1),
        nth_error candles index with
  | Some first, Some middle, Some last => Some (first, middle, last)
  | _, _, _ => None
  end.

Definition isMorningStar (candles : list CandleData) (index : nat) : bool :=
  if (index <? 2)%nat then false
  else match three_at candles index with
  | Some (first, middle, last) =>
      let isFirstBearish := Js.ltb (close first) (open first) in
      let isLastBullish := Js.gtb (close last) (open last) in
      let middleBodySize := Js.abs (open middle - close middle) in
      let firstBodySize := Js.abs (open first - close first) in
      let isMiddleSmall := Js.ltb middleBodySize ('0.3 * firstBodySize) in
      let isLastClosingHigh :=
        Js.gtb (close last) ((open first + close first) / '2) in
      isFirstBearish && isMiddleSmall && isLastBullish && isLastClosingHigh
  | None => false
  end.

Definition isEveningStar (candles : list CandleData) (index : nat) : bool :=
  if (index <? 2)%nat then false
  else match three_at candles index with
  | Some (first, middle, last) =>
      let isFirstBullish := Js.gtb (close first) (open first) in
      let isLastBearish := Js.ltb (close last) (open last) in
      let middleBodySize := Js.abs (open middle - close middle) in
      let firstBodySize := Js.abs (open first - close first) in
      let isMiddleSmall := Js.ltb middleBodySize ('0.3 * firstBodySize) in
      let isLastClosingLow :=
        Js.ltb (close last) ((open first + close first) / '2) in
      isFirstBullish && isMiddleSmall && isLastBearish && isLastClosingLow
  | None => false
  end.

Definition isThreeWhiteSoldiers (candles : list CandleData) (index : nat)
  : bool :=
  if (index <? 2)%nat then false
  else match three_at candles index with
  | Some (first, second, third) =>
      let allBullish := Js.gtb (close first) (open first)
                        && Js.gtb (close second) (open second)
                        && Js.gtb (close third) (open third) in
      let properOpening :=
        Js.gtb (open second) (open first) && Js.ltb (open second) (close first)
        && Js.gtb (open third) (open second)
        && Js.ltb (open third) (close second) in
      let higherClosing := Js.gtb (close second) (close first)
                           && Js.gtb (close third) (close second) in
      let smallUpperShadows :=
        Js.ltb (high first - close first) ('0.2 * (close first - open first))
        && Js.ltb (high second - close second)
                  ('0.2 * (close second - open second))
        && Js.ltb (high third - close third)
                  ('0.2 * (close third - open third)) in
      allBullish && properOpening && higherClosing && smallUpperShadows
  | None => false
  end.

Definition isThreeBlackCrows (candles : list CandleData) (index : nat)
  : bool :=
  if (index <? 2)%nat then false
  else match three_at candles index with
  | Some (first, second, third) =>
      let allBearish := Js.ltb (close first) (open first)
                        && Js.ltb (close second) (open second)
                        && Js.ltb (close third) (open third) in
      let properOpening :=
        Js.ltb (open second) (open first) && Js.gtb (open second) (close first)
        && Js.ltb (open third) (open second)
        && Js.gtb (open third) (close second) in
      let lowerClosing := Js.ltb (close second) (close first)
                          && Js.ltb (close third) (close second) in
      let smallLowerShadows :=
        Js.ltb (close first - low first) ('0.2 * (open first - close first))
        && Js.ltb (close second - low second)
                  ('0.2 * (open second - close second))
        && Js.ltb (close third - low third)
                  ('0.2 * (open third - close third)) in
      allBearish && properOpening && lowerClosing && smallLowerShadows
  | None => false
  end.

Definition getPatternTrend (p : CandlestickPattern) : Trend :=
  match p with
  | BULLISH_ENGULFING | HAMMER | MORNING_STAR | PIERCING_LINE
  | THREE_WHITE_SOLDIERS | BULLISH_HARAMI | TWEEZER_BOTTOM => BULLISH
  | BEARISH_ENGULFING | EVENING_STAR | DARK_CLOUD_COVER | THREE_BLACK_CROWS
  | BEARISH_HARAMI | SHOOTING_STAR | HANGING_MAN | TWEEZER_TOP => BEARISH
  | DOJI | INVERTED_HAMMER | SPINNING_TOP | INSIDE_BAR => NEUTRAL
  end.

Definition baseSignificance (p : CandlestickPattern) : Qc :=
  match p with
  | BULLISH_ENGULFING => '75 | BEARISH_ENGULFING => '75
  | HAMMER => '65 | INVERTED_HAMMER => '60
  | MORNING_STAR => '85 | EVENING_STAR => '85
  | DOJI => '40 | DARK_CLOUD_COVER => '65 | PIERCING_LINE => '65
  | THREE_WHITE_SOLDIERS => '90 | THREE_BLACK_CROWS => '90
  | BULLISH_HARAMI => '60 | BEARISH_HARAMI => '60
  | SHOOTING_STAR => '70 | HANGING_MAN => '70
  | TWEEZER_TOP => '65 | TWEEZER_BOTTOM => '65
  | SPINNING_TOP => '35 | INSIDE_BAR => '55
  end.

(** [candles[i].volume || 0]. *)
Definition volume_at (candles : list CandleData) (i : nat) : Qc :=
  Js.or_default (option_map volume (nth_error candles i)) 0.

Definition calculateSignificance (p : CandlestickPattern)
    (candles : list CandleData) (index : nat) (prevTrend : Trend) : Qc :=
  let significance := Js.or_default (Some (baseSignificance p)) '50 in
  let patternTrend := getPatternTrend p in
  let significance :=
    if negb (Trend_eqb patternTrend NEUTRAL)
       && negb (Trend_eqb patternTrend prevTrend)
    then significance + '10 else significance in
  let currentVolume := volume_at candles index in
  let significance :=
    if (0 <? index)%nat
    then let prevVolume := volume_at candles (index - 1) in
         if Js.gtb currentVolume (prevVolume * '1.5)
         then significance + '10 else significance
    else significance in
  Js.min '100 (Js.max 0 significance).

(** [determineCurrentTrend(candles, lookback = 10)].  With a start price
    of zero [priceChange] is a quotient by zero: an infinity of the sign of
    the change, which passes the test of that sign, or [NaN], which passes
    neither. *)
Definition determineCurrentTrend (candles : list CandleData) (lookback : nat)
  : Trend :=
  if (length candles <? lookback)%nat then NEUTRAL
  else
    let start := (length candles - lookback)%nat in
    match nth_error candles start, Js.last_elem candles with
    | Some s, Some e =>
        let startPrice := close s in
        let endPrice := close e in
        if Js.eqb startPrice 0 then
          if Js.gtb (endPrice - startPrice) 0 then BULLISH
          else if Js.ltb (endPrice - startPrice) 0 then BEARISH
          else NEUTRAL
        else
          let priceChange := ((endPrice - startPrice) / startPrice) * '100 in
          if Js.gtb priceChange '3 then BULLISH
          else if Js.ltb priceChange '(-3) then BEARISH
          else NEUTRAL
    | _, _ => NEUTRAL
    end.

(** The pushes of one iteration [i] of the scan, in source order. *)
Definition patterns_at (candles : list CandleData) (prevTrend : Trend)
    (i : nat) (current previous : CandleData) : list PatternResult :=
  let found (b : bool) (p : CandlestickPattern) (t : Trend) (idx : list nat) :=
    if b then [mkPattern p (calculateSignificance p candles i prevTrend) t idx]
    else [] in
  found (isDoji current) DOJI NEUTRAL [i]
  ++ found (isBullishEngulfing current previous) BULLISH_ENGULFING BULLISH
       [(i - 1)%nat; i]
  ++ found (isBearishEngulfing current previous) BEARISH_ENGULFING BEARISH
       [(i - 1)%nat; i]
  ++ found (isHammer current) HAMMER BULLISH [i]
  ++ found (isInvertedHammer current) INVERTED_HAMMER NEUTRAL [i]
  ++ found (isMorningStar candles i) MORNING_STAR BULLISH
       [(i - 2)%nat; (i - 1)%nat; i]
  ++ found (isEveningStar candles i) EVENING_STAR BEARISH
       [(i - 2)%nat; (i - 1)%nat; i]
  ++ found ((2 <=? i)%nat && isThreeWhiteSoldiers candles i)
       THREE_WHITE_SOLDIERS BULLISH [(i - 2)%nat; (i - 1)%nat; i]
  ++ found ((2 <=? i)%nat && isThreeBlackCrows candles i)
       THREE_BLACK_CROWS BEARISH [(i - 2)%nat; (i - 1)%nat; i].

Definition analyzeCandlestickPatterns (candles : list CandleData)
  : list PatternResult :=
  if (length candles <? 3)%nat then []
  else
    let prevTrend := determineCurrentTrend candles 10 in
    let results :=
      flat_map
        (fun i =>
           match nth_error candles i, nth_error candles (i - 1) with
           | Some current, Some previous =>
               patterns_at candles prevTrend i current previous
           | _, _ => []
           end)
        (seq 2 (length candles - 2)) in
    Js.sort (fun a b => significance b - significance a) results.

(** The per-timeframe weight table of [incorporateCandlestickAnalysis],
    with its [|| 0.5] default. *)
Definition timeframeWeight (timeframe : string) : Qc :=
  if String.eqb timeframe "1h" then '0.6
  else if String.eqb timeframe "4h" then '0.85
  else if String.eqb timeframe "1d" then '1.0
  else if String.eqb timeframe "1w" then '1.2
  else '0.5.

(** One step of the [forEach] over the significant patterns. *)
Definition adjust (weight currentConfidence : Qc) (confidenceAdjustment : Qc)
    (p : PatternResult) : Qc :=
  let adjustmentBase := (significance p - '60) / '100 in
  if Trend_eqb (trend p) BULLISH && Js.gtb currentConfidence 0
  then confidenceAdjustment + adjustmentBase * weight
  else if Trend_eqb (trend p) BEARISH && Js.ltb currentConfidence 0
  then confidenceAdjustment - adjustmentBase * weight
  else if (Trend_eqb (trend p) BULLISH && Js.ltb currentConfidence 0)
          || (Trend_eqb (trend p) BEARISH && Js.gtb currentConfidence 0)
  then confidenceAdjustment - adjustmentBase * weight * '0.5
  else confidenceAdjustment.

(** [incorporateCandlestickAnalysis]: the adjusted confidence and the
    supporting patterns. *)
Definition incorporateCandlestickAnalysis (patterns : list PatternResult)
    (timeframe : string) (currentConfidence : Qc)
  : Qc * list PatternResult :=
  match patterns with
  | [] => (currentConfidence, [])
  | _ =>
      let weight := timeframeWeight timeframe in
      let significantPatterns :=
        Js.slice (filter (fun p => Js.gtb (significance p) '60) patterns) 0 3 in
      let confidenceAdjustment :=
        fold_left (adjust weight currentConfidence) significantPatterns 0 in
      let confidenceAdjustment :=
        Js.max '(-0.25) (Js.min '0.25 confidenceAdjustment) in
      let adjustedConfidence := currentConfidence + confidenceAdjustment in
      (Js.max '(-1) (Js.min 1 adjustedConfidence), significantPatterns)
  end.

End Candlestick.

(** ** The multi-timeframe engine: declarations shared by its two copies

    The repository holds two copies of the engine module.  Their
    interfaces, the body of the fusion loop, the reasoning text, the ATR
    helper and the backtest are the same text in both; the copies differ
    in the weight table, the default leverage bound, the borderline rule,
    the market-condition block and the DCA ladder, which are kept apart
    below ([EngineA] is the copy with the 50x bound, [EngineB] the one with
    the 15x bound). *)

Module Analysis.

Record Divergence : Type := mkDivergence {
  bullish : bool;
  bearish : bool;
  strength : Qc
}.

(** [interface MultiTimeframeAnalysis]; the optional fields are [option]s. *)
Record MultiTimeframeAnalysis : Type := mkAnalysis {
  timeframe : string;
  trend : string;
  rsi : Qc;
  emaStatus : string;
  marketStructure : list string;
  volumeSupport : list Qc;
  divergence : Divergence;
  confidence : Qc;
  candleData : option (list CandleData);
  candlestickPatterns : option (list Candlestick.PatternResult)
}.

(** [analysis.candlestickPatterns = supportingPatterns]. *)
Definition set_candlestickPatterns (a : MultiTimeframeAnalysis)
    (ps : list Candlestick.PatternResult) : MultiTimeframeAnalysis :=
  mkAnalysis (timeframe a) (trend a) (rsi a) (emaStatus a)
    (marketStructure a) (volumeSupport a) (divergence a) (confidence a)
    (candleData a) (Some ps).

End Analysis.

(** A [Record<string, MultiTimeframeAnalysis>]: the entries in the order
    [Object.entries] yields them (insertion order for these keys).  Keys
    that name a member of [Object.prototype] are outside the model. *)
Definition Analyses : Type := list (string * Analysis.MultiTimeframeAnalysis).

(** [analyses[key]]. *)
Fixpoint lookup (analyses : Analyses) (key : string)
  : option Analysis.MultiTimeframeAnalysis :=
  match analyses with
  | [] => None
  | (k, a) :: r => if String.eqb k key then Some a else lookup r key
  end.

(** A template literal: its text and its interpolated values, in order.
    [Fixed1 x] stands for [x.toFixed(1)], [Num x] for the default
    rendering of a number. *)
Inductive Piece : Type :=
| Txt (s : string)
| Fixed1 (x : Qc)
| Num (x : Qc)
| PatternName (p : Candlestick.CandlestickPattern).

Definition Message : Type := list Piece.

Inductive Signal : Type := BUY | SELL | NEUTRAL.

Definition Signal_eqb (a b : Signal) : bool :=
  match a, b with
  | BUY, BUY | SELL, SELL | NEUTRAL, NEUTRAL => true
  | _, _ => false
  end.

Module Market.

Inductive PrimaryTrend : Type := BULLISH | BEARISH | NEUTRAL.
Inductive VolumeProfile : Type := INCREASING | DECREASING | FLAT.

Record MarketCondition : Type := mkMarketCondition {
  primaryTrend : PrimaryTrend;
  strength : Qc;
  volatility : Qc;
  momentum : Qc;
  supports : list Qc;
  resistances : list Qc;
  volumeProfile : VolumeProfile;
  timeframe : string;
  lastUpdated : Z
}.

Record OptimizedParameters : Type := mkOptimizedParameters {
  stopLossPercentage : Qc;
  takeProfitPercentage : Qc;
  entryConfidenceThreshold : Qc;
  leverageMultiplier : Qc;
  durationHoldHours : Qc;
  trailingStopActivationPercentage : Qc;
  useMarketOrders : bool;
  tradesPerDay : Qc
}.

End Market.

Module Decision.

(** The [indicators] bag of a decision. *)
Record Indicators : Type := mkIndicators {
  rsi : Qc;
  emaStatus : string;
  marketStructure : list string;
  volumeSupport : list Qc;
  divergence : Analysis.Divergence;
  candlestickPatterns : list Candlestick.PatternResult
}.

(** [interface AiTradingDecision]; [timestamp] is the clock reading of
    [new Date()]. *)
Record AiTradingDecision : Type := mkDecision {
  signal : Signal;
  confidence : Qc;
  timeframe : string;
  price : Qc;
  reasoning : list Message;
  supportingIndicators : list Message;
  indicators : Indicators;
  leverageSuggestion : Z;
  stopLossSuggestion : Qc;
  takeProfitSuggestion : Qc;
  timestamp : Z;
  optimizedParameters : option Market.OptimizedParameters;
  marketCondition : option Market.MarketCondition
}.

End Decision.

Module Engine.

Import Analysis.

(** The state of the loop over [Object.entries(analyses)]; [entries] are
    the analyses visited so far, as the loop leaves them. *)
Record Fusion : Type := mkFusion {
  weightedConfidence : Qc;
  totalWeight : Qc;
  dominantTimeframe : string;
  highestConfidenceValue : Qc;
  entries : Analyses
}.

Definition fusion_init : Fusion := mkFusion 0 0 "" 0 [].

(** One iteration of the loop, for the weight table [timeframeWeights]
    (with its [|| 0.1] default already applied). *)
Definition fusion_step (timeframeWeights : string -> Qc) (st : Fusion)
    (entry : string * MultiTimeframeAnalysis) : Fusion :=
  let '(tf, analysis) := entry in
  let weight := timeframeWeights tf in
  let weightedConfidence :=
    weightedConfidence st + (confidence analysis - '0.5) * weight in
  let totalWeight := totalWeight st + weight in
  let dominant :=
    if Js.gtb (Js.abs (confidence analysis - '0.5)) (highestConfidenceValue st)
    then (Js.abs (confidence analysis - '0.5), tf)
    else (highestConfidenceValue st, dominantTimeframe st) in
  let '(weightedConfidence, analysis) :=
    match candleData analysis with
    | Some candleDataForTimeframe =>
        match Candlestick.analyzeCandlestickPatterns candleDataForTimeframe
        with
        | [] => (weightedConfidence, analysis)
        | candlestickPatterns =>
            let '(adjustedConfidence, supportingPatterns) :=
              Candlestick.incorporateCandlestickAnalysis candlestickPatterns
                tf (confidence analysis) in
            let confidenceAdjustment :=
              (adjustedConfidence - confidence analysis) * weight in
            (weightedConfidence + confidenceAdjustment,
             set_candlestickPatterns analysis supportingPatterns)
        end
    | None => (weightedConfidence, analysis)
    end in
  mkFusion weightedConfidence totalWeight (snd dominant) (fst dominant)
    (entries st ++ [(tf, analysis)]).

Definition fuse (timeframeWeights : string -> Qc) (analyses : Analyses)
  : Fusion :=
  fold_left (fusion_step timeframeWeights) analyses fusion_init.

(** [weightedConfidence / totalWeight + 0.5]. *)
Definition finalConfidence (st : Fusion) : Qc :=
  weightedConfidence st / totalWeight st + '0.5.

(** [analyses[key]?.trend === value] and the same for [emaStatus]. *)
Definition trend_is (analyses : Analyses) (key value : string) : bool :=
  match lookup analyses key with
  | Some a => String.eqb (trend a) value
  | None => false
  end.

Definition emaStatus_is (analyses : Analyses) (key value : string) : bool :=
  match lookup analyses key with
  | Some a => String.eqb (emaStatus a) value
  | None => false
  end.

Definition includes (l : list string) (s : string) : bool :=
  existsb (String.eqb s) l.

Definition when {A : Type} (b : bool) (l : list A) : list A :=
  if b then l else [].

(** The candlestick sentence of the reasoning, for patterns of trend [t]. *)
Definition pattern_reason (a : MultiTimeframeAnalysis) (t : Candlestick.Trend)
  : list Message :=
  match candlestickPatterns a with
  | Some (_ :: _ as ps) =>
      match filter (fun p => Candlestick.Trend_eqb (Candlestick.trend p) t) ps
      with
      | topPattern :: _ =>
          [[Txt "Detected "; PatternName (Candlestick.pattern topPattern);
            Txt " candlestick pattern (";
            Num (Candlestick.significance topPattern); Txt "% strength)"]]
      | [] => []
      end
  | _ => []
  end.

(** The sentences pushed after the signal is chosen. *)
Definition reasons (signal : Signal) (finalConfidence : Qc)
    (dominantAnalysis : MultiTimeframeAnalysis) (dominantTimeframe : string)
  : list Message :=
  match signal with
  | BUY =>
      [[Txt "Strong bullish signal with "; Fixed1 (finalConfidence * '100);
        Txt "% confidence"]]
      ++ when (Js.ltb (rsi dominantAnalysis) '40)
           [[Txt "RSI is oversold at "; Fixed1 (rsi dominantAnalysis);
             Txt " on "; Txt dominantTimeframe; Txt " timeframe"]]
      ++ when (String.eqb (emaStatus dominantAnalysis) "bullish")
           [[Txt "EMAs aligned bullishly on "; Txt dominantTimeframe;
             Txt " timeframe"]]
      ++ when (bullish (divergence dominantAnalysis))
           [[Txt "Bullish divergence detected with ";
             Fixed1 (strength (divergence dominantAnalysis));
             Txt "% strength"]]
      ++ when (includes (marketStructure dominantAnalysis)
                 "Higher High & Higher Low")
           [[Txt "Market structure shows higher highs and higher lows"]]
      ++ when (includes (marketStructure dominantAnalysis) "BOS Formation")
           [[Txt "Break of structure detected, potential trend reversal"]]
      ++ when (includes (marketStructure dominantAnalysis) "SMC Valid")
           [[Txt "Smart Money Concept validation: price at institutional interest area"]]
      ++ pattern_reason dominantAnalysis Candlestick.BULLISH
  | SELL =>
      [[Txt "Strong bearish signal with ";
        Fixed1 ((1 - finalConfidence) * '100); Txt "% confidence"]]
      ++ when (Js.gtb (rsi dominantAnalysis) '60)
           [[Txt "RSI is overbought at "; Fixed1 (rsi dominantAnalysis);
             Txt " on "; Txt dominantTimeframe; Txt " timeframe"]]
      ++ when (String.eqb (emaStatus dominantAnalysis) "bearish")
           [[Txt "EMAs aligned bearishly on "; Txt dominantTimeframe;
             Txt " timeframe"]]
      ++ when (bearish (divergence dominantAnalysis))
           [[Txt "Bearish divergence detected with ";
             Fixed1 (strength (divergence dominantAnalysis));
             Txt "% strength"]]
      ++ when (includes (marketStructure dominantAnalysis)
                 "Lower High & Lower Low")
           [[Txt "Market structure shows lower highs and lower lows"]]
      ++ when (includes (marketStructure dominantAnalysis) "BOS Formation")
           [[Txt "Break of structure detected, potential trend reversal"]]
      ++ when (includes (marketStructure dominantAnalysis) "Bull Trap")
           [[Txt "Bull trap detected, false breakout to the upside"]]
      ++ pattern_reason dominantAnalysis Candlestick.BEARISH
  | NEUTRAL =>
      [[Txt "No clear signal detected, market is in consolidation"];
       [Txt "Confidence level too low at "; Fixed1 (finalConfidence * '100);
        Txt "%"]]
  end.

(** The list of supporting timeframes. *)
Definition supporting (signal : Signal) (analyses : Analyses)
  : list Message :=
  flat_map
    (fun entry : string * MultiTimeframeAnalysis =>
       let '(tf, analysis) := entry in
       when ((Signal_eqb signal BUY && Js.gtb (confidence analysis) '0.65)
             || (Signal_eqb signal SELL && Js.ltb (confidence analysis) '0.35))
         [[Txt tf; Txt " timeframe ("; Fixed1 (confidence analysis * '100);
           Txt "%)"]])
    analyses.

(** [absConfidence] and the suggested leverage. *)
Definition absConfidence (signal : Signal) (finalConfidence : Qc) : Qc :=
  if Signal_eqb signal BUY then finalConfidence else 1 - finalConfidence.

Definition suggest_leverage (signal : Signal) (finalConfidence : Qc)
    (minLeverage maxLeverage : Qc) : Z :=
  let leverageRange := maxLeverage - minLeverage in
  Js.round (minLeverage + (leverageRange * absConfidence signal finalConfidence)).

Definition stopLoss (signal : Signal) (currentPrice : Qc) : Qc :=
  match signal with
  | BUY => currentPrice * '0.98
  | SELL => currentPrice * '1.02
  | NEUTRAL => 0
  end.

Definition takeProfit (signal : Signal) (currentPrice : Qc) : Qc :=
  match signal with
  | BUY => currentPrice * '1.06
  | SELL => currentPrice * '0.94
  | NEUTRAL => 0
  end.

Definition indicators_of (dominantAnalysis : MultiTimeframeAnalysis)
  : Decision.Indicators :=
  Decision.mkIndicators (rsi dominantAnalysis) (emaStatus dominantAnalysis)
    (marketStructure dominantAnalysis) (volumeSupport dominantAnalysis)
    (divergence dominantAnalysis)
    (match candlestickPatterns dominantAnalysis with
     | Some ps => ps
     | None => []
     end).

(** The reported confidence: relative to the winning side. *)
Definition reported_confidence (signal : Signal) (finalConfidence : Qc) : Qc :=
  match signal with
  | BUY => finalConfidence
  | SELL => 1 - finalConfidence
  | NEUTRAL => '0.5
  end.

(** The module-local [calculateATR(candles, period)].  Reading a field of
    a candle outside the array raises: [None]. *)
Definition calculateATR (candles : list CandleData) (period : nat)
  : option Qc :=
  if (length candles <? period + 1)%nat then Some 1
  else
    option_map (fun trSum => trSum / Js.of_nat period)
      (fold_left
         (fun (acc : option Qc) (i : nat) =>
            match acc, nth_error candles (length candles - i),
                  nth_error candles (length candles - i - 1) with
            | Some trSum, Some current, Some prev =>
                Some (trSum + TA.true_range current (close prev))
            | _, _, _ => None
            end)
         (seq 1 period) (Some 0)).

End Engine.

(** ** The backtest (the same text in both copies of the engine) *)

Inductive PositionType : Type := LONG | SHORT.

Definition PositionType_eqb (a b : PositionType) : bool :=
  match a, b with
  | LONG, LONG | SHORT, SHORT => true
  | _, _ => false
  end.

(** A number that may be [Infinity]: the type of [profitFactor]. *)
Inductive ExtNumber : Type :=
| Finite (x : Qc)
| Infinity.

Module Trade.

(** An element of [trades]; [entryTime] and [exitTime] are always set and
    [dcaLevel] never is. *)
Record Trade : Type := mkTrade {
  entryPrice : Qc;
  exitPrice : Qc;
  type : PositionType;
  profit : Qc;
  profitPercentage : Qc;
  timestamp : Z;
  entryTime : Z;
  exitTime : Z
}.

End Trade.

Module Result.

Record BacktestResult : Type := mkResult {
  totalTrades : nat;
  winningTrades : nat;
  losingTrades : nat;
  winRate : Qc;
  finalCapital : Qc;
  totalReturn : Qc;
  maxDrawdown : Qc;
  netProfit : Qc;
  netProfitPercent : Qc;
  profitFactor : ExtNumber;
  maxDrawdownPercent : Qc;
  finalBalance : Qc;
  trades : list Trade.Trade
}.

End Result.

Module Backtest.

(** The mutable locals of [backtestStrategy]. *)
Record Sim : Type := mkSim {
  capital : Qc;
  highWaterMark : Qc;
  maxDrawdown : Qc;
  trades : list Trade.Trade;
  inPosition : bool;
  positionType : PositionType;
  entryPrice : Qc;
  entryTime : Z;
  positionSize : Qc
}.

Definition sim_init (initialCapital : Qc) : Sim :=
  mkSim initialCapital initialCapital 0 [] false LONG 0 0%Z 0.

(** [candles[i].time] for an index inside the array. *)
Definition time_at (candles : list CandleData) (i : nat) : Z :=
  match nth_error candles i with
  | Some c => time c
  | None => 0%Z
  end.

(** [candles[candles.length - 1].close] of a non-empty array. *)
Definition last_close (candles : list CandleData) : Qc :=
  match Js.last_elem candles with
  | Some c => close c
  | None => 0
  end.

(** [a[a.length - 1]] of an array with [undefined] slots. *)
Definition last_value (a : list (option Qc)) : option Qc :=
  match Js.last_elem a with
  | Some v => v
  | None => None
  end.

(** The profit of closing a position at [exitPrice]. *)
Definition profit_of (positionType : PositionType)
    (positionSize entryPrice exitPrice leverage : Qc) : Qc :=
  match positionType with
  | LONG => positionSize * (exitPrice - entryPrice) / entryPrice * leverage
  | SHORT => positionSize * (entryPrice - exitPrice) / entryPrice * leverage
  end.

(** [currentEma8 && currentEma21 && currentEma8 < currentEma21], and the
    same with [>]. *)
Definition ema_below (currentEma8 currentEma21 : option Qc) : bool :=
  match currentEma8, currentEma21 with
  | Some e8, Some e21 =>
      Js.truthy currentEma8 && Js.truthy currentEma21 && Js.ltb e8 e21
  | _, _ => false
  end.

Definition ema_above (currentEma8 currentEma21 : option Qc) : bool :=
  match currentEma8, currentEma21 with
  | Some e8, Some e21 =>
      Js.truthy currentEma8 && Js.truthy currentEma21 && Js.gtb e8 e21
  | _, _ => false
  end.

(** The exit block of one iteration; [t] is [candles[i].time]. *)
Definition exit_step (leverage : Qc) (t : Z)
    (currentRsi : Qc) (currentEma8 currentEma21 : option Qc)
    (currentPrice : Qc) (st : Sim) : Sim :=
  if inPosition st then
    let exitSignal :=
      match positionType st with
      | LONG => Js.gtb currentRsi '70 || ema_below currentEma8 currentEma21
      | SHORT => Js.ltb currentRsi '30 || ema_above currentEma8 currentEma21
      end in
    if exitSignal then
      let exitPrice := currentPrice in
      let profit :=
        profit_of (positionType st) (positionSize st) (entryPrice st)
          exitPrice leverage in
      let capital := capital st + profit in
      let '(highWaterMark, maxDrawdown) :=
        if Js.gtb capital (highWaterMark st)
        then (capital, maxDrawdown st)
        else
          let drawdown := (highWaterMark st - capital) / highWaterMark st in
          if Js.gtb drawdown (maxDrawdown st)
          then (highWaterMark st, drawdown)
          else (highWaterMark st, maxDrawdown st) in
      mkSim capital highWaterMark maxDrawdown
        (trades st
         ++ [Trade.mkTrade (entryPrice st) exitPrice (positionType st) profit
               ((profit / positionSize st) * '100) t (entryTime st) t])
        false (positionType st) (entryPrice st) (entryTime st)
        (positionSize st)
    else st
  else st.

(** The entry block of one iteration.  The ATR computed on entry
    ([calculateATR(windowCandles.slice(-14), 14)]) is not used. *)
Definition entry_step (riskPerTrade : Qc) (t : Z)
    (currentRsi : Qc) (currentEma8 currentEma21 : option Qc)
    (currentPrice : Qc) (st : Sim) : Sim :=
  if negb (inPosition st) then
    let entrySignal :=
      if Js.ltb currentRsi '30 && ema_above currentEma8 currentEma21
      then Some LONG
      else if Js.gtb currentRsi '70 && ema_below currentEma8 currentEma21
      then Some SHORT
      else None in
    match entrySignal with
    | Some side =>
        mkSim (capital st) (highWaterMark st) (maxDrawdown st) (trades st)
          true side currentPrice t (capital st * (riskPerTrade / '100))
    | None => st
    end
  else st.

(** The body of [for (let i = 50; i < candles.length - 1; i++)]. *)
Definition step (candles : list CandleData) (leverage riskPerTrade : Qc)
    (st : Sim) (i : nat) : Sim :=
  let windowCandles := Js.slice candles (i - 50) (i + 1) in
  let rsiValues := TA.calculateRSI windowCandles 14 in
  let currentRsi := Js.or_default (last_value rsiValues) '50 in
  let closePrices := map close windowCandles in
  let ema8 := TA.calculateEMA closePrices 8 in
  let ema21 := TA.calculateEMA closePrices 21 in
  let currentEma8 := last_value ema8 in
  let currentEma21 := last_value ema21 in
  let currentPrice := last_close windowCandles in
  let t := time_at candles i in
  entry_step riskPerTrade t currentRsi currentEma8 currentEma21 currentPrice
    (exit_step leverage t currentRsi currentEma8 currentEma21 currentPrice st).

(** The forced close of a position still open after the loop. *)
Definition close_open (candles : list CandleData) (leverage : Qc) (st : Sim)
  : Sim :=
  if inPosition st then
    let exitPrice := last_close candles in
    let profit :=
      profit_of (positionType st) (positionSize st) (entryPrice st)
        exitPrice leverage in
    let t := time_at candles (length candles - 1) in
    mkSim (capital st + profit) (highWaterMark st) (maxDrawdown st)
      (trades st
       ++ [Trade.mkTrade (entryPrice st) exitPrice (positionType st) profit
             ((profit / positionSize st) * '100) t (entryTime st) t])
      (inPosition st) (positionType st) (entryPrice st) (entryTime st)
      (positionSize st)
  else st.

Definition simulate (candles : list CandleData)
    (initialCapital leverage riskPerTrade : Qc) : Sim :=
  close_open candles leverage
    (fold_left (step candles leverage riskPerTrade)
       (seq 50 (length candles - 1 - 50)) (sim_init initialCapital)).

Definition winners (trades : list Trade.Trade) : list Trade.Trade :=
  filter (fun t => Js.gtb (Trade.profit t) 0) trades.

Definition losers (trades : list Trade.Trade) : list Trade.Trade :=
  filter (fun t => Js.leb (Trade.profit t) 0) trades.

(** [trades.filter(t => t.profit > 0).reduce((sum, t) => sum + t.profit, 0)]
    and the absolute value of the same over [t.profit <= 0]. *)
Definition totalProfit (trades : list Trade.Trade) : Qc :=
  fold_left (fun sum t => sum + Trade.profit t) (winners trades) 0.

Definition totalLoss (trades : list Trade.Trade) : Qc :=
  Js.abs (fold_left (fun sum t => sum + Trade.profit t) (losers trades) 0).

(** [backtestStrategy(candles, initialCapital, leverage, riskPerTrade,
    aiStrategy, options)]; the last two arguments are never read. *)
Definition backtestStrategy (candles : list CandleData)
    (initialCapital leverage riskPerTrade : Qc) : Result.BacktestResult :=
  if (length candles <? 50)%nat then
    Result.mkResult 0 0 0 0 initialCapital 0 0 0 0 (Finite 0) 0
      initialCapital []
  else
    let st := simulate candles initialCapital leverage riskPerTrade in
    let capital := capital st in
    let trades := trades st in
    let totalTrades := length trades in
    let winningTrades := length (winners trades) in
    let losingTrades := length (losers trades) in
    let winRate :=
      if (0 <? totalTrades)%nat
      then (Js.of_nat winningTrades / Js.of_nat totalTrades) * '100
      else 0 in
    let totalReturn := (capital - initialCapital) / initialCapital * '100 in
    let totalProfit := totalProfit trades in
    let totalLoss := totalLoss trades in
    let profitFactor :=
      if Js.gtb totalLoss 0 then Finite (totalProfit / totalLoss)
      else if Js.gtb totalProfit 0 then Infinity
      else Finite 0 in
    let netProfit := capital - initialCapital in
    let netProfitPercent := (netProfit / initialCapital) * '100 in
    let maxDrawdownPercent := maxDrawdown st * '100 in
    Result.mkResult totalTrades winningTrades losingTrades winRate capital
      totalReturn (maxDrawdown st) netProfit netProfitPercent profitFactor
      maxDrawdownPercent capital trades.

End Backtest.

(** ** The DCA ladder: declarations *)

Inductive MarketTag : Type := TAG_BULLISH | TAG_BEARISH | TAG_NEUTRAL | TAG_VOLATILE.

Inductive PriceAction : Type := RANGING | TRENDING | REVERSAL | UNKNOWN.

Record DCAOptions : Type := mkDCAOptions {
  dcaOptimization : option bool;
  dcaAdaptivePositioning : option bool;
  dcaVariableAmount : option bool;
  dcaReinforcement : option bool;
  currentPnl : option Qc;
  priceAction : option PriceAction;
  supportResistance : option (list Qc)
}.

Record DCALevel : Type := mkDCALevel {
  level : nat;
  price : Qc;
  amount : Qc;
  partialTakeProfit : option Qc;
  reinforcementThreshold : option Qc
}.

(** A default parameter value: used when the argument is [undefined]. *)
Definition with_default {A : Type} (x : option A) (d : A) : A :=
  match x with
  | Some v => v
  | None => d
  end.

(** ** The first copy of the engine (leverage up to 50x) *)

Module EngineA.

Import Analysis.

(** [timeframeWeights[timeframe] || 0.1]. *)
Definition timeframeWeights (timeframe : string) : Qc :=
  if String.eqb timeframe "1m" then '0.05
  else if String.eqb timeframe "5m" then '0.1
  else if String.eqb timeframe "15m" then '0.5
  else if String.eqb timeframe "30m" then '0.2
  else if String.eqb timeframe "1h" then '0.5
  else if String.eqb timeframe "4h" then '0.6
  else if String.eqb timeframe "1d" then '0.8
  else if String.eqb timeframe "1w" then '1.0
  else '0.1.

(** The signal and the reasoning pushed while it is chosen. *)
Definition choose_signal (analyses : Analyses) (finalConfidence : Qc)
  : Signal * list Message :=
  if Js.gtb finalConfidence '0.75 then (BUY, [])
  else if Js.ltb finalConfidence '0.25 then (SELL, [])
  else if Js.gtb finalConfidence '0.7 then
    if (Engine.trend_is analyses "15m" "bullish"
        && Engine.emaStatus_is analyses "1h" "bullish")
       || (Engine.trend_is analyses "1h" "bullish"
           && Engine.emaStatus_is analyses "4h" "bullish")
    then (BUY, [[Txt "Borderline signal elevated to BUY due to bullish alignment in shorter timeframes"]])
    else (NEUTRAL, [])
  else if Js.ltb finalConfidence '0.3 then
    if (Engine.trend_is analyses "15m" "bearish"
        && Engine.emaStatus_is analyses "1h" "bearish")
       || (Engine.trend_is analyses "1h" "bearish"
           && Engine.emaStatus_is analyses "4h" "bearish")
    then (SELL, [[Txt "Borderline signal elevated to SELL due to bearish alignment in shorter timeframes"]])
    else (NEUTRAL, [])
  else (NEUTRAL, []).

Section Builtins.

Variable sqrt : Qc -> Qc.
Variable pow : Qc -> Qc -> Qc.

(** [(current - prev) / prev] over consecutive closes. *)
Fixpoint returns (closes : list Qc) : list Qc :=
  match closes with
  | prev :: (current :: _) as t => (current - prev) / prev :: returns t
  | _ => []
  end.

(** [calculateVolatility(candles, period = 14)]; [Math.pow(x, 2)] is the
    square. *)
Definition calculateVolatility (candles : list CandleData) (period : nat)
  : Qc :=
  if (length candles <? period)%nat then '0.01
  else
    let recentCandles := Js.slice_last period candles in
    let returns := returns (map close recentCandles) in
    let mean := Js.sum returns / Js.of_nat (length returns) in
    let squaredDiffs := map (fun value => (value - mean) * (value - mean))
                            returns in
    let variance := Js.sum squaredDiffs / Js.of_nat (length squaredDiffs) in
    let volatility := sqrt variance in
    Js.max '0.005 (Js.min '0.05 volatility).

Definition market_condition (finalConfidence : Qc)
    (dominantAnalysis : MultiTimeframeAnalysis) (dominantTimeframe : string)
    (now : Z) : Market.MarketCondition :=
  Market.mkMarketCondition
    (if String.eqb (trend dominantAnalysis) "bullish" then Market.BULLISH
     else if String.eqb (trend dominantAnalysis) "bearish" then Market.BEARISH
     else Market.NEUTRAL)
    (Js.abs (finalConfidence - '0.5) * '200)
    (if (0 <? length (volumeSupport dominantAnalysis))%nat
     then calculateVolatility (with_default (candleData dominantAnalysis) []) 14
     else '0.01)
    ((finalConfidence - '0.5) * '200)
    (volumeSupport dominantAnalysis)
    []
    (if (3 <? length (volumeSupport dominantAnalysis))%nat
     then Market.INCREASING
     else if (0 <? length (volumeSupport dominantAnalysis))%nat
     then Market.FLAT else Market.DECREASING)
    dominantTimeframe
    now.

Definition is_neutral (t : Market.PrimaryTrend) : bool :=
  match t with
  | Market.NEUTRAL => true
  | _ => false
  end.

Definition optimized_parameters (signal : Signal)
    (marketCondition : Market.MarketCondition)
    (minLeverage maxLeverage : Qc) (leverageSuggestion : Z)
  : Market.OptimizedParameters :=
  let volatility := Market.volatility marketCondition in
  let strength := Market.strength marketCondition in
  Market.mkOptimizedParameters
    (if Signal_eqb signal BUY then volatility * '100 * '3
     else volatility * '100 * '2.5)
    (if Signal_eqb signal BUY then volatility * '100 * '9
     else volatility * '100 * '8)
    (if Js.gtb strength '75 then '0.65 else '0.75)
    (Js.max minLeverage
       (Js.min maxLeverage
          (Js.of_Z leverageSuggestion * (1 - volatility * '5))))
    (if is_neutral (Market.primaryTrend marketCondition) then '4 else '12)
    (volatility * '100 * '4)
    (negb (is_neutral (Market.primaryTrend marketCondition)))
    (if Js.gtb strength '50 then (if Js.gtb strength '75 then '10 else '7)
     else '5).

(** [generateTradingDecision(analyses, currentPrice, minLeverage = 10,
    maxLeverage = 50)].  [lastUpdatedNow] and [timestampNow] are the two
    readings of the clock.  The result is [None] when the code raises:
    reading a field of [analyses[dominantTimeframe]] when no entry has that
    key. *)
Definition generateTradingDecision (analyses : Analyses) (currentPrice : Qc)
    (minLeverage maxLeverage : option Qc) (lastUpdatedNow timestampNow : Z)
  : option Decision.AiTradingDecision :=
  let minLeverage := with_default minLeverage '10 in
  let maxLeverage := with_default maxLeverage '50 in
  let st := Engine.fuse timeframeWeights analyses in
  let analyses := Engine.entries st in
  let dominantTimeframe := Engine.dominantTimeframe st in
  let finalConfidence := Engine.finalConfidence st in
  let '(signal, reasoning) := choose_signal analyses finalConfidence in
  match lookup analyses dominantTimeframe with
  | None => None
  | Some dominantAnalysis =>
      let reasoning :=
        reasoning
        ++ Engine.reasons signal finalConfidence dominantAnalysis
             dominantTimeframe in
      let supportingIndicators := Engine.supporting signal analyses in
      let leverageSuggestion :=
        Engine.suggest_leverage signal finalConfidence minLeverage maxLeverage in
      let marketCondition :=
        market_condition finalConfidence dominantAnalysis dominantTimeframe
          lastUpdatedNow in
      let optimizedParameters :=
        optimized_parameters signal marketCondition minLeverage maxLeverage
          leverageSuggestion in
      Some (Decision.mkDecision signal
              (Engine.reported_confidence signal finalConfidence)
              dominantTimeframe currentPrice reasoning supportingIndicators
              (Engine.indicators_of dominantAnalysis) leverageSuggestion
              (Engine.stopLoss signal currentPrice)
              (Engine.takeProfit signal currentPrice) timestampNow
              (Some optimizedParameters) (Some marketCondition))
  end.

(** *** [calculateDCALevels] *)

Definition flag (f : DCAOptions -> option bool) (options : option DCAOptions)
  : bool :=
  match options with
  | Some o => with_default (f o) false
  | None => false
  end.

Definition is_long (positionType : PositionType) : bool :=
  PositionType_eqb positionType LONG.

(** One iteration of the loop over the support/resistance levels. *)
Definition sr_step (entryPrice : Qc) (positionType : PositionType)
    (initialSize : Qc) (levels : Z) (useVariableAmount : bool)
    (result : list DCALevel) (lvl : Qc) : list DCALevel :=
  if (Z.of_nat (length result) <? levels)%Z then
    let percentFromEntry := Js.abs ((lvl - entryPrice) / entryPrice) in
    if Js.gtb percentFromEntry '0.01 && Js.ltb percentFromEntry '0.30 then
      let amountMultiplier :=
        if useVariableAmount then 1 + (percentFromEntry * '5)
        else 1 + (Js.of_nat (length result) * '0.5) in
      let dcaAmount := initialSize * amountMultiplier in
      result
      ++ [mkDCALevel (length result + 1) lvl dcaAmount
            (Some (lvl * (if is_long positionType then '1.03 else '0.97)))
            None]
    else result
  else result.

(** One iteration of the percentage-based loop, for index [i]. *)
Definition pct_step (entryPrice : Qc) (positionType : PositionType)
    (initialSize multiplier volatilityMultiplier amountAdjustment : Qc)
    (useOptimization useVariableAmount useReinforcement : bool)
    (basePercentages : list Qc)
    (result : list DCALevel) (i : nat) : list DCALevel :=
  let adjustedPercentage := nth i basePercentages 0 * volatilityMultiplier in
  let dcaPrice := entryPrice * (1 + multiplier * adjustedPercentage) in
  let amountMultiplier :=
    if useVariableAmount then
      let levelDepth := adjustedPercentage / nth 0 basePercentages 0 in
      pow '1.5 levelDepth * amountAdjustment
    else (1 + (Js.of_nat i * '0.5)) * amountAdjustment in
  let dcaAmount := initialSize * amountMultiplier in
  let reinforcementThreshold :=
    if useReinforcement
    then Some (dcaPrice * (if is_long positionType then '1.02 else '0.98))
    else None in
  let partialTakeProfit :=
    if useOptimization
    then Some (dcaPrice * (if is_long positionType then '1.03 else '0.97))
    else None in
  result
  ++ [mkDCALevel (length result + 1) dcaPrice dcaAmount partialTakeProfit
        reinforcementThreshold].

(** [result[i].level = i + 1] for every [i], from [i = start - 1]. *)
Fixpoint renumber (start : nat) (result : list DCALevel) : list DCALevel :=
  match result with
  | [] => []
  | l :: r =>
      mkDCALevel start (price l) (amount l) (partialTakeProfit l)
        (reinforcementThreshold l)
      :: renumber (S start) r
  end.

(** The comparator of the final sort. *)
Definition by_price (positionType : PositionType) (a b : DCALevel) : Qc :=
  if is_long positionType then price b - price a else price a - price b.

(** [calculateDCALevels(entryPrice, positionType, initialSize, levels = 3,
    volatility = 0.01, marketCondition = 'NEUTRAL', options)], for an
    integer [levels]. *)
Definition calculateDCALevels (entryPrice : Qc) (positionType : PositionType)
    (initialSize : Qc) (levels : Z) (volatility : Qc)
    (marketCondition : MarketTag) (options : option DCAOptions)
  : list DCALevel :=
  let useOptimization := flag dcaOptimization options in
  let useAdaptivePositioning := flag dcaAdaptivePositioning options in
  let useVariableAmount := flag dcaVariableAmount options in
  let useReinforcement := flag dcaReinforcement options in
  let priceAction :=
    match options with
    | Some o => with_default (priceAction o) UNKNOWN
    | None => UNKNOWN
    end in
  let supportResistance :=
    match options with
    | Some o => with_default (supportResistance o) []
    | None => []
    end in
  let basePercentages := ['0.03; '0.07; '0.12; '0.18; '0.25] in
  let multiplier := if is_long positionType then '(-1) else 1 in
  let '(basePercentages, result) :=
    if useOptimization then
      let basePercentages :=
        match marketCondition, positionType with
        | TAG_VOLATILE, _ => map (fun p => p * '1.5) basePercentages
        | TAG_BULLISH, LONG => map (fun p => p * '0.8) basePercentages
        | TAG_BEARISH, SHORT => map (fun p => p * '0.8) basePercentages
        | _, _ => basePercentages
        end in
      let basePercentages :=
        match priceAction with
        | RANGING => map (fun p => p * '0.7) basePercentages
        | TRENDING => map (fun p => p * '1.3) basePercentages
        | _ => basePercentages
        end in
      if (0 <? length supportResistance)%nat && useAdaptivePositioning then
        let relevantLevels :=
          Js.sort (fun a b => if is_long positionType then a - b else b - a)
            supportResistance in
        let nearestLevels :=
          Js.slice_to
            (filter
               (fun lvl =>
                  let priceDiff := (lvl - entryPrice) / entryPrice in
                  (is_long positionType && Js.ltb priceDiff 0)
                  || (negb (is_long positionType) && Js.gtb priceDiff 0))
               relevantLevels)
            (Z.min levels (Z.of_nat (length relevantLevels))) in
        if (0 <? length nearestLevels)%nat then
          (Js.slice_to basePercentages
             (Z.max 1 (levels - Z.of_nat (length nearestLevels))),
           fold_left
             (sr_step entryPrice positionType initialSize levels
                useVariableAmount)
             nearestLevels [])
        else (basePercentages, [])
      else (basePercentages, [])
    else (basePercentages, []) in
  let remainingLevels := (levels - Z.of_nat (length result))%Z in
  let result :=
    if (0 <? remainingLevels)%Z then
      let volatilityMultiplier :=
        1 + (volatility * (if useOptimization then '25 else '15)) in
      let amountAdjustment :=
        match marketCondition, positionType with
        | TAG_BULLISH, LONG => if useOptimization then '1.3 else '1.2
        | TAG_BEARISH, SHORT => if useOptimization then '1.3 else '1.2
        | TAG_VOLATILE, _ => if useOptimization then '0.7 else '0.8
        | _, _ => '1.0
        end in
      fold_left
        (pct_step entryPrice positionType initialSize multiplier
           volatilityMultiplier amountAdjustment useOptimization
           useVariableAmount useReinforcement basePercentages)
        (seq 0 (Nat.min (Z.to_nat remainingLevels) (length basePercentages)))
        result
    else result in
  renumber 1 (Js.sort (by_price positionType) result).

End Builtins.

End EngineA.

(** ** The second copy of the engine (leverage up to 15x) *)

Module EngineB.

Import Analysis.

(** [timeframeWeights[timeframe] || 0.1]. *)
Definition timeframeWeights (timeframe : string) : Qc :=
  if String.eqb timeframe "1m" then '0.05
  else if String.eqb timeframe "5m" then '0.1
  else if String.eqb timeframe "15m" then '0.15
  else if String.eqb timeframe "30m" then '0.2
  else if String.eqb timeframe "1h" then '0.3
  else if String.eqb timeframe "4h" then '0.7
  else if String.eqb timeframe "1d" then '1.0
  else if String.eqb timeframe "1w" then '1.2
  else '0.1.

Definition choose_signal (analyses : Analyses) (finalConfidence : Qc)
  : Signal * list Message :=
  if Js.gtb finalConfidence '0.75 then (BUY, [])
  else if Js.ltb finalConfidence '0.25 then (SELL, [])
  else if Js.gtb finalConfidence '0.7
          && Engine.trend_is analyses "1d" "bullish"
          && Engine.emaStatus_is analyses "4h" "bullish"
  then (BUY, [[Txt "Borderline signal elevated to BUY due to daily and 4h bullish alignment"]])
  else if Js.ltb finalConfidence '0.3
          && Engine.trend_is analyses "1d" "bearish"
          && Engine.emaStatus_is analyses "4h" "bearish"
  then (SELL, [[Txt "Borderline signal elevated to SELL due to daily and 4h bearish alignment"]])
  else (NEUTRAL, []).

(** [generateTradingDecision(analyses, currentPrice, minLeverage = 10,
    maxLeverage = 15)]; [None] when the code raises. *)
Definition generateTradingDecision (analyses : Analyses) (currentPrice : Qc)
    (minLeverage maxLeverage : option Qc) (timestampNow : Z)
  : option Decision.AiTradingDecision :=
  let minLeverage := with_default minLeverage '10 in
  let maxLeverage := with_default maxLeverage '15 in
  let st := Engine.fuse timeframeWeights analyses in
  let analyses := Engine.entries st in
  let dominantTimeframe := Engine.dominantTimeframe st in
  let finalConfidence := Engine.finalConfidence st in
  let '(signal, reasoning) := choose_signal analyses finalConfidence in
  match lookup analyses dominantTimeframe with
  | None => None
  | Some dominantAnalysis =>
      let reasoning :=
        reasoning
        ++ Engine.reasons signal finalConfidence dominantAnalysis
             dominantTimeframe in
      let supportingIndicators := Engine.supporting signal analyses in
      let leverageSuggestion :=
        Engine.suggest_leverage signal finalConfidence minLeverage maxLeverage in
      Some (Decision.mkDecision signal
              (Engine.reported_confidence signal finalConfidence)
              dominantTimeframe currentPrice reasoning supportingIndicators
              (Engine.indicators_of dominantAnalysis) leverageSuggestion
              (Engine.stopLoss signal currentPrice)
              (Engine.takeProfit signal currentPrice) timestampNow
              None None)
  end.

(** [calculateDCALevels(entryPrice, positionType, initialSize, levels = 3,
    volatility = 0.01)] of this copy: no final sort. *)
Definition calculateDCALevels (entryPrice : Qc) (positionType : PositionType)
    (initialSize : Qc) (levels : Z) (volatility : Qc) : list DCALevel :=
  let basePercentages := ['0.03; '0.07; '0.12; '0.18; '0.25] in
  let multiplier := if PositionType_eqb positionType LONG then '(-1) else 1 in
  map
    (fun i =>
       let adjustedPercentage :=
         nth i basePercentages 0 * (1 + volatility * '10) in
       let dcaPrice := entryPrice * (1 + multiplier * adjustedPercentage) in
       let amountMultiplier := 1 + (Js.of_nat i * '0.5) in
       let dcaAmount := initialSize * amountMultiplier in
       mkDCALevel (i + 1) dcaPrice dcaAmount None None)
    (seq 0 (Nat.min (Z.to_nat levels) (length basePercentages))).

End EngineB.

(** ** The indicators and the backtest over IEEE doubles

    The same text of [calculateRSI], [calculateEMA] and [backtestStrategy]
    once more, with the numbers as binary64 floats, the arithmetic
    JavaScript runs: every operation rounds to nearest, [NaN] compares
    false, and [0], [-0] and [NaN] are falsy.  It is used to evaluate the
    code where rounding decides the outcome. *)

Module Binary64.

Local Open Scope float_scope.

Record CandleData : Type := mkCandle {
  time : Z;
  open : float;
  high : float;
  close : float;
  low : float;
  volume : float
}.

Definition gtb (a b : float) : bool := PrimFloat.ltb b a.

(** An array length or an index as a number (exact below 2^53). *)
Fixpoint of_nat (n : nat) : float :=
  match n with
  | O => 0
  | S k => of_nat k + 1
  end.

Definition truthy (x : option float) : bool :=
  match x with
  | Some q => negb (PrimFloat.eqb q 0) && negb (PrimFloat.is_nan q)
  | None => false
  end.

Definition or_default (x : option float) (d : float) : float :=
  match x with
  | Some q => if truthy x then q else d
  | None => d
  end.

Definition sum (l : list float) : float := fold_left PrimFloat.add l 0.

Fixpoint changes (closePrices : list float) : list float :=
  match closePrices with
  | a :: (b :: _) as t => (b - a) :: changes t
  | _ => []
  end.

Definition rsi_value (avgGain avgLoss : float) : float :=
  if PrimFloat.eqb avgLoss 0 then 100
  else let rs := avgGain / avgLoss in 100 - (100 / (1 + rs)).

Fixpoint rsi_smooth (period : float) (avgGain avgLoss : float)
    (gl : list (float * float)) : list float :=
  match gl with
  | [] => []
  | (g, l) :: r =>
      let avgGain := ((avgGain * (period - 1)) + g) / period in
      let avgLoss := ((avgLoss * (period - 1)) + l) / period in
      rsi_value avgGain avgLoss :: rsi_smooth period avgGain avgLoss r
  end.

Definition calculateRSI (candles : list CandleData) (period : nat)
  : list (option float) :=
  if (length candles <? period + 1)%nat
  then repeat (Some 50) (length candles)
  else
    let closePrices := map close candles in
    let gains := map (fun change => if gtb change 0 then change else 0)
                     (changes closePrices) in
    let losses :=
      map (fun change =>
             if PrimFloat.ltb change 0 then PrimFloat.abs change else 0)
          (changes closePrices) in
    let p := of_nat period in
    let avgGain := sum (Js.slice gains 0 period) / p in
    let avgLoss := sum (Js.slice losses 0 period) / p in
    let rsiValues :=
      rsi_value avgGain avgLoss
      :: rsi_smooth p avgGain avgLoss
           (combine (skipn period gains) (skipn period losses)) in
    repeat None period ++ map Some rsiValues.

Fixpoint ema_loop (multiplier prev : float) (prices : list float)
  : list float :=
  match prices with
  | [] => []
  | price :: r =>
      let e := (price - prev) * multiplier + prev in
      e :: ema_loop multiplier e r
  end.

Definition calculateEMA (prices : list float) (period : nat)
  : list (option float) :=
  let p := of_nat period in
  let sma := sum (Js.slice prices 0 period) / p in
  let multiplier := 2 / (p + 1) in
  repeat None (period - 1)
    ++ Some sma :: map Some (ema_loop multiplier sma (skipn period prices)).

Record Trade : Type := mkTrade {
  entryPrice : float;
  exitPrice : float;
  type : PositionType;
  profit : float;
  profitPercentage : float;
  timestamp : Z;
  entryTime : Z;
  exitTime : Z
}.

Record BacktestResult : Type := mkResult {
  totalTrades : nat;
  winningTrades : nat;
  losingTrades : nat;
  winRate : float;
  finalCapital : float;
  totalReturn : float;
  maxDrawdown : float;
  netProfit : float;
  netProfitPercent : float;
  profitFactor : float;
  maxDrawdownPercent : float;
  finalBalance : float;
  trades : list Trade
}.

Record Sim : Type := mkSim {
  capital : float;
  highWaterMark : float;
  curDrawdown : float;
  ledger : list Trade;
  inPosition : bool;
  positionType : PositionType;
  curEntryPrice : float;
  curEntryTime : Z;
  positionSize : float
}.

Definition sim_init (initialCapital : float) : Sim :=
  mkSim initialCapital initialCapital 0 [] false LONG 0 0%Z 0.

Definition time_at (candles : list CandleData) (i : nat) : Z :=
  match nth_error candles i with
  | Some c => time c
  | None => 0%Z
  end.

Definition last_close (candles : list CandleData) : float :=
  match Js.last_elem candles with
  | Some c => close c
  | None => 0
  end.

Definition last_value (a : list (option float)) : option float :=
  match Js.last_elem a with
  | Some v => v
  | None => None
  end.

Definition profit_of (positionType : PositionType)
    (positionSize entryPrice exitPrice leverage : float) : float :=
  match positionType with
  | LONG => positionSize * (exitPrice - entryPrice) / entryPrice * leverage
  | SHORT => positionSize * (entryPrice - exitPrice) / entryPrice * leverage
  end.

Definition ema_below (currentEma8 currentEma21 : option float) : bool :=
  match currentEma8, currentEma21 with
  | Some e8, Some e21 =>
      truthy currentEma8 && truthy currentEma21 && PrimFloat.ltb e8 e21
  | _, _ => false
  end.

Definition ema_above (currentEma8 currentEma21 : option float) : bool :=
  match currentEma8, currentEma21 with
  | Some e8, Some e21 =>
      truthy currentEma8 && truthy currentEma21 && gtb e8 e21
  | _, _ => false
  end.

Definition exit_step (leverage : float) (t : Z)
    (currentRsi : float) (currentEma8 currentEma21 : option float)
    (currentPrice : float) (st : Sim) : Sim :=
  if inPosition st then
    let exitSignal :=
      match positionType st with
      | LONG => gtb currentRsi 70 || ema_below currentEma8 currentEma21
      | SHORT =>
          PrimFloat.ltb currentRsi 30 || ema_above currentEma8 currentEma21
      end in
    if exitSignal then
      let exitPrice := currentPrice in
      let profit :=
        profit_of (positionType st) (positionSize st) (curEntryPrice st)
          exitPrice leverage in
      let capital := capital st + profit in
      let '(highWaterMark, maxDrawdown) :=
        if gtb capital (highWaterMark st)
        then (capital, curDrawdown st)
        else
          let drawdown := (highWaterMark st - capital) / highWaterMark st in
          if gtb drawdown (curDrawdown st)
          then (highWaterMark st, drawdown)
          else (highWaterMark st, curDrawdown st) in
      mkSim capital highWaterMark maxDrawdown
        (ledger st
         ++ [mkTrade (curEntryPrice st) exitPrice (positionType st) profit
               ((profit / positionSize st) * 100) t (curEntryTime st) t])
        false (positionType st) (curEntryPrice st) (curEntryTime st)
        (positionSize st)
    else st
  else st.

Definition entry_step (riskPerTrade : float) (t : Z)
    (currentRsi : float) (currentEma8 currentEma21 : option float)
    (currentPrice : float) (st : Sim) : Sim :=
  if negb (inPosition st) then
    let entrySignal :=
      if PrimFloat.ltb currentRsi 30 && ema_above currentEma8 currentEma21
      then Some LONG
      else if gtb currentRsi 70 && ema_below currentEma8 currentEma21
      then Some SHORT
      else None in
    match entrySignal with
    | Some side =>
        mkSim (capital st) (highWaterMark st) (curDrawdown st) (ledger st)
          true side currentPrice t (capital st * (riskPerTrade / 100))
    | None => st
    end
  else st.

Definition step (candles : list CandleData) (leverage riskPerTrade : float)
    (st : Sim) (i : nat) : Sim :=
  let windowCandles := Js.slice candles (i - 50) (i + 1) in
  let rsiValues := calculateRSI windowCandles 14 in
  let currentRsi := or_default (last_value rsiValues) 50 in
  let closePrices := map close windowCandles in
  let ema8 := calculateEMA closePrices 8 in
  let ema21 := calculateEMA closePrices 21 in
  let currentEma8 := last_value ema8 in
  let currentEma21 := last_value ema21 in
  let currentPrice := last_close windowCandles in
  let t := time_at candles i in
  entry_step riskPerTrade t currentRsi currentEma8 currentEma21 currentPrice
    (exit_step leverage t currentRsi currentEma8 currentEma21 currentPrice st).

Definition close_open (candles : list CandleData) (leverage : float)
    (st : Sim) : Sim :=
  if inPosition st then
    let exitPrice := last_close candles in
    let profit :=
      profit_of (positionType st) (positionSize st) (curEntryPrice st)
        exitPrice leverage in
    let t := time_at candles (length candles - 1) in
    mkSim (capital st + profit) (highWaterMark st) (curDrawdown st)
      (ledger st
       ++ [mkTrade (curEntryPrice st) exitPrice (positionType st) profit
             ((profit / positionSize st) * 100) t (curEntryTime st) t])
      (inPosition st) (positionType st) (curEntryPrice st) (curEntryTime st)
      (positionSize st)
  else st.

Definition simulate (candles : list CandleData)
    (initialCapital leverage riskPerTrade : float) : Sim :=
  close_open candles leverage
    (fold_left (step candles leverage riskPerTrade)
       (seq 50 (length candles - 1 - 50)) (sim_init initialCapital)).

Definition winners (trades : list Trade) : list Trade :=
  filter (fun t => gtb (profit t) 0) trades.

Definition losers (trades : list Trade) : list Trade :=
  filter (fun t => PrimFloat.leb (profit t) 0) trades.

Definition backtestStrategy (candles : list CandleData)
    (initialCapital leverage riskPerTrade : float) : BacktestResult :=
  if (length candles <? 50)%nat then
    mkResult 0 0 0 0 initialCapital 0 0 0 0 0 0 initialCapital []
  else
    let st := simulate candles initialCapital leverage riskPerTrade in
    let capital := capital st in
    let trades := ledger st in
    let totalTrades := length trades in
    let winningTrades := length (winners trades) in
    let losingTrades := length (losers trades) in
    let winRate :=
      if (0 <? totalTrades)%nat
      then (of_nat winningTrades / of_nat totalTrades) * 100
      else 0 in
    let totalReturn := (capital - initialCapital) / initialCapital * 100 in
    let totalProfit :=
      fold_left (fun sum t => sum + profit t) (winners trades) 0 in
    let totalLoss :=
      PrimFloat.abs
        (fold_left (fun sum t => sum + profit t) (losers trades) 0) in
    let profitFactor :=
      if gtb totalLoss 0 then totalProfit / totalLoss
      else if gtb totalProfit 0 then PrimFloat.infinity
      else 0 in
    let netProfit := capital - initialCapital in
    let netProfitPercent := (netProfit / initialCapital) * 100 in
    let maxDrawdownPercent := curDrawdown st * 100 in
    mkResult totalTrades winningTrades losingTrades winRate capital
      totalReturn (curDrawdown st) netProfit netProfitPercent profitFactor
      maxDrawdownPercent capital trades.

(** [finalConfidence] of the fusion loop run over a single analysis of
    the given confidence and table weight, without candle data:
    [weightedConfidence] and [totalWeight] start at 0 and are added to
    once. *)
Definition fused_single (confidence weight : float) : float :=
  ((0 + (confidence - 0.5) * weight) / (0 + weight)) + 0.5.

(** The double nearest to 0.1 (the value of the literal [0.1]). *)
Definition tenth : float := 1 / 10.

(** [n] flat candles at price [c], at times [0 .. n - 1]. *)
Definition flat_series (c : float) (n : nat) : list CandleData :=
  map (fun i => mkCandle (Z.of_nat i) c c c c 1) (seq 0 n).

(** Flat candles with the given closes, at times [0, 1, ...]. *)
Definition series (closes : list float) : list CandleData :=
  map (fun p => mkCandle (Z.of_nat (fst p)) (snd p) (snd p) (snd p) (snd p) 1)
      (combine (seq 0 (length closes)) closes).

End Binary64.

(** ** Numbers that need not be finite

    Some of the code divides by a price or by a range that can be zero and
    goes on computing with the result.  Where that happens a number is
    modelled by a rational or one of [Infinity], [-Infinity] and [NaN], with
    the arithmetic of IEEE 754 on those values (rounding apart); the
    rational zero stands for [+0]. *)

Module Number.

Inductive t : Type :=
| Num (q : Qc)
| PlusInfinity
| MinusInfinity
| NotANumber.

Definition neg (a : t) : t :=
  match a with
  | Num q => Num (- q)
  | PlusInfinity => MinusInfinity
  | MinusInfinity => PlusInfinity
  | NotANumber => NotANumber
  end.

(** An infinity multiplied or divided by a finite number. *)
Definition scaled (inf : t) (q : Qc) : t :=
  if Js.eqb q 0 then NotANumber
  else if Js.gtb q 0 then inf else neg inf.

Definition add (a b : t) : t :=
  match a, b with
  | NotANumber, _ | _, NotANumber => NotANumber
  | Num x, Num y => Num (x + y)
  | PlusInfinity, MinusInfinity | MinusInfinity, PlusInfinity => NotANumber
  | PlusInfinity, _ | _, PlusInfinity => PlusInfinity
  | MinusInfinity, _ | _, MinusInfinity => MinusInfinity
  end.

Definition sub (a b : t) : t := add a (neg b).

Definition mul (a b : t) : t :=
  match a, b with
  | NotANumber, _ | _, NotANumber => NotANumber
  | Num x, Num y => Num (x * y)
  | Num x, inf | inf, Num x => scaled inf x
  | PlusInfinity, PlusInfinity | MinusInfinity, MinusInfinity => PlusInfinity
  | PlusInfinity, MinusInfinity | MinusInfinity, PlusInfinity => MinusInfinity
  end.

Definition div (a b : t) : t :=
  match a, b with
  | NotANumber, _ | _, NotANumber => NotANumber
  | Num x, Num y =>
      if Js.eqb y 0 then
        if Js.eqb x 0 then NotANumber
        else if Js.gtb x 0 then PlusInfinity else MinusInfinity
      else Num (x / y)
  | Num _, _ => Num 0
  | inf, Num y => if Js.ltb y 0 then neg inf else inf
  | _, _ => NotANumber
  end.

(** [a > b] and [a < b]: false as soon as one side is [NaN]. *)
Definition gtb (a b : t) : bool :=
  match a, b with
  | NotANumber, _ | _, NotANumber => false
  | Num x, Num y => Js.gtb x y
  | PlusInfinity, PlusInfinity => false
  | PlusInfinity, _ => true
  | _, PlusInfinity => false
  | MinusInfinity, _ => false
  | Num _, MinusInfinity => true
  end.

Definition ltb (a b : t) : bool := gtb b a.

(** [Math.min] and [Math.max] of two numbers: [NaN] when one of them is. *)
Definition min (a b : t) : t :=
  match a, b with
  | NotANumber, _ | _, NotANumber => NotANumber
  | _, _ => if ltb b a then b else a
  end.

Definition max (a b : t) : t :=
  match a, b with
  | NotANumber, _ | _, NotANumber => NotANumber
  | _, _ => if ltb a b then b else a
  end.

(** The rational a finite number is. *)
Definition finite (a : t) : option Qc :=
  match a with
  | Num q => Some q
  | _ => None
  end.

End Number.

(** ** technicalAnalysis.ts: the chart readers *)

Module Chart.

(** [Math.max(...l)] and [Math.min(...l)] of an array that is not empty
    (the arrays spread here hold the candles of a window whose length was
    checked). *)
Definition max_of (l : list Qc) : Qc :=
  match l with
  | [] => 0
  | x :: r => fold_left Js.max r x
  end.

Definition min_of (l : list Qc) : Qc :=
  match l with
  | [] => 0
  | x :: r => fold_left Js.min r x
  end.

(** [l[i]] for an index inside the array. *)
Definition elem (l : list Qc) (i : nat) : Qc := nth i l 0.

Record FibonacciLevels : Type := mkFibonacciLevels {
  level0 : Qc;
  level236 : Qc;
  level382 : Qc;
  level5 : Qc;
  level618 : Qc;
  level786 : Qc;
  level1 : Qc
}.

Definition calculateFibonacciLevels (high low : Qc) : FibonacciLevels :=
  let diff := high - low in
  mkFibonacciLevels high (high - '0.236 * diff) (high - '0.382 * diff)
    (high - '0.5 * diff) (high - '0.618 * diff) (high - '0.786 * diff) low.

(** [Object.values(fibLevels)]. *)
Definition fibonacci_values (f : FibonacciLevels) : list Qc :=
  [level0 f; level236 f; level382 f; level5 f; level618 f; level786 f;
   level1 f].

Record Divergence : Type := mkDivergence {
  bullishDivergence : bool;
  bearishDivergence : bool;
  divergenceStrength : Number.t
}.

(** [rsiValues.filter(v => v !== undefined)]. *)
Definition defined (rsiValues : list (option Qc)) : list Qc :=
  flat_map (fun v => match v with Some x => [x] | None => [] end) rsiValues.

Definition detectDivergence (candles : list CandleData)
    (rsiValues : list (option Qc)) : Divergence :=
  if (length candles <? 10)%nat || (length (defined rsiValues) <? 10)%nat
  then mkDivergence false false (Number.Num 0)
  else
    let prices := map close candles in
    let validRsi := defined rsiValues in
    let recentPrices := Js.slice_last 10 prices in
    let recentRsi := Js.slice_last 10 validRsi in
    let priceMin := min_of recentPrices in
    let priceMax := max_of recentPrices in
    let rsiMin := min_of recentRsi in
    let rsiMax := max_of recentRsi in
    let priceUptrend :=
      Js.gtb (elem recentPrices (length recentPrices - 1))
             (elem recentPrices 0) in
    let rsiUptrend :=
      Js.gtb (elem recentRsi (length recentRsi - 1)) (elem recentRsi 0) in
    let bullishDivergence := negb priceUptrend && rsiUptrend in
    let bearishDivergence := priceUptrend && negb rsiUptrend in
    let strength_against (priceBase rsiBase : Qc) : Number.t :=
      let priceRange := priceMax - priceMin in
      let rsiRange := rsiMax - rsiMin in
      Number.mul
        (Number.mul
           (Number.div (Number.Num priceRange) (Number.Num priceBase))
           (Number.div (Number.Num rsiRange) (Number.Num rsiBase)))
        (Number.Num '100) in
    let divergenceStrength :=
      if bullishDivergence then strength_against priceMin rsiMin
      else if bearishDivergence then strength_against priceMax rsiMax
      else Number.Num 0 in
    mkDivergence bullishDivergence bearishDivergence
      (Number.min divergenceStrength (Number.Num '100)).

Record Box : Type := mkBox {
  top : Qc;
  bottom : Qc;
  startIndex : nat;
  endIndex : nat
}.

Record DarvasBoxes : Type := mkDarvasBoxes {
  boxes : list Box;
  currentBox : option (Qc * Qc)
}.

(** The mutable locals of [findDarvasBoxes]; [boxStartIndex] is [None]
    while the code holds [-1]. *)
Record Darvas : Type := mkDarvas {
  found : list Box;
  currentBoxTop : Qc;
  currentBoxBottom : Qc;
  boxStartIndex : option nat;
  initialHigh : Qc;
  initialLow : Qc
}.

(** The boxes with the box in progress, if any, closed at [last]. *)
Definition completed (st : Darvas) (last : nat) : list Box :=
  match boxStartIndex st with
  | Some start =>
      found st ++ [mkBox (currentBoxTop st) (currentBoxBottom st) start last]
  | None => found st
  end.

(** One iteration of the loop, for the candle at index [i]. *)
Definition darvas_step (st : Darvas) (ic : nat * CandleData) : Darvas :=
  let '(i, candle) := ic in
  if Js.gtb (high candle) (initialHigh st) then
    mkDarvas (completed st (i - 1)) (high candle) (initialLow st) (Some i)
      (high candle) (initialLow st)
  else if Js.ltb (low candle) (initialLow st) then
    mkDarvas (completed st (i - 1)) (initialHigh st) (low candle) (Some i)
      (initialHigh st) (low candle)
  else st.

(** [findDarvasBoxes(candles, period = 5)] for [period >= 1]; with a period
    of 0 the code starts from the extremes of no candle, the infinities,
    which the boxes of this model cannot hold: [None]. *)
Definition findDarvasBoxes (candles : list CandleData) (period : nat)
  : option DarvasBoxes :=
  if (period =? 0)%nat then None
  else if (length candles <? period)%nat then Some (mkDarvasBoxes [] None)
  else
    let first := Js.slice candles 0 period in
    let st :=
      fold_left darvas_step
        (combine (seq period (length candles - period)) (skipn period candles))
        (mkDarvas [] '(-1) '(-1) None (max_of (map high first))
           (min_of (map low first))) in
    let boxes :=
      match boxStartIndex st with
      | Some start =>
          if (start <? length candles - 1)%nat
          then completed st (length candles - 1)
          else found st
      | None => found st
      end in
    Some (mkDarvasBoxes boxes
            (match boxStartIndex st with
             | Some _ => Some (currentBoxTop st, currentBoxBottom st)
             | None => None
             end)).

Record Zone : Type := mkZone {
  zonePrice : Qc;
  zoneVolume : Number.t
}.

Record VolumeProfile : Type := mkVolumeProfile {
  highVolumeNodes : list Qc;
  volumeAverage : Qc;
  volumeZones : list Zone
}.

(** What one candle adds to the zone of index [i]. *)
Definition distribute (lowestPrice zoneSize : Qc) (candle : CandleData)
    (iz : nat * Zone) : Zone :=
  let '(i, zone) := iz in
  let candleRange := high candle - low candle in
  let zoneStart := lowestPrice + (Js.of_nat i * zoneSize) in
  let zoneEnd := zoneStart + zoneSize in
  if Js.leb (low candle) zoneEnd && Js.leb zoneStart (high candle) then
    let overlapStart := Js.max (low candle) zoneStart in
    let overlapEnd := Js.min (high candle) zoneEnd in
    let overlapSize := overlapEnd - overlapStart in
    let overlapPercentage :=
      Number.div (Number.Num overlapSize) (Number.Num candleRange) in
    mkZone (zonePrice zone)
      (Number.add (zoneVolume zone)
         (Number.mul (Number.Num (volume candle)) overlapPercentage))
  else zone.

Definition zoneCount : nat := 10.

Definition analyzeVolumeProfile (candles : list CandleData) : VolumeProfile :=
  if (length candles =? 0)%nat then mkVolumeProfile [] 0 []
  else
    let highestPrice := max_of (map high candles) in
    let lowestPrice := min_of (map low candles) in
    let priceRange := highestPrice - lowestPrice in
    let zoneSize := priceRange / Js.of_nat zoneCount in
    let volumeZones :=
      map (fun i =>
             mkZone (lowestPrice + (Js.of_nat i * zoneSize) + (zoneSize / '2))
               (Number.Num 0))
          (seq 0 zoneCount) in
    let volumeZones :=
      fold_left
        (fun zones candle =>
           map (distribute lowestPrice zoneSize candle)
               (combine (seq 0 zoneCount) zones))
        candles volumeZones in
    let totalVolume := Js.sum (map volume candles) in
    let volumeAverage := totalVolume / Js.of_nat (length candles) in
    let highVolumeThreshold := volumeAverage * '1.5 in
    let highVolumeNodes :=
      map zonePrice
        (filter
           (fun zone =>
              Number.gtb (zoneVolume zone) (Number.Num highVolumeThreshold))
           volumeZones) in
    mkVolumeProfile highVolumeNodes volumeAverage volumeZones.

Inductive StructureTrend : Type := bullish | bearish | neutral.

Definition StructureTrend_eqb (a b : StructureTrend) : bool :=
  match a, b with
  | bullish, bullish | bearish, bearish | neutral, neutral => true
  | _, _ => false
  end.

Record MarketStructure : Type := mkMarketStructure {
  trend : StructureTrend;
  higherHigh : bool;
  higherLow : bool;
  lowerHigh : bool;
  lowerLow : bool;
  breakOfStructure : bool
}.

Definition no_structure : MarketStructure :=
  mkMarketStructure neutral false false false false false.

Record Swing : Type := mkSwing {
  swingPrice : Qc;
  swingIndex : nat
}.

(** [candles[i].high] and [candles[i].low] for an index inside the array. *)
Definition high_at (candles : list CandleData) (i : nat) : Qc :=
  match nth_error candles i with
  | Some c => high c
  | None => 0
  end.

Definition low_at (candles : list CandleData) (i : nat) : Qc :=
  match nth_error candles i with
  | Some c => low c
  | None => 0
  end.

Definition isSwingHigh (candles : list CandleData) (i : nat) : bool :=
  Js.gtb (high_at candles i) (high_at candles (i - 1))
  && Js.gtb (high_at candles i) (high_at candles (i - 2))
  && Js.gtb (high_at candles i) (high_at candles (i + 1))
  && Js.gtb (high_at candles i) (high_at candles (i + 2)).

Definition isSwingLow (candles : list CandleData) (i : nat) : bool :=
  Js.ltb (low_at candles i) (low_at candles (i - 1))
  && Js.ltb (low_at candles i) (low_at candles (i - 2))
  && Js.ltb (low_at candles i) (low_at candles (i + 1))
  && Js.ltb (low_at candles i) (low_at candles (i + 2)).

(** The pushes of [for (let i = 2; i < candles.length - 2; i++)]. *)
Definition swingHighs (candles : list CandleData) : list Swing :=
  flat_map
    (fun i => if isSwingHigh candles i
              then [mkSwing (high_at candles i) i] else [])
    (seq 2 (length candles - 4)).

Definition swingLows (candles : list CandleData) : list Swing :=
  flat_map
    (fun i => if isSwingLow candles i
              then [mkSwing (low_at candles i) i] else [])
    (seq 2 (length candles - 4)).

(** [swings[swings.length - k].price] for [k <= swings.length]. *)
Definition from_end (swings : list Swing) (k : nat) : Qc :=
  match nth_error swings (length swings - k) with
  | Some s => swingPrice s
  | None => 0
  end.

(** The comparator [(a, b) => a.index - b.index]. *)
Definition by_index (a b : Swing) : Qc :=
  Js.of_nat (swingIndex a) - Js.of_nat (swingIndex b).

Definition analyzeMarketStructure (candles : list CandleData)
  : MarketStructure :=
  if (length candles <? 10)%nat then no_structure
  else
    let swingHighs := swingHighs candles in
    let swingLows := swingLows candles in
    if (length swingHighs <? 2)%nat || (length swingLows <? 2)%nat
    then no_structure
    else
      let swingHighs := Js.sort by_index swingHighs in
      let swingLows := Js.sort by_index swingLows in
      let higherHigh := Js.gtb (from_end swingHighs 1) (from_end swingHighs 2) in
      let higherLow := Js.gtb (from_end swingLows 1) (from_end swingLows 2) in
      let lowerHigh := Js.ltb (from_end swingHighs 1) (from_end swingHighs 2) in
      let lowerLow := Js.ltb (from_end swingLows 1) (from_end swingLows 2) in
      let trend :=
        if higherHigh && higherLow then bullish
        else if lowerHigh && lowerLow then bearish
        else neutral in
      let breakOfStructure :=
        (StructureTrend_eqb trend bullish
         && Js.ltb (low_at candles (length candles - 1))
                   (from_end swingLows 2))
        || (StructureTrend_eqb trend bearish
            && Js.gtb (high_at candles (length candles - 1))
                      (from_end swingHighs 2)) in
      mkMarketStructure trend higherHigh higherLow lowerHigh lowerLow
        breakOfStructure.

Inductive Direction : Type := up | down.

Record Traps : Type := mkTraps {
  bullTrap : bool;
  bearTrap : bool;
  fakeout : bool;
  fakeoutDirection : option Direction
}.

Definition no_trap : Traps := mkTraps false false false None.

(** [detectTraps(candles)]; [trendDirection] is computed and not used. *)
Definition detectTraps (candles : list CandleData) : Traps :=
  if (length candles <? 5)%nat then no_trap
  else
    match Js.slice_last 5 candles with
    | [c0; c1; c2; c3; c4] =>
        let bullTrap :=
          Js.gtb (close c2) (high c1) && Js.ltb (close c3) (close c2)
          && Js.ltb (close c4) (close c3) in
        let bearTrap :=
          Js.ltb (close c2) (low c1) && Js.gtb (close c3) (close c2)
          && Js.gtb (close c4) (close c3) in
        let upward :=
          Js.gtb (high c2) (Js.max (high c0) (high c1))
          && Js.ltb (close c4) (low c2) in
        let downward :=
          Js.ltb (low c2) (Js.min (low c0) (low c1))
          && Js.gtb (close c4) (high c2) in
        mkTraps bullTrap bearTrap (upward || downward)
          (if downward then Some down
           else if upward then Some up else None)
    | _ => no_trap
    end.

End Chart.

(** ** The analysis of one timeframe (the same text in both copies of the
    engine) *)

Module Analyzer.

(** What [analyzeSingleTimeframe] returns: a [MultiTimeframeAnalysis] whose
    divergence strength and confidence are the numbers the code computes,
    finite or not. *)
Record SingleAnalysis : Type := mkSingle {
  timeframe : string;
  trend : string;
  rsi : Qc;
  emaStatus : string;
  marketStructure : list string;
  volumeSupport : list Qc;
  bullish : bool;
  bearish : bool;
  strength : Number.t;
  confidence : Number.t;
  candleData : option (list CandleData);
  candlestickPatterns : option (list Candlestick.PatternResult)
}.

(** The analysis as the fusion loop reads it, when its numbers are
    finite. *)
Definition finite (a : SingleAnalysis)
  : option Analysis.MultiTimeframeAnalysis :=
  match Number.finite (strength a), Number.finite (confidence a) with
  | Some s, Some c =>
      Some (Analysis.mkAnalysis (timeframe a) (trend a) (rsi a) (emaStatus a)
              (marketStructure a) (volumeSupport a)
              (Analysis.mkDivergence (bullish a) (bearish a) s) c
              (candleData a) (candlestickPatterns a))
  | _, _ => None
  end.

Definition trend_name (t : Chart.StructureTrend) : string :=
  match t with
  | Chart.bullish => "bullish"%string
  | Chart.bearish => "bearish"%string
  | Chart.neutral => "neutral"%string
  end.

(** [Math.abs(latestClose - level) / level < bound]. *)
Definition near (latestClose bound level : Qc) : bool :=
  Number.ltb
    (Number.div (Number.Num (Js.abs (latestClose - level))) (Number.Num level))
    (Number.Num bound).

(** [confidence += x] and [confidence -= x] under a condition. *)
Definition plus_if (b : bool) (x : Number.t) (confidence : Number.t)
  : Number.t :=
  if b then Number.add confidence x else confidence.

Definition minus_if (b : bool) (x : Number.t) (confidence : Number.t)
  : Number.t :=
  if b then Number.sub confidence x else confidence.

Definition analyzeSingleTimeframe (candles : list CandleData)
    (timeframe : string) : SingleAnalysis :=
  if (length candles <? 50)%nat then
    mkSingle timeframe "neutral" '50 "neutral" [] [] false false
      (Number.Num 0) (Number.Num 0) None None
  else
    let closePrices := map close candles in
    let rsiValues := TA.calculateRSI candles 14 in
    let currentRsi := Js.or_default (Backtest.last_value rsiValues) '50 in
    let ema8 := TA.calculateEMA closePrices 8 in
    let ema21 := TA.calculateEMA closePrices 21 in
    let ema50 := TA.calculateEMA closePrices 50 in
    let currentEma8 := Backtest.last_value ema8 in
    let currentEma21 := Backtest.last_value ema21 in
    let currentEma50 := Backtest.last_value ema50 in
    let emaStatus :=
      match currentEma8, currentEma21, currentEma50 with
      | Some e8, Some e21, Some e50 =>
          if Js.truthy currentEma8 && Js.truthy currentEma21
             && Js.truthy currentEma50
          then
            if Js.gtb e8 e21 && Js.gtb e21 e50 then "bullish"%string
            else if Js.ltb e8 e21 && Js.ltb e21 e50 then "bearish"%string
            else "neutral"%string
          else "neutral"%string
      | _, _, _ => "neutral"%string
      end in
    let marketStructureAnalysis := Chart.analyzeMarketStructure candles in
    let volumeProfile := Chart.analyzeVolumeProfile candles in
    let divergenceAnalysis := Chart.detectDivergence candles rsiValues in
    let trapsAnalysis := Chart.detectTraps candles in
    let fibLevels :=
      if (20 <=? length candles)%nat then
        let recentCandles := Js.slice_last 20 candles in
        let high := Chart.max_of (map high recentCandles) in
        let low := Chart.min_of (map low recentCandles) in
        Some (Chart.calculateFibonacciLevels high low)
      else None in
    let smcValid :=
      match fibLevels with
      | Some fibLevels =>
          let latestClose := Backtest.last_close candles in
          let nearFibLevel :=
            existsb (near latestClose '0.01)
              (Chart.fibonacci_values fibLevels) in
          let volumeAtExtremes :=
            existsb (near latestClose '0.02)
              (Chart.highVolumeNodes volumeProfile) in
          nearFibLevel && volumeAtExtremes
      | None => false
      end in
    let marketStructureTags :=
      Engine.when (Chart.higherHigh marketStructureAnalysis
                   && Chart.higherLow marketStructureAnalysis)
        ["Higher High & Higher Low"%string]
      ++ Engine.when (Chart.lowerHigh marketStructureAnalysis
                      && Chart.lowerLow marketStructureAnalysis)
           ["Lower High & Lower Low"%string]
      ++ Engine.when (Chart.breakOfStructure marketStructureAnalysis)
           ["BOS Formation"%string]
      ++ Engine.when (Chart.fakeout trapsAnalysis)
           [match Chart.fakeoutDirection trapsAnalysis with
            | Some Chart.up => "Fakeout Upward"%string
            | _ => "Fakeout Downward"%string
            end]
      ++ Engine.when (Chart.bullTrap trapsAnalysis) ["Bull Trap"%string]
      ++ Engine.when (Chart.bearTrap trapsAnalysis) ["Bear Trap"%string]
      ++ Engine.when smcValid ["SMC Valid"%string] in
    let structure_is (t : Chart.StructureTrend) :=
      Chart.StructureTrend_eqb (Chart.trend marketStructureAnalysis) t in
    let share :=
      Number.mul (Number.Num '0.15)
        (Number.div (Chart.divergenceStrength divergenceAnalysis)
           (Number.Num '100)) in
    let confidence := Number.Num '0.5 in
    let confidence :=
      plus_if (Js.ltb currentRsi '30) (Number.Num '0.1) confidence in
    let confidence :=
      minus_if (Js.gtb currentRsi '70) (Number.Num '0.1) confidence in
    let confidence :=
      plus_if (String.eqb emaStatus "bullish") (Number.Num '0.15) confidence in
    let confidence :=
      minus_if (String.eqb emaStatus "bearish") (Number.Num '0.15) confidence in
    let confidence :=
      plus_if (structure_is Chart.bullish) (Number.Num '0.2) confidence in
    let confidence :=
      minus_if (structure_is Chart.bearish) (Number.Num '0.2) confidence in
    let confidence :=
      plus_if (Chart.bullishDivergence divergenceAnalysis) share confidence in
    let confidence :=
      minus_if (Chart.bearishDivergence divergenceAnalysis) share confidence in
    let confidence :=
      minus_if (Chart.bullTrap trapsAnalysis) (Number.Num '0.1) confidence in
    let confidence :=
      plus_if (Chart.bearTrap trapsAnalysis) (Number.Num '0.1) confidence in
    let confidence := plus_if smcValid (Number.Num '0.1) confidence in
    let confidence :=
      Number.max (Number.Num 0) (Number.min (Number.Num 1) confidence) in
    let candlestickPatterns := Candlestick.analyzeCandlestickPatterns candles in
    mkSingle timeframe (trend_name (Chart.trend marketStructureAnalysis))
      currentRsi emaStatus marketStructureTags
      (Chart.highVolumeNodes volumeProfile)
      (Chart.bullishDivergence divergenceAnalysis)
      (Chart.bearishDivergence divergenceAnalysis)
      (Chart.divergenceStrength divergenceAnalysis)
      confidence (Some candles) (Some candlestickPatterns).

(** [alignmentScore(current, other)]. *)
Definition alignmentScore (current other : Analysis.MultiTimeframeAnalysis)
  : Qc :=
  let score :=
    if String.eqb (Analysis.trend current) (Analysis.trend other)
    then 0 + '0.2 else 0 in
  let currentLevels := Analysis.volumeSupport current in
  let otherLevels := Analysis.volumeSupport other in
  let commonLevels :=
    filter
      (fun level =>
         existsb
           (fun otherLevel =>
              Number.ltb
                (Number.div (Number.Num (Js.abs (level - otherLevel)))
                   (Number.Num level))
                (Number.Num '0.003))
           otherLevels)
      currentLevels in
  let score :=
    score + Js.min '0.3 (Js.of_nat (length commonLevels) * '0.1) in
  Js.min score 1.

(** [analyzeMultiTimeframe(candlesByTimeframe)], on the entries of the
    record in the order [Object.entries] yields them. *)
Definition analyzeMultiTimeframe
    (candlesByTimeframe : list (string * list CandleData))
  : list (string * SingleAnalysis) :=
  map (fun entry => (fst entry, analyzeSingleTimeframe (snd entry) (fst entry)))
      candlesByTimeframe.

(** The analyses as the fusion loop reads them, when every number in them
    is finite. *)
Fixpoint finite_all (analyses : list (string * SingleAnalysis))
  : option Analyses :=
  match analyses with
  | [] => Some []
  | (tf, a) :: r =>
      match finite a, finite_all r with
      | Some a', Some r' => Some ((tf, a') :: r')
      | _, _ => None
      end
  end.

End Analyzer.

(** ** Sizing a trade (first copy of the engine module) *)

Module Sizing.

Section Builtins.

Variable pow : Qc -> Qc -> Qc.

(** [calculateTradeAmount(totalBalance, minCapitalPercent,
    maxCapitalPercent, defaultCapitalPercent, signalConfidence, autoAdjust,
    leverage)]. *)
Definition calculateTradeAmount
    (totalBalance minCapitalPercent maxCapitalPercent defaultCapitalPercent
     signalConfidence : Qc) (autoAdjust : bool) (leverage : Qc) : Qc :=
  let capitalPercentToUse :=
    if autoAdjust && Js.gtb signalConfidence 0 then
      let confidenceScaling := pow signalConfidence '1.5 in
      let capitalPercentToUse :=
        minCapitalPercent
        + (maxCapitalPercent - minCapitalPercent) * confidenceScaling in
      Js.max minCapitalPercent (Js.min maxCapitalPercent capitalPercentToUse)
    else defaultCapitalPercent in
  (totalBalance * (capitalPercentToUse / '100)) / leverage.

End Builtins.

(** [calculateDynamicPositionSize(accountBalance, baseRiskPercentage,
    volatility, marketCondition = 'NEUTRAL', winRate = 0.6)]. *)
Definition calculateDynamicPositionSize
    (accountBalance baseRiskPercentage volatility : Qc)
    (marketCondition : option MarketTag) (winRate : option Qc) : Qc :=
  let marketCondition := with_default marketCondition TAG_NEUTRAL in
  let winRate := with_default winRate '0.6 in
  let positionSizePercentage := baseRiskPercentage in
  let volatilityFactor := 1 - (volatility * '10) in
  let positionSizePercentage :=
    positionSizePercentage * Js.max '0.5 (Js.min '1.5 volatilityFactor) in
  let positionSizePercentage :=
    match marketCondition with
    | TAG_VOLATILE => positionSizePercentage * '0.7
    | TAG_BULLISH | TAG_BEARISH => positionSizePercentage * '1.1
    | TAG_NEUTRAL => positionSizePercentage
    end in
  let positionSizePercentage :=
    if Js.gtb winRate '0.7 then positionSizePercentage * '1.2
    else if Js.ltb winRate '0.5 then positionSizePercentage * '0.8
    else positionSizePercentage in
  let positionSizePercentage :=
    Js.max 1 (Js.min '10 positionSizePercentage) in
  (accountBalance * positionSizePercentage) / '100.

End Sizing.

(** ** The exchange configuration *)

Module Exchange.

Record ExchangeCredentials : Type := mkCredentials {
  apiKey : string;
  secretKey : string;
  testnet : bool;
  passphrase : option string
}.

Record Notifications : Type := mkNotifications {
  trades : bool;
  signals : bool;
  alerts : bool;
  dailySummary : bool
}.

Record Telegram : Type := mkTelegram {
  botToken : string;
  chatId : string;
  notifications : Notifications
}.

(** A [Partial<ExchangeConfig>]: every member may be missing. *)
Record ExchangeConfig : Type := mkConfig {
  binance : option ExchangeCredentials;
  telegram : option Telegram;
  bybit : option ExchangeCredentials;
  okx : option ExchangeCredentials;
  kucoin : option ExchangeCredentials;
  bitget : option ExchangeCredentials;
  preferredExchange : option string;
  multiExchangeMode : option string;
  exchangePriority : option (list string)
}.

(** Truthiness of a string: the empty string is falsy. *)
Definition filled (s : string) : bool := negb (String.eqb s "").

(** [x || d] for a possibly missing string. *)
Definition or_string (x : option string) (d : string) : string :=
  match x with
  | Some s => if filled s then s else d
  | None => d
  end.

(** [credentials?.apiKey], [credentials?.secretKey] and
    [credentials?.passphrase], as conditions. *)
Definition has_apiKey (c : option ExchangeCredentials) : bool :=
  match c with
  | Some k => filled (apiKey k)
  | None => false
  end.

Definition has_secretKey (c : option ExchangeCredentials) : bool :=
  match c with
  | Some k => filled (secretKey k)
  | None => false
  end.

Definition has_passphrase (c : option ExchangeCredentials) : bool :=
  match c with
  | Some k =>
      match passphrase k with
      | Some p => filled p
      | None => false
      end
  | None => false
  end.

(** [defaultConfig], for the two values read from [process.env]. *)
Definition defaultConfig (BINANCE_TESTNET_API_KEY
    BINANCE_TESTNET_SECRET_KEY : option string) : ExchangeConfig :=
  mkConfig
    (Some (mkCredentials (or_string BINANCE_TESTNET_API_KEY "")
             (or_string BINANCE_TESTNET_SECRET_KEY "") true None))
    (Some (mkTelegram "" "" (mkNotifications true true true true)))
    None None None None
    (Some "BINANCE"%string) (Some "PREFERRED_ONLY"%string)
    (Some ["BINANCE"; "BYBIT"; "OKX"; "KUCOIN"; "BITGET"]%string).

(** The pushes of one [case] of the [switch]. *)
Definition missing (b : bool) (message : string) : list string :=
  if b then [] else [message].

Definition validateExchangeConfig (config : ExchangeConfig) : list string :=
  let preferredExchange := or_string (preferredExchange config) "BINANCE" in
  let errors :=
    if String.eqb preferredExchange "BINANCE" then
      missing (has_apiKey (binance config)) "Binance API key is required"
      ++ missing (has_secretKey (binance config))
           "Binance secret key is required"
    else if String.eqb preferredExchange "BYBIT" then
      missing (has_apiKey (bybit config))
        "Bybit API key is required when Bybit is set as preferred exchange"
      ++ missing (has_secretKey (bybit config))
           "Bybit secret key is required when Bybit is set as preferred exchange"
    else if String.eqb preferredExchange "OKX" then
      missing (has_apiKey (okx config))
        "OKX API key is required when OKX is set as preferred exchange"
      ++ missing (has_secretKey (okx config))
           "OKX secret key is required when OKX is set as preferred exchange"
      ++ missing (has_passphrase (okx config))
           "OKX passphrase is required when OKX is set as preferred exchange"
    else if String.eqb preferredExchange "KUCOIN" then
      missing (has_apiKey (kucoin config))
        "KuCoin API key is required when KuCoin is set as preferred exchange"
      ++ missing (has_secretKey (kucoin config))
           "KuCoin secret key is required when KuCoin is set as preferred exchange"
      ++ missing (has_passphrase (kucoin config))
           "KuCoin passphrase is required when KuCoin is set as preferred exchange"
    else if String.eqb preferredExchange "BITGET" then
      missing (has_apiKey (bitget config))
        "Bitget API key is required when Bitget is set as preferred exchange"
      ++ missing (has_secretKey (bitget config))
           "Bitget secret key is required when Bitget is set as preferred exchange"
    else [] in
  let errors :=
    errors
    ++ match multiExchangeMode config with
       | Some mode =>
           if filled mode && negb (String.eqb mode "PREFERRED_ONLY") then
             let counted (b : bool) : nat := if b then 1%nat else 0%nat in
             let configuredExchangeCount :=
               (counted (has_apiKey (binance config)
                         && has_secretKey (binance config))
                + counted (has_apiKey (bybit config)
                           && has_secretKey (bybit config))
                + counted (has_apiKey (okx config)
                           && has_secretKey (okx config)
                           && has_passphrase (okx config))
                + counted (has_apiKey (kucoin config)
                           && has_secretKey (kucoin config)
                           && has_passphrase (kucoin config))
                + counted (has_apiKey (bitget config)
                           && has_secretKey (bitget config)))%nat in
             Engine.when
               ((configuredExchangeCount <? 2)%nat
                && (String.eqb mode "BEST_PRICE"
                    || String.eqb mode "SPLIT_ORDERS"
                    || String.eqb mode "ARBITRAGE"))
               [String.append "At least two exchanges must be configured for "
                  (String.append mode " mode")]
             ++ Engine.when
                  (String.eqb mode "ARBITRAGE"
                   && (configuredExchangeCount <? 3)%nat)
                  ["At least three exchanges must be configured for ARBITRAGE mode"%string]
           else []
       | None => []
       end in
  errors
  ++ match telegram config with
     | Some t =>
         missing (filled (botToken t))
           "Telegram bot token is required if telegram is configured"
         ++ missing (filled (chatId t))
              "Telegram chat ID is required if telegram is configured"
     | None => []
     end.

(** The object a client factory returns: its [type], the members of the
    credentials spread into it, and [initialized]. *)
Record Client : Type := mkClient {
  clientType : string;
  clientApiKey : option string;
  clientSecretKey : option string;
  clientTestnet : bool;
  clientPassphrase : option string;
  initialized : bool
}.

Inductive Outcome : Type :=
| Returned (client : Client)
| Thrown (message : string).

(** [{ type: name, ...credentials, initialized: true }]. *)
Definition spread (name : string) (credentials : ExchangeCredentials) : Client :=
  mkClient name (Some (apiKey credentials)) (Some (secretKey credentials))
    (testnet credentials) (passphrase credentials) true.

Definition createBinanceClient : ExchangeCredentials -> Client := spread "BINANCE".
Definition createBybitClient : ExchangeCredentials -> Client := spread "BYBIT".
Definition createOkxClient : ExchangeCredentials -> Client := spread "OKX".
Definition createKucoinClient : ExchangeCredentials -> Client := spread "KUCOIN".
Definition createBitgetClient : ExchangeCredentials -> Client := spread "BITGET".

(** [{ type: 'TESTNET', initialized: true, testnet: true }]. *)
Definition createTestnetClient : Client :=
  mkClient "TESTNET" None None true None true.

(** The [case] of an exchange that needs its configuration. *)
Definition client_of (create : ExchangeCredentials -> Client)
    (missingMessage : string) (c : option ExchangeCredentials) : Outcome :=
  match c with
  | Some credentials => Returned (create credentials)
  | None => Thrown missingMessage
  end.

Definition createExchangeClient (exchangeType : string)
    (config : ExchangeConfig) : Outcome :=
  if String.eqb exchangeType "BINANCE" then
    client_of createBinanceClient "Binance configuration missing"
      (binance config)
  else if String.eqb exchangeType "BYBIT" then
    client_of createBybitClient "Bybit configuration missing" (bybit config)
  else if String.eqb exchangeType "OKX" then
    client_of createOkxClient "OKX configuration missing" (okx config)
  else if String.eqb exchangeType "KUCOIN" then
    client_of createKucoinClient "KuCoin configuration missing"
      (kucoin config)
  else if String.eqb exchangeType "BITGET" then
    client_of createBitgetClient "Bitget configuration missing"
      (bitget config)
  else if String.eqb exchangeType "TESTNET" then
    Returned createTestnetClient
  else Thrown (String.append "Unsupported exchange: " exchangeType).

End Exchange.

(** ** The GPU monitor *)

Module Gpu.

Inductive Status : Type := running | paused | idle.

Definition is_paused (s : Status) : bool :=
  match s with paused => true | _ => false end.

Definition is_idle (s : Status) : bool :=
  match s with idle => true | _ => false end.

(** What [callback] is called with: ['pause'] or ['resume']. *)
Inductive Advice : Type := advise_pause | advise_resume.

Record Threshold : Type := mkThreshold {
  pause : Qc;
  resume : Qc
}.

Record Reading : Type := mkReading {
  timestamp : Z;
  usage : Qc
}.

(** The members of a [GpuUsageMonitor] that an object holds by value.  The
    [history] array is held by reference and is kept in the [World]. *)
Record GpuUsageMonitor : Type := mkMonitor {
  currentUsage : Qc;
  highWatermark : Qc;
  threshold : Threshold;
  status : Status
}.

(** What a call of [monitorGpuUsage] leaves behind: the object [monitor] of
    the closure, the object handed to the caller (a spread of [monitor], so
    a copy of the members held by value), the one [history] array both
    point to, whether the interval is still set, the checks of the first
    copy that wait for their response, and the calls of [callback] so far,
    oldest first. *)
Record World : Type := mkWorld {
  monitor : GpuUsageMonitor;
  handed : GpuUsageMonitor;
  history : list Reading;
  interval : bool;
  awaited : nat;
  calls : list Advice
}.

Definition with_monitor (m : GpuUsageMonitor) (w : World) : World :=
  mkWorld m (handed w) (history w) (interval w) (awaited w) (calls w).

Definition with_status (s : Status) (m : GpuUsageMonitor) : GpuUsageMonitor :=
  mkMonitor (currentUsage m) (highWatermark m) (threshold m) s.

(** [monitorGpuUsage(maxGpuUsage = 75, callback?)], up to its [return]. *)
Definition monitorGpuUsage (maxGpuUsage : option Qc) : World :=
  let monitor :=
    mkMonitor 0 0 (mkThreshold (with_default maxGpuUsage '75) '30) idle in
  mkWorld monitor monitor [] true 0 [].

Section Callback.

(** Whether a [callback] was passed; it is taken to return. *)
Variable callback : bool.

Definition call (a : Advice) : list Advice := if callback then [a] else [].

(** The part of [checkGpuUsage] that follows the reading of [newUsage]. *)
Definition record (now : Z) (newUsage : Qc) (w : World) : World :=
  let m := monitor w in
  let history := history w ++ [mkReading now newUsage] in
  let history :=
    if (100 <? length history)%nat then tl history else history in
  let m :=
    mkMonitor newUsage (Js.max (highWatermark m) newUsage) (threshold m)
      (status m) in
  let '(m, called) :=
    if negb (is_paused (status m)) && Js.gtb newUsage (pause (threshold m))
    then (with_status paused m, call advise_pause)
    else if is_paused (status m) && Js.ltb newUsage (resume (threshold m))
    then (with_status running m, call advise_resume)
    else (m, []) in
  mkWorld m (handed w) history (interval w) (awaited w) (calls w ++ called).

Definition startMonitoring (w : World) : World :=
  if is_idle (status (monitor w))
  then with_monitor (with_status running (monitor w)) w
  else w.

Definition stopMonitoring (w : World) : World :=
  mkWorld (with_status idle (monitor w)) (handed w) (history w) false
    (awaited w) (calls w).

(** *** First copy: the usage is fetched *)

(** What happens to the monitor: the interval fires and a check starts;
    the response of a check arrives, with the usage it carries (taken to be
    a number), or the check fails and the [catch] runs; the caller starts or
    stops the monitoring.  A response can arrive after the interval was
    cleared. *)
Inductive EventA : Type :=
| FiresA
| Answers (now : Z) (fetched : option Qc)
| StartsA
| StopsA.

Definition stepA (w : World) (e : EventA) : World :=
  match e with
  | FiresA =>
      if interval w
      then mkWorld (monitor w) (handed w) (history w) (interval w)
             (S (awaited w)) (calls w)
      else w
  | Answers now fetched =>
      match awaited w with
      | O => w
      | S n =>
          let w :=
            mkWorld (monitor w) (handed w) (history w) (interval w) n
              (calls w) in
          match fetched with
          | Some newUsage => record now newUsage w
          | None =>
              let m := monitor w in
              with_monitor
                (mkMonitor 0 (highWatermark m) (threshold m) (status m)) w
          end
      end
  | StartsA => startMonitoring w
  | StopsA => stopMonitoring w
  end.

Definition runA (events : list EventA) (w : World) : World :=
  fold_left stepA events w.

(** *** Second copy: the usage is drawn *)

(** [checkGpuUsage()] for the value [Math.random()] returns. *)
Definition checkGpuUsage (now : Z) (random : Qc) (w : World) : World :=
  let newUsage := Js.of_Z (Qfloor (random * '100)) in
  record now newUsage w.

Inductive EventB : Type :=
| FiresB (now : Z) (random : Qc)
| StartsB
| StopsB.

Definition stepB (w : World) (e : EventB) : World :=
  match e with
  | FiresB now random => if interval w then checkGpuUsage now random w else w
  | StartsB => startMonitoring w
  | StopsB => stopMonitoring w
  end.

Definition runB (events : list EventB) (w : World) : World :=
  fold_left stepB events w.

End Callback.

End Gpu.

(** ** Concrete inputs used by the examples below *)

(** A candle whose four prices are all [c]. *)
Definition flat_candle (c : Qc) (k : CandleData) : Prop :=
  open k = c /\ high k = c /\ low k = c /\ close k = c.

(** The flat candle at price [c], time [t] and volume 1. *)
Definition flat_at (c : Qc) (t : Z) : CandleData := mkCandle t c c c c 1.

(** [n] flat candles at price [c], at times [0 .. n - 1]. *)
Definition flat_series (c : Qc) (n : nat) : list CandleData :=
  map (fun i => flat_at c (Z.of_nat i)) (seq 0 n).

(** [n] candles with the given closes (all four prices equal), at times
    [0 .. n - 1]. *)
Definition series (closes : list Qc) : list CandleData :=
  map (fun p => flat_at (snd p) (Z.of_nat (fst p)))
      (combine (seq 0 (length closes)) closes).

(** Thirty closes at 100, eighteen at 200, then a slide to 140: at the end
    of this 51-candle window the RSI is below 30 while the 8-period average
    is still above the 21-period one, the long entry rule. *)
Definition dip : list Qc :=
  repeat '100 30 ++ repeat '200 18 ++ ['180; '160; '140].

(** The dip followed by a recovery: one long trade, closed with a profit. *)
Definition winning_run : list CandleData := series (dip ++ ['170; '175]).

(** The dip followed by a further fall: one long trade, closed at a loss. *)
Definition losing_run : list CandleData := series (dip ++ ['120; '110]).

(** The dip twice, then a recovery: a losing trade and a winning one. *)
Definition mixed_run : list CandleData :=
  series (dip ++ dip ++ ['170; '175]).

(** A large rising candle, a small rising one and a falling candle that
    engulfs it: an evening star and a bearish engulfing. *)
Definition reversal : list CandleData :=
  [mkCandle 0 '100 '200 '200 '100 '1000;
   mkCandle 1 '210 '220 '220 '210 '1000;
   mkCandle 2 '230 '230 '140 '140 '1000].

(** An analysis with neutral indicators, the given confidence and the given
    candle data. *)
Definition plain_analysis (tf : string) (conf : Qc)
    (candleData : option (list CandleData))
  : Analysis.MultiTimeframeAnalysis :=
  Analysis.mkAnalysis tf "neutral" '50 "neutral" [] []
    (Analysis.mkDivergence false false 0) conf candleData None.

(** One weekly analysis of confidence 0.1 that carries the reversal. *)
Definition bearish_week : Analyses :=
  [("1w"%string, plain_analysis "1w" '0.1 (Some reversal))].

(** Short timeframes fully bullish, long timeframes fully bearish. *)
Definition split_view : Analyses :=
  [("15m"%string, plain_analysis "15m" 1 None);
   ("1h"%string, plain_analysis "1h" 1 None);
   ("1w"%string, plain_analysis "1w" 0 None);
   ("1d"%string, plain_analysis "1d" 0 None)].

(** One daily analysis of full confidence. *)
Definition sure_day : Analyses :=
  [("1d"%string, plain_analysis "1d" 1 None)].

(** Twelve candles that climb by one a candle, each with a range of two. *)
Definition climb : list CandleData :=
  map (fun i => mkCandle (Z.of_nat i) (Js.of_nat i) (Js.of_nat i + 1)
                  (Js.of_nat i) (Js.of_nat i - 1) 1) (seq 1 12).

(** Sixty closes that fall by one a candle, from 200. *)
Definition slide : list CandleData :=
  series (map (fun i => Js.of_nat (200 - i)) (seq 0 60)).

(** The dip and the runs built on it, in doubles. *)
Definition dip_binary64 : list float :=
  (repeat 100 30 ++ repeat 200 18 ++ [180; 160; 140])%float.

Definition winning_run_binary64 : list Binary64.CandleData :=
  Binary64.series (dip_binary64 ++ [170; 175]%float).

Definition mixed_run_binary64 : list Binary64.CandleData :=
  Binary64.series (dip_binary64 ++ dip_binary64 ++ [170; 175]%float).

(** Forty-four closes at 100, six at 200, then ten at 0: a long position is
    opened at price 0 and closed at price 0, with a profit of 0 / 0. *)
Definition zero_close_run : list Binary64.CandleData :=
  Binary64.series (repeat 100 44 ++ repeat 200 6 ++ repeat 0 10)%float.

(** ** Notions used to state the properties *)

(** In doubles: the profits of [trades] added to [initialCapital] one by
    one, in order. *)
Definition booked (initialCapital : float) (trades : list Binary64.Trade)
  : float :=
  fold_left (fun capital t => PrimFloat.add capital (Binary64.profit t))
    trades initialCapital.

(** In doubles: the sum of the profits of [trades], added one by one from
    0, in order. *)
Definition ledger_sum (trades : list Binary64.Trade) : float :=
  fold_left (fun sum t => PrimFloat.add sum (Binary64.profit t)) trades
    0%float.

(** In doubles: the sum of the profits above 0, and the absolute value of
    the sum of the other profits (the words of the claim on the profit
    factor) or of the profits that are 0 or less (the filter of the code).
    A profit that is [NaN] is among the others and is not 0 or less. *)
Definition winning_profit (trades : list Binary64.Trade) : float :=
  ledger_sum (filter (fun t => PrimFloat.ltb 0 (Binary64.profit t)) trades).

Definition other_loss (trades : list Binary64.Trade) : float :=
  PrimFloat.abs
    (ledger_sum
       (filter (fun t => negb (PrimFloat.ltb 0 (Binary64.profit t))) trades)).

Definition losing_loss (trades : list Binary64.Trade) : float :=
  PrimFloat.abs
    (ledger_sum (filter (fun t => PrimFloat.leb (Binary64.profit t) 0) trades)).

(** The simple mean of a list of numbers. *)
Definition mean (l : list Qc) : Qc := Js.sum l / Js.of_nat (length l).

(** Prices from the nearest trigger on: falling for a long position, rising
    for a short one (every price against every later one). *)
Definition descending (prices : list Qc) : Prop :=
  StronglySorted (fun a b => b <= a) prices.

Definition ascending (prices : list Qc) : Prop :=
  StronglySorted (fun a b => a <= b) prices.

(** The record a detection pushes: significance between 0 and 100, and the
    trend that [getPatternTrend] gives the pattern. *)
Definition well_formed_pattern (n : nat) (p : Candlestick.PatternResult)
  : Prop :=
  0 <= Candlestick.significance p /\ Candlestick.significance p <= '100
  /\ Candlestick.trend p = Candlestick.getPatternTrend (Candlestick.pattern p)
  /\ Forall (fun i => (i < n)%nat) (Candlestick.candles p).


(** Once an analysis off 0.5 has been seen, the dominant timeframe is one of
    the keys seen. *)
Definition dominated (keys : list string) (seen : bool) (st : Engine.Fusion)
  : Prop :=
  0 <= Engine.highestConfidenceValue st
  /\ (0 < Engine.highestConfidenceValue st ->
      In (Engine.dominantTimeframe st) keys)
  /\ (seen = true -> 0 < Engine.highestConfidenceValue st).



(** The signal, the reported confidence and the two price levels of a
    decision agree: a BUY reports a confidence above 0.7 and brackets the
    price with a stop below and a target above that lies further away than
    the stop, a SELL is its mirror image, a NEUTRAL reports 0.5 and no
    level. *)
Definition sides_agree (d : Decision.AiTradingDecision) : Prop :=
  match Decision.signal d with
  | BUY =>
      '0.7 < Decision.confidence d
      /\ Decision.stopLossSuggestion d < Decision.price d
      /\ Decision.price d < Decision.takeProfitSuggestion d
      /\ Decision.price d - Decision.stopLossSuggestion d
         < Decision.takeProfitSuggestion d - Decision.price d
  | SELL =>
      '0.7 < Decision.confidence d
      /\ Decision.takeProfitSuggestion d < Decision.price d
      /\ Decision.price d < Decision.stopLossSuggestion d
      /\ Decision.stopLossSuggestion d - Decision.price d
         < Decision.price d - Decision.takeProfitSuggestion d
  | NEUTRAL =>
      Decision.confidence d = '0.5
      /\ Decision.stopLossSuggestion d = 0
      /\ Decision.takeProfitSuggestion d = 0
  end.

(** The high-water mark never falls below a positive initial capital, and
    the recorded drawdown is never negative. *)
Definition marks_kept (initialCapital : Qc) (st : Backtest.Sim) : Prop :=
  initialCapital <= Backtest.highWaterMark st /\ 0 <= Backtest.maxDrawdown st.

(** The entry and exit times of a ledger, in order. *)
Definition timeline (trades : list Trade.Trade) : list Z :=
  flat_map (fun t => [Trade.entryTime t; Trade.exitTime t]) trades.

(** The times recorded so far, the entry of an open position included, are
    in order and not after [bound]; every recorded trade ends after it
    began. *)
Definition chronological (bound : Z) (st : Backtest.Sim) : Prop :=
  let recorded :=
    timeline (Backtest.trades st)
    ++ (if Backtest.inPosition st then [Backtest.entryTime st] else []) in
  StronglySorted Z.le recorded
  /\ Forall (fun x => (x <= bound)%Z) recorded
  /\ Forall (fun t => (Trade.entryTime t < Trade.exitTime t)%Z)
       (Backtest.trades st).

(** A series that never falls from one value to the next, or never
    rises. *)
Definition steady (l : list Qc) : Prop :=
  Sorted (fun a b => a <= b) l \/ Sorted (fun a b => b <= a) l.

(** The part of a candle's range that falls into the zone of index [i]. *)
Definition share (lowestPrice zoneSize : Qc) (c : CandleData) (i : nat) : Qc :=
  let zoneStart := lowestPrice + (Js.of_nat i * zoneSize) in
  let zoneEnd := zoneStart + zoneSize in
  if Js.leb (low c) zoneEnd && Js.leb zoneStart (high c)
  then (Js.min (high c) zoneEnd - Js.max (low c) zoneStart) / (high c - low c)
  else 0.

(** Each box begins on the candle after the previous box ended. *)
Definition adjacent (b1 b2 : Chart.Box) : Prop :=
  Chart.startIndex b2 = S (Chart.endIndex b1).

(** A box over candles [lo .. hi] whose bottom is not above its top. *)
Definition box_within (lo hi : nat) (b : Chart.Box) : Prop :=
  (lo <= Chart.startIndex b)%nat
  /\ (Chart.startIndex b <= Chart.endIndex b)%nat
  /\ (Chart.endIndex b <= hi)%nat
  /\ Chart.bottom b <= Chart.top b.

(** The state of the Darvas loop before the candle of index [i]. *)
Definition darvas_kept (period i : nat) (st : Chart.Darvas) : Prop :=
  Chart.initialLow st <= Chart.initialHigh st
  /\ match Chart.boxStartIndex st with
     | None => Chart.found st = []
     | Some s =>
         (period <= s < i)%nat
         /\ Chart.currentBoxBottom st <= Chart.currentBoxTop st
         /\ Forall (box_within period (s - 1)) (Chart.found st)
         /\ Sorted adjacent
              (Chart.found st
               ++ [Chart.mkBox (Chart.currentBoxTop st)
                     (Chart.currentBoxBottom st) s s])
     end.

(** An analysis of confidence 0 without candle data, as a short history
    gives. *)
Definition unread (a : Analysis.MultiTimeframeAnalysis) : Prop :=
  Analysis.confidence a = 0 /\ Analysis.candleData a = None.

(** The weighted sum of analyses of confidence 0: minus half the weight. *)
Definition all_against (st : Engine.Fusion) : Prop :=
  Engine.weightedConfidence st = - ('0.5 * Engine.totalWeight st)
  /\ 0 <= Engine.totalWeight st
  /\ (Engine.entries st <> [] -> 0 < Engine.totalWeight st).

(** A SELL of full confidence at the highest leverage allowed. *)
Definition full_sell (maxLeverage : Z) (d : Decision.AiTradingDecision)
  : Prop :=
  Decision.signal d = SELL
  /\ Decision.confidence d = 1
  /\ Decision.leverageSuggestion d = maxLeverage.

(** The exchange a configuration prefers: Binance unless it names one. *)
Definition preferred (config : Exchange.ExchangeConfig) : string :=
  Exchange.or_string (Exchange.preferredExchange config) "BINANCE".

(** A client that carries an API key and a secret key, neither empty. *)
Definition keyed (client : Exchange.Client) : Prop :=
  exists key secret,
    Exchange.clientApiKey client = Some key /\ key <> ""%string
    /\ Exchange.clientSecretKey client = Some secret /\ secret <> ""%string.

(** Calls that take turns, beginning with [expected]. *)
Definition other (a : Gpu.Advice) : Gpu.Advice :=
  match a with
  | Gpu.advise_pause => Gpu.advise_resume
  | Gpu.advise_resume => Gpu.advise_pause
  end.

Definition same_advice (a b : Gpu.Advice) : bool :=
  match a, b with
  | Gpu.advise_pause, Gpu.advise_pause => true
  | Gpu.advise_resume, Gpu.advise_resume => true
  | _, _ => false
  end.

Fixpoint alternates (expected : Gpu.Advice) (l : list Gpu.Advice) : bool :=
  match l with
  | [] => true
  | a :: l => same_advice a expected && alternates (other expected) l
  end.

(** What the history of a monitor keeps: at most a hundred readings, none
    above the high watermark. *)
Definition history_kept (w : Gpu.World) : Prop :=
  (length (Gpu.history w) <= 100)%nat
  /\ Forall (fun r => Gpu.usage r <= Gpu.highWatermark (Gpu.monitor w))
       (Gpu.history w).

(** The object handed to the caller still shows an idle monitor that has
    read nothing. *)
Definition shows_nothing (w : Gpu.World) : Prop :=
  Gpu.status (Gpu.handed w) = Gpu.idle
  /\ Gpu.currentUsage (Gpu.handed w) = 0
  /\ Gpu.highWatermark (Gpu.handed w) = 0.

(** The calls of [callback] take turns and a monitor whose interval is set
    is paused exactly when the last call said so. *)
Definition in_turn (w : Gpu.World) : Prop :=
  alternates Gpu.advise_pause (Gpu.calls w) = true
  /\ (Gpu.interval w = true ->
      Gpu.is_paused (Gpu.status (Gpu.monitor w))
      = Nat.odd (length (Gpu.calls w))).

(** Whether each value is below the one before it. *)
Fixpoint falls (l : list Qc) : bool :=
  match l with
  | a :: (b :: _) as rest => Js.ltb b a && falls rest
  | _ => true
  end.

(** * Properties *)

(** ** Numbers *)

(** Goals about [Qc] are moved to [Q], where [lra] and [field] apply. *)
Ltac to_Q :=
  unfold Qcdiv, Qcminus, Qcplus, Qcmult, Qcopp, Qcinv, Qclt, Qcle, Js.abs,
    Js.of_nat, Js.of_Z, Q2Qc in *;
  cbn [this] in *; rewrite ?Qred_correct in *.

Lemma ltb_lt (a b : Qc) : Js.ltb a b = true <-> a < b.
Proof.
  unfold Js.ltb, Qclt. rewrite negb_true_iff. split.
  - intros H. apply Qnot_le_lt. intros Hle.
    apply Qle_bool_iff in Hle. congruence.
  - intros H. destruct (Qle_bool b a) eqn:E; trivial.
    apply Qle_bool_iff in E. exfalso. exact (Qlt_not_le _ _ H E).
Qed.

Lemma ltb_ge (a b : Qc) : Js.ltb a b = false <-> b <= a.
Proof.
  unfold Js.ltb, Qcle. rewrite negb_false_iff. apply Qle_bool_iff.
Qed.

Lemma leb_le (a b : Qc) : Js.leb a b = true <-> a <= b.
Proof. unfold Js.leb, Qcle. apply Qle_bool_iff. Qed.

Lemma ltb_irrefl (a : Qc) : Js.ltb a a = false.
Proof. apply ltb_ge. unfold Qcle. apply Qle_refl. Qed.

Lemma eqb_eq (a b : Qc) : Js.eqb a b = true <-> a = b.
Proof.
  unfold Js.eqb. rewrite Qeq_bool_iff. split.
  - apply Qc_is_canon.
  - intros ->. reflexivity.
Qed.

Lemma eqb_refl (a : Qc) : Js.eqb a a = true.
Proof. now apply eqb_eq. Qed.

Lemma sum_from (l : list Qc) (a : Qc) :
  fold_left Qcplus l a = a + Js.sum l.
Proof.
  unfold Js.sum. revert a. induction l as [|x l IH]; intros a; simpl.
  - ring.
  - rewrite IH, (IH (0 + x)). ring.
Qed.

Lemma sum_cons (x : Qc) (l : list Qc) : Js.sum (x :: l) = x + Js.sum l.
Proof. unfold Js.sum at 1. simpl. rewrite sum_from. ring. Qed.

Lemma sum_app (l r : list Qc) : Js.sum (l ++ r) = Js.sum l + Js.sum r.
Proof.
  induction l as [|x l IH]; simpl.
  - unfold Js.sum at 2. simpl. ring.
  - rewrite !sum_cons, IH. ring.
Qed.

Lemma sum_zeros (n : nat) : Js.sum (repeat 0 n) = 0.
Proof.
  induction n as [|n IH]; simpl.
  - reflexivity.
  - rewrite sum_cons, IH. ring.
Qed.

Lemma of_nat_succ (n : nat) : Js.of_nat (S n) = Js.of_nat n + 1.
Proof.
  apply Qc_is_canon. to_Q.
  rewrite Nat2Z.inj_succ. unfold Z.succ. rewrite inject_Z_plus. reflexivity.
Qed.

Lemma of_nat_pos (n : nat) : (0 < n)%nat -> Js.of_nat n <> 0.
Proof.
  intros Hn E. apply (f_equal this) in E. to_Q.
  assert (H : (inject_Z (Z.of_nat n) == 0)%Q).
  { rewrite <- (Qred_correct (inject_Z (Z.of_nat n))), E. apply Qred_correct. }
  unfold Qeq in H. simpl in H. lia.
Qed.

Lemma sum_repeat (c : Qc) (n : nat) : Js.sum (repeat c n) = Js.of_nat n * c.
Proof.
  induction n as [|n IH]; simpl.
  - unfold Js.sum. simpl. apply Qc_is_canon. to_Q. reflexivity.
  - rewrite sum_cons, IH, of_nat_succ. ring.
Qed.

(** ** Lists *)

Lemma map_constant {A B : Type} (f : A -> B) (c : B) (l : list A) :
  Forall (fun x => f x = c) l -> map f l = repeat c (length l).
Proof.
  induction 1 as [|x l Hx _ IH]; simpl; congruence.
Qed.

Lemma firstn_repeat {A : Type} (x : A) (n m : nat) :
  firstn n (repeat x m) = repeat x (Nat.min n m).
Proof.
  revert m. induction n as [|n IH]; intros [|m]; simpl; trivial.
  now rewrite IH.
Qed.

Lemma skipn_repeat {A : Type} (x : A) (n m : nat) :
  skipn n (repeat x m) = repeat x (m - n).
Proof.
  revert m. induction n as [|n IH]; intros [|m]; simpl; trivial.
Qed.

Lemma last_elem_app {A : Type} (l : list A) (x : A) :
  Js.last_elem (l ++ [x]) = Some x.
Proof.
  unfold Js.last_elem. rewrite length_app. simpl.
  replace (length l + 1 - 1)%nat with (length l) by lia.
  rewrite nth_error_app2 by lia. now rewrite Nat.sub_diag.
Qed.

(** ** RSI of a series with constant closes *)

Lemma changes_repeat (c : Qc) (n : nat) :
  TA.changes (repeat c n) = repeat 0 (n - 1).
Proof.
  destruct n as [|n]; trivial.
  simpl repeat at 2. rewrite Nat.sub_0_r.
  induction n as [|n IH]; trivial.
  change (TA.changes (repeat c (S (S n))))
    with ((c - c) :: TA.changes (repeat c (S n))).
  rewrite IH. simpl. f_equal. ring.
Qed.

Lemma rsi_value_no_loss (avgGain : Qc) : TA.rsi_value avgGain 0 = '100.
Proof. unfold TA.rsi_value. now rewrite eqb_refl. Qed.

(** With constant closes the first computed RSI value, at index [period],
    is 100. *)
Lemma rsi_constant_first (candles : list CandleData) (period : nat) (c : Qc) :
  Forall (fun k => close k = c) candles ->
  (period + 1 <= length candles)%nat ->
  nth_error (TA.calculateRSI candles period) period = Some (Some '100).
Proof.
  intros Hc Hlen. unfold TA.calculateRSI.
  destruct (Nat.ltb_spec (length candles) (period + 1)) as [Hlt|_]; [lia|].
  rewrite (map_constant close c candles Hc), changes_repeat, !map_repeat.
  cbn beta. change (Js.gtb 0 0) with false. change (Js.ltb 0 0) with false.
  cbn iota. unfold Js.slice. rewrite Nat.sub_0_r. cbn [skipn].
  rewrite !firstn_repeat, !sum_zeros.
  replace (0 / Js.of_nat period) with 0 by (unfold Qcdiv; ring).
  rewrite rsi_value_no_loss.
  rewrite nth_error_app2 by (rewrite repeat_length; lia).
  rewrite repeat_length, Nat.sub_diag. reflexivity.
Qed.

(** ** EMA of a constant series *)

Lemma ema_loop_constant (multiplier c : Qc) (n : nat) :
  TA.ema_loop multiplier c (repeat c n) = repeat c n.
Proof.
  induction n as [|n IH]; simpl; trivial.
  replace ((c - c) * multiplier + c) with c by ring.
  now rewrite IH.
Qed.

Lemma ema_constant (c : Qc) (n period : nat) :
  (1 <= period <= n)%nat ->
  TA.calculateEMA (repeat c n) period
  = repeat None (period - 1) ++ Some c :: repeat (Some c) (n - period).
Proof.
  intros [Hp Hn]. unfold TA.calculateEMA, Js.slice.
  rewrite Nat.sub_0_r. cbn [skipn].
  rewrite firstn_repeat, skipn_repeat, Nat.min_l, sum_repeat by lia.
  replace (Js.of_nat period * c / Js.of_nat period) with c
    by (field; apply of_nat_pos; lia).
  now rewrite ema_loop_constant, map_repeat.
Qed.

Lemma last_value_ema_constant (c : Qc) (n period : nat) :
  (1 <= period <= n)%nat ->
  Backtest.last_value (TA.calculateEMA (repeat c n) period) = Some c.
Proof.
  intros H. rewrite ema_constant by trivial. unfold Backtest.last_value.
  destruct (n - period)%nat as [|k] eqn:E.
  - simpl repeat. now rewrite last_elem_app.
  - replace (Some c :: repeat (Some c) (S k))
      with ((Some c :: repeat (Some c) k) ++ [Some c]).
    + now rewrite app_assoc, last_elem_app.
    + change (Some c :: repeat (Some c) k) with (repeat (Some c) (S k)).
      now rewrite <- repeat_cons.
Qed.

(** With both averages equal, neither EMA test holds. *)
Lemma ema_tests_equal (e : Qc) :
  Backtest.ema_above (Some e) (Some e) = false
  /\ Backtest.ema_below (Some e) (Some e) = false.
Proof.
  unfold Backtest.ema_above, Backtest.ema_below, Js.gtb.
  rewrite ltb_irrefl. split; apply andb_false_r.
Qed.

(** ** The backtest on a series with constant closes *)

Lemma Forall_firstn {A : Type} (P : A -> Prop) (n : nat) (l : list A) :
  Forall P l -> Forall P (firstn n l).
Proof.
  intros H. revert n. induction H; intros [|n]; simpl; auto.
Qed.

Lemma Forall_skipn {A : Type} (P : A -> Prop) (n : nat) (l : list A) :
  Forall P l -> Forall P (skipn n l).
Proof.
  intros H. revert n. induction H; intros [|n]; simpl; auto.
Qed.

Lemma length_window (candles : list CandleData) (i : nat) :
  (50 <= i)%nat -> (i + 1 <= length candles)%nat ->
  length (Js.slice candles (i - 50) (i + 1)) = 51%nat.
Proof.
  intros Hi Hlen. unfold Js.slice. rewrite length_firstn, length_skipn. lia.
Qed.

(** Out of a position, an iteration over a window of constant closes
    changes nothing: both entry rules need the two averages to differ. *)
Lemma step_constant (candles : list CandleData) (c leverage riskPerTrade : Qc)
    (st : Backtest.Sim) (i : nat) :
  Forall (fun k => close k = c) candles ->
  (50 <= i)%nat -> (i + 1 <= length candles)%nat ->
  Backtest.inPosition st = false ->
  Backtest.step candles leverage riskPerTrade st i = st.
Proof.
  intros Hc Hi Hlen Hout. unfold Backtest.step.
  assert (Hw : Forall (fun k => close k = c) (Js.slice candles (i - 50) (i + 1)))
    by (unfold Js.slice; auto using Forall_firstn, Forall_skipn).
  rewrite (map_constant close c _ Hw), length_window by trivial.
  rewrite !last_value_ema_constant by lia.
  unfold Backtest.exit_step. rewrite Hout.
  unfold Backtest.entry_step. rewrite Hout. cbn [negb].
  destruct (ema_tests_equal c) as [-> ->].
  now rewrite !andb_false_r.
Qed.

Lemma loop_constant (candles : list CandleData) (c leverage riskPerTrade : Qc)
    (st : Backtest.Sim) (start len : nat) :
  Forall (fun k => close k = c) candles ->
  (50 <= start)%nat -> (len <= length candles - start)%nat ->
  Backtest.inPosition st = false ->
  fold_left (Backtest.step candles leverage riskPerTrade) (seq start len) st
  = st.
Proof.
  intros Hc. revert start. induction len as [|len IH]; intros start Hs Hl Hout.
  - reflexivity.
  - cbn [seq fold_left]. rewrite (step_constant candles c) by (trivial; lia).
    apply IH; trivial; lia.
Qed.

Lemma simulate_constant (candles : list CandleData)
    (c initialCapital leverage riskPerTrade : Qc) :
  Forall (fun k => close k = c) candles ->
  Backtest.simulate candles initialCapital leverage riskPerTrade
  = Backtest.sim_init initialCapital.
Proof.
  intros Hc. unfold Backtest.simulate.
  rewrite (loop_constant candles c) by (trivial; lia).
  reflexivity.
Qed.

(** On constant closes the backtest makes no trade and keeps the capital. *)
Lemma backtest_constant (candles : list CandleData)
    (c initialCapital leverage riskPerTrade : Qc) :
  Forall (fun k => close k = c) candles ->
  let r := Backtest.backtestStrategy candles initialCapital leverage
             riskPerTrade in
  Result.trades r = [] /\ Result.totalTrades r = 0%nat
  /\ Result.finalCapital r = initialCapital.
Proof.
  intros Hc. unfold Backtest.backtestStrategy.
  destruct (length candles <? 50)%nat.
  - cbn. auto.
  - rewrite (simulate_constant candles c) by trivial. cbn. auto.
Qed.

(** ** The ledger of the backtest in doubles *)

Lemma eqb_zero_not_above (x : float) :
  PrimFloat.eqb x 0 = true -> PrimFloat.ltb 0 x = false.
Proof.
  rewrite eqb_spec, ltb_spec.
  change (Prim2SF 0) with (S754_zero false).
  destruct (Prim2SF x) as [s|s| |s m e]; cbn; try discriminate; trivial.
  all: destruct s; cbn; trivial; discriminate.
Qed.

(** Every change of the running capital is the profit of the trade that
    is recorded with it, the forced close included. *)
Lemma simulate_booked (candles : list Binary64.CandleData)
    (initialCapital leverage riskPerTrade : float) :
  Binary64.capital
    (Binary64.simulate candles initialCapital leverage riskPerTrade)
  = booked initialCapital
      (Binary64.ledger
         (Binary64.simulate candles initialCapital leverage riskPerTrade)).
Proof.
  unfold Binary64.simulate.
  set (run := fold_left _ _ _).
  assert (Hrun : Binary64.capital run
                 = booked initialCapital (Binary64.ledger run)).
  { subst run. generalize (seq 50 (length candles - 1 - 50)).
    assert (H0 : Binary64.capital (Binary64.sim_init initialCapital)
                 = booked initialCapital
                     (Binary64.ledger (Binary64.sim_init initialCapital)))
      by reflexivity.
    revert H0. generalize (Binary64.sim_init initialCapital).
    intros st H0 indices. revert st H0.
    induction indices as [|i indices IH]; intros st H0; simpl; trivial.
    apply IH. unfold Binary64.step, Binary64.entry_step.
    match goal with |- context [Binary64.exit_step ?l ?t ?r ?a ?b ?p st] =>
      assert (E : Binary64.capital (Binary64.exit_step l t r a b p st)
                  = booked initialCapital
                      (Binary64.ledger (Binary64.exit_step l t r a b p st)));
      [|destruct (negb (Binary64.inPosition (Binary64.exit_step l t r a b p st)));
        trivial;
        match goal with |- context [match ?s with Some _ => _ | None => _ end]
          => destruct s end; trivial]
    end.
    unfold Binary64.exit_step. destruct (Binary64.inPosition st); trivial.
    match goal with |- context [if ?b then _ else st] => destruct b end;
      trivial.
    match goal with
    | |- context [let '(_, _) := ?p in _] => destruct p as [hwm dd]
    end.
    cbn [Binary64.capital Binary64.ledger]. unfold booked.
    rewrite fold_left_app. cbn [fold_left Binary64.profit].
    now rewrite H0. }
  unfold Binary64.close_open. destruct (Binary64.inPosition run); trivial.
  cbn [Binary64.capital Binary64.ledger]. unfold booked.
  rewrite fold_left_app. cbn [fold_left Binary64.profit]. now rewrite Hrun.
Qed.

(** ** The two ATR helpers *)










(** ** Sorting *)

Section SortLemmas.

Context {A : Type} (cmp : A -> A -> Qc) (R : A -> A -> Prop).

(** [R] is the order the comparator sorts into: whichever way a
    comparison falls, the element put first is [R]-before the other. *)
Hypothesis before : forall x y, Js.ltb (cmp x y) 0 = true -> R x y.
Hypothesis after : forall x y, Js.ltb (cmp x y) 0 = false -> R y x.

Lemma HdRel_insert_by (y x : A) (l : list A) :
  HdRel R y l -> R y x -> HdRel R y (Js.insert_by cmp x l).
Proof.
  intros Hl Hx. destruct l as [|z l]; simpl.
  - now constructor.
  - destruct (Js.ltb (cmp x z) 0); constructor; trivial.
    now inversion Hl.
Qed.

Lemma insert_by_sorted (x : A) (l : list A) :
  Sorted R l -> Sorted R (Js.insert_by cmp x l).
Proof.
  induction 1 as [|y l Hs IH Hhd]; simpl.
  - repeat constructor.
  - destruct (Js.ltb (cmp x y) 0) eqn:E.
    + repeat constructor; auto.
    + constructor; trivial. apply HdRel_insert_by; auto.
Qed.

Lemma sort_from_sorted (l acc : list A) :
  Sorted R acc ->
  Sorted R (fold_left (fun acc x => Js.insert_by cmp x acc) l acc).
Proof.
  revert acc. induction l as [|x l IH]; intros acc H; simpl; trivial.
  now apply IH, insert_by_sorted.
Qed.

Lemma sort_sorted (l : list A) : Sorted R (Js.sort cmp l).
Proof. apply sort_from_sorted. constructor. Qed.

End SortLemmas.

Lemma Sorted_map {A B : Type} (f : A -> B) (R : B -> B -> Prop) (l : list A) :
  Sorted (fun a b => R (f a) (f b)) l -> Sorted R (map f l).
Proof.
  induction 1 as [|x l Hs IH Hhd]; simpl; constructor; trivial.
  destruct Hhd; simpl; now constructor.
Qed.

Lemma diff_negative (x y : Qc) : Js.ltb (x - y) 0 = true <-> x < y.
Proof.
  rewrite ltb_lt. split; intros H; to_Q; lra.
Qed.

Lemma diff_not_negative (x y : Qc) : Js.ltb (x - y) 0 = false <-> y <= x.
Proof.
  rewrite ltb_ge. split; intros H; to_Q; lra.
Qed.

(** ** The DCA ladder *)

Lemma renumber_price (start : nat) (l : list DCALevel) :
  map price (EngineA.renumber start l) = map price l.
Proof.
  revert start. induction l as [|x l IH]; intros start; simpl; trivial.
  now rewrite IH.
Qed.

Lemma renumber_level (start : nat) (l : list DCALevel) :
  map level (EngineA.renumber start l) = seq start (length l).
Proof.
  revert start. induction l as [|x l IH]; intros start; simpl; trivial.
  now rewrite IH.
Qed.

Lemma sorted_long (l : list DCALevel) :
  descending (map price (Js.sort (EngineA.by_price LONG) l)).
Proof.
  apply Sorted_StronglySorted.
  { intros a b c Hab Hbc. exact (Qcle_trans _ _ _ Hbc Hab). }
  apply Sorted_map, sort_sorted; intros x y; unfold EngineA.by_price; cbn.
  - rewrite diff_negative. intros H. unfold Qcle, Qclt in *. lra.
  - now rewrite diff_not_negative.
Qed.

Lemma sorted_short (l : list DCALevel) :
  ascending (map price (Js.sort (EngineA.by_price SHORT) l)).
Proof.
  apply Sorted_StronglySorted.
  { intros a b c Hab Hbc. exact (Qcle_trans _ _ _ Hab Hbc). }
  apply Sorted_map, sort_sorted; intros x y; unfold EngineA.by_price; cbn.
  - rewrite diff_negative. intros H. unfold Qcle, Qclt in *. lra.
  - now rewrite diff_not_negative.
Qed.

Lemma length_renumber (start : nat) (l : list DCALevel) :
  length (EngineA.renumber start l) = length l.
Proof.
  revert start. induction l as [|x l IH]; intros start; simpl; auto.
Qed.

(** Whatever was collected, the sorted and renumbered ladder is ordered by
    price and numbered from 1. *)
Lemma ladder_shape (positionType : PositionType) (found : list DCALevel) :
  let r := EngineA.renumber 1 (Js.sort (EngineA.by_price positionType) found) in
  (positionType = LONG -> descending (map price r))
  /\ (positionType = SHORT -> ascending (map price r))
  /\ map level r = seq 1 (length r).
Proof.
  cbv zeta. rewrite renumber_price, renumber_level, length_renumber.
  repeat split.
  - intros ->. apply sorted_long.
  - intros ->. apply sorted_short.
Qed.

Lemma map_this_inj (l r : list Qc) : map this l = map this r -> l = r.
Proof.
  revert r. induction l as [|x l IH]; intros [|y r] H; try discriminate.
  - reflexivity.
  - cbn [map] in H. injection H as Hx Hl. f_equal.
    + apply Qc_is_canon. now rewrite Hx.
    + now apply IH.
Qed.

(** ** Closed equalities between numbers and computed results *)

(** Two computed numbers are equal when their values are. *)
Ltac qc_compute := apply Qc_is_canon; vm_compute; reflexivity.

Lemma Forall_series (P : CandleData -> Prop) (closes : list Qc) :
  (forall t c, P (flat_at c t)) -> Forall P (series closes).
Proof.
  intros H. unfold series. apply Forall_forall. intros k Hk.
  apply in_map_iff in Hk. destruct Hk as [[i c] [<- _]]. apply H.
Qed.

Lemma Forall_flat_series (P : CandleData -> Prop) (c : Qc) (n : nat) :
  (forall t, P (flat_at c t)) -> Forall P (flat_series c n).
Proof.
  intros H. unfold flat_series. apply Forall_forall. intros k Hk.
  apply in_map_iff in Hk. destruct Hk as [i [<- _]]. apply H.
Qed.

(** * The claims *)

(** Claim C1, as the code has it: for every candle series whose close prices
    are all equal and whose length is at least period + 1 = 15,
    [calculateRSI(candles, 14)] is exactly 100 at the first computed index
    (index 14): the both-zero case takes the [avgLoss === 0] branch. *)
Theorem rsi_constant_is_100 (candles : list CandleData) (c : Qc) :
  Forall (fun k => close k = c) candles ->
  (15 <= length candles)%nat ->
  nth_error (TA.calculateRSI candles 14) 14 = Some (Some '100).
Proof.
  intros Hc Hlen. apply (rsi_constant_first candles 14 c); trivial.
Qed.

Lemma rsi_constant_is_100_witness :
  nth_error (TA.calculateRSI (flat_series '100 15) 14) 14 = Some (Some '100).
Proof.
  apply (rsi_constant_is_100 (flat_series '100 15) '100).
  - apply Forall_flat_series. reflexivity.
  - vm_compute. lia.
Defined.

(** Claim C1 as stated fails: on fifteen candles that all close at 100 the
    value at index 14 is not 50. *)
Lemma rsi_constant_not_50 :
  nth_error (TA.calculateRSI (flat_series '100 15) 14) 14 <> Some (Some '50).
Proof.
  rewrite (rsi_constant_first (flat_series '100 15) 14 '100).
  - intros H. injection H as H. discriminate H.
  - apply Forall_flat_series. reflexivity.
  - vm_compute. lia.
Qed.

(** Claim C2 fails on the code: the weekly analysis of confidence 0.1 with
    the reversal attached is fused to -0.15, the signal is SELL, and the
    suggested leverage for the bounds 10 and 50 is 56. *)
Theorem leverage_exceeds_bound (sqrt : Qc -> Qc) (t1 t2 : Z) :
  option_map Decision.leverageSuggestion
    (EngineA.generateTradingDecision sqrt bearish_week '100
       (Some '10) (Some '50) t1 t2)
  = Some 56%Z
  /\ option_map Decision.signal
       (EngineA.generateTradingDecision sqrt bearish_week '100
          (Some '10) (Some '50) t1 t2)
     = Some SELL
  /\ Engine.finalConfidence (Engine.fuse EngineA.timeframeWeights bearish_week)
     = '(-0.15)
  /\ '50 < Js.of_Z 56.
Proof.
  split; [|split; [|split]].
  - vm_compute. reflexivity.
  - vm_compute. reflexivity.
  - qc_compute.
  - vm_compute. reflexivity.
Qed.

(** Claim C3, as the code has it: for every run, in doubles, the reported
    profit factor is totalProfit / totalLoss when totalLoss is above 0,
    where totalProfit is the sum of the profits above 0 and totalLoss the
    absolute value of the sum of the profits that are 0 or less; it is
    [Infinity] when totalLoss is 0 and totalProfit is above 0, and 0 when
    both are 0. *)
Theorem profit_factor_of_losing_trades (candles : list Binary64.CandleData)
    (initialCapital leverage riskPerTrade : float) :
  let r := Binary64.backtestStrategy candles initialCapital leverage
             riskPerTrade in
  let totalProfit := winning_profit (Binary64.trades r) in
  let totalLoss := losing_loss (Binary64.trades r) in
  (PrimFloat.ltb 0 totalLoss = true ->
   Binary64.profitFactor r = PrimFloat.div totalProfit totalLoss)
  /\ (PrimFloat.eqb totalLoss 0 = true -> PrimFloat.ltb 0 totalProfit = true ->
      Binary64.profitFactor r = PrimFloat.infinity)
  /\ (PrimFloat.eqb totalLoss 0 = true -> PrimFloat.eqb totalProfit 0 = true ->
      Binary64.profitFactor r = 0%float).
Proof.
  cbv zeta. unfold Binary64.backtestStrategy.
  destruct (length candles <? 50)%nat.
  { cbn [Binary64.profitFactor Binary64.trades].
    repeat split; trivial; intros H; vm_compute in H; discriminate. }
  cbv zeta. cbn [Binary64.profitFactor Binary64.trades].
  unfold winning_profit, losing_loss, ledger_sum, Binary64.winners,
    Binary64.losers, Binary64.gtb.
  set (P := fold_left _ (filter (fun t => PrimFloat.ltb 0 _) _) _).
  set (L := PrimFloat.abs _).
  split; [|split].
  - intros H. now rewrite H.
  - intros H1 H2. now rewrite (eqb_zero_not_above _ H1), H2.
  - intros H1 H2.
    now rewrite (eqb_zero_not_above _ H1), (eqb_zero_not_above _ H2).
Qed.

(** The three cases on runs of the simulator: a losing and a winning trade,
    a single winning trade, and no trade. *)
Lemma profit_factor_of_losing_trades_witness :
  (let r := Binary64.backtestStrategy mixed_run_binary64 1000 10 2 in
   Binary64.profitFactor r
   = PrimFloat.div (winning_profit (Binary64.trades r))
       (losing_loss (Binary64.trades r)))
  /\ Binary64.profitFactor
       (Binary64.backtestStrategy winning_run_binary64 1000 10 2)
     = PrimFloat.infinity
  /\ Binary64.profitFactor
       (Binary64.backtestStrategy (Binary64.flat_series 100 60) 1000 10 2)
     = 0%float.
Proof.
  split; [|split].
  - refine (proj1 (profit_factor_of_losing_trades mixed_run_binary64
                     1000 10 2) _).
    vm_compute. reflexivity.
  - refine (proj1 (proj2 (profit_factor_of_losing_trades
                            winning_run_binary64 1000 10 2)) _ _);
      vm_compute; reflexivity.
  - refine (proj2 (proj2 (profit_factor_of_losing_trades
                            (Binary64.flat_series 100 60) 1000 10 2)) _ _);
      vm_compute; reflexivity.
Defined.

(** The claim as worded fails where a profit is [NaN]: on
    [zero_close_run] the one trade is opened and closed at price 0, its
    profit is 0 / 0, it is not a winning trade, and the quotient of the
    claim is [NaN]; the code, whose filter for the losses leaves the trade
    out, reports a profit factor of 0. *)
Lemma profit_factor_nan_trade :
  let r := Binary64.backtestStrategy zero_close_run 1000 10 2 in
  map Binary64.profit (Binary64.trades r) = [PrimFloat.nan]
  /\ Binary64.profitFactor r = 0%float
  /\ PrimFloat.is_nan
       (PrimFloat.div (winning_profit (Binary64.trades r))
          (other_loss (Binary64.trades r))) = true
  /\ PrimFloat.eqb (Binary64.profitFactor r)
       (PrimFloat.div (winning_profit (Binary64.trades r))
          (other_loss (Binary64.trades r))) = false.
Proof. cbv zeta. repeat split; vm_compute; reflexivity. Qed.

(** The run with two trades: a loss of 400/7 and a profit of 1980/49, hence
    a profit factor of 99/140. *)
Example mixed_run_result :
  let r := Backtest.backtestStrategy mixed_run '1000 '10 '2 in
  map (fun t => this (Trade.profit t)) (Result.trades r)
  = [(-400 # 7)%Q; (1980 # 49)%Q]
  /\ Result.totalTrades r = 2%nat
  /\ this (Result.finalCapital r) = (48180 # 49)%Q
  /\ Result.profitFactor r = Finite '(99 # 140).
Proof.
  cbv zeta.
  assert (E : exists r, Backtest.backtestStrategy mixed_run '1000 '10 '2 = r
              /\ map (fun t => this (Trade.profit t)) (Result.trades r)
                 = [(-400 # 7)%Q; (1980 # 49)%Q]
              /\ Result.totalTrades r = 2%nat
              /\ this (Result.finalCapital r) = (48180 # 49)%Q
              /\ match Result.profitFactor r with
                 | Finite x => this x = (99 # 140)%Q
                 | Infinity => False
                 end).
  { eexists. split; [vm_compute; reflexivity|]. vm_compute. auto. }
  destruct E as [r [-> [H1 [H2 [H3 H4]]]]]. repeat split; trivial.
  destruct (Result.profitFactor r) as [x|]; [|contradiction].
  f_equal. apply Qc_is_canon. rewrite H4. reflexivity.
Qed.

(** Claim C4 fails on the code as JavaScript runs it.  On sixty flat
    candles at 0.1, in IEEE doubles, the window of the first 51 candles has
    RSI 100 while rounding leaves its 8-period average (0.09999999999999999)
    below its 21-period average (0.10000000000000002): the short entry rule
    fires at index 50.  The position is closed after the loop with profit
    0, so the backtest reports one trade, and the initial capital as final
    capital. *)
Theorem flat_series_opens_short :
  let candles := Binary64.flat_series Binary64.tenth 60 in
  let window := Js.slice candles 0 51 in
  let closePrices := map Binary64.close window in
  let r := Binary64.backtestStrategy candles 1000 10 2 in
  Binary64.last_value (Binary64.calculateRSI window 14) = Some 100%float
  /\ (exists ema8 ema21,
        Binary64.last_value (Binary64.calculateEMA closePrices 8) = Some ema8
        /\ Binary64.last_value (Binary64.calculateEMA closePrices 21)
           = Some ema21
        /\ PrimFloat.ltb ema8 ema21 = true)
  /\ Binary64.totalTrades r = 1%nat
  /\ map Binary64.type (Binary64.trades r) = [SHORT]
  /\ map Binary64.entryTime (Binary64.trades r) = [50%Z]
  /\ map Binary64.profit (Binary64.trades r) = [0%float]
  /\ Binary64.finalCapital r = 1000%float.
Proof.
  cbv zeta. split; [vm_compute; reflexivity|]. split.
  - eexists. eexists. split; [vm_compute; reflexivity|].
    split; vm_compute; reflexivity.
  - repeat split; vm_compute; reflexivity.
Qed.

(** The same sixty candles at 100, where no sum rounds: no trade. *)
Example flat_series_at_100 :
  let r := Binary64.backtestStrategy (Binary64.flat_series 100 60) 1000 10 2 in
  Binary64.totalTrades r = 0%nat /\ Binary64.finalCapital r = 1000%float.
Proof. cbv zeta. split; vm_compute; reflexivity. Qed.

(** In exact arithmetic the property of claim C4 holds: for every flat
    series of 60 candles (opens, highs, lows and closes all equal to one
    positive constant), whatever the capital, the leverage and the risk per
    trade, the backtest reports no trade and a final capital equal to the
    initial capital.  Both averages of a constant window then equal the
    constant, and each entry rule needs them to differ. *)
Theorem flat_backtest_no_trade (candles : list CandleData)
    (c initialCapital leverage riskPerTrade : Qc) :
  length candles = 60%nat -> 0 < c -> Forall (flat_candle c) candles ->
  let r := Backtest.backtestStrategy candles initialCapital leverage
             riskPerTrade in
  Result.totalTrades r = 0%nat /\ Result.finalCapital r = initialCapital.
Proof.
  intros _ _ Hflat.
  apply (backtest_constant candles c initialCapital leverage riskPerTrade).
  eapply Forall_impl; [|exact Hflat]. intros k Hk. apply Hk.
Qed.

Lemma flat_backtest_no_trade_witness :
  let r := Backtest.backtestStrategy (flat_series '100 60) '1000 '10 '2 in
  Result.totalTrades r = 0%nat /\ Result.finalCapital r = '1000.
Proof.
  apply (flat_backtest_no_trade (flat_series '100 60) '100 '1000 '10 '2).
  - vm_compute. reflexivity.
  - vm_compute. reflexivity.
  - apply Forall_flat_series. intros t. repeat split.
Defined.

(** Claim C5: on fewer than 50 candles the backtest returns the all-zero
    result: no trades, zero rates, returns, drawdown, net profit and profit
    factor, an empty trade list, and the initial capital as final capital
    and balance. *)
Theorem short_series_zero_result (candles : list CandleData)
    (initialCapital leverage riskPerTrade : Qc) :
  (length candles < 50)%nat ->
  Backtest.backtestStrategy candles initialCapital leverage riskPerTrade
  = Result.mkResult 0 0 0 0 initialCapital 0 0 0 0 (Finite 0) 0
      initialCapital [].
Proof.
  intros H. unfold Backtest.backtestStrategy.
  now destruct (Nat.ltb_spec (length candles) 50); [|lia].
Qed.

Lemma short_series_zero_result_witness :
  Backtest.backtestStrategy (firstn 49 winning_run) '1000 '10 '2
  = Result.mkResult 0 0 0 0 '1000 0 0 0 0 (Finite 0) 0 '1000 [].
Proof.
  apply (short_series_zero_result (firstn 49 winning_run) '1000 '10 '2).
  vm_compute. lia.
Defined.

(** Claim C6: for every input, the ladder of [calculateDCALevels] is sorted
    by price, descending for a long position and ascending for a short one,
    and its levels are numbered 1..N in that order; in particular the call
    with entry price 100, LONG, initial size 1, 3 levels and volatility 0.01
    yields three levels numbered 1, 2, 3 with strictly decreasing prices
    below 100. *)
Theorem dca_ladder_sorted (pow : Qc -> Qc -> Qc) :
  (forall entryPrice positionType initialSize levels volatility
          marketCondition options,
     let r := EngineA.calculateDCALevels pow entryPrice positionType
                initialSize levels volatility marketCondition options in
     (positionType = LONG -> descending (map price r))
     /\ (positionType = SHORT -> ascending (map price r))
     /\ map level r = seq 1 (length r))
  /\ (let r := EngineA.calculateDCALevels pow '100 LONG 1 3 '0.01
                 TAG_NEUTRAL None in
      map level r = [1; 2; 3]%nat
      /\ map price r = ['96.55; '91.95; '86.2]
      /\ '86.2 < '91.95 /\ '91.95 < '96.55 /\ '96.55 < '100).
Proof.
  split.
  - intros entryPrice positionType initialSize levels volatility
      marketCondition options. unfold EngineA.calculateDCALevels. cbv zeta.
    match goal with
    | |- context [let '(_, _) := ?p in _] => destruct p as [percentages found]
    end.
    apply ladder_shape.
  - cbv zeta. split; [vm_compute; reflexivity|]. split.
    + apply map_this_inj. vm_compute. reflexivity.
    + repeat split; vm_compute; reflexivity.
Qed.

(** Claim C7: when the analyses hold exactly one timeframe, of table weight
    1.0, whose analysis has confidence 0.9 and no candle data, the fused
    confidence is exactly 0.9, and so is the confidence of the decision,
    whatever the price, the leverage bounds and the clock readings: the same
    inputs give the same confidence. *)
Theorem single_weight_one_confidence (sqrt : Qc -> Qc) (tf : string)
    (a : Analysis.MultiTimeframeAnalysis) (currentPrice : Qc)
    (minLeverage maxLeverage : option Qc) (t1 t2 t1' t2' : Z) :
  EngineA.timeframeWeights tf = '1.0 ->
  Analysis.confidence a = '0.9 ->
  Analysis.candleData a = None ->
  Engine.finalConfidence (Engine.fuse EngineA.timeframeWeights [(tf, a)])
  = '0.9
  /\ option_map Decision.confidence
       (EngineA.generateTradingDecision sqrt [(tf, a)] currentPrice
          minLeverage maxLeverage t1 t2)
     = Some '0.9
  /\ option_map Decision.confidence
       (EngineA.generateTradingDecision sqrt [(tf, a)] currentPrice
          minLeverage maxLeverage t1 t2)
     = option_map Decision.confidence
         (EngineA.generateTradingDecision sqrt [(tf, a)] currentPrice
            minLeverage maxLeverage t1' t2').
Proof.
  intros Hw Hc Hd.
  assert (Hfuse : Engine.fuse EngineA.timeframeWeights [(tf, a)]
                  = Engine.mkFusion (0 + ('0.9 - '0.5) * '1.0) (0 + '1.0) tf
                      (Js.abs ('0.9 - '0.5)) [(tf, a)]).
  { unfold Engine.fuse. cbn [fold_left]. unfold Engine.fusion_step.
    rewrite Hw, Hc, Hd. reflexivity. }
  assert (Hfinal : Engine.finalConfidence
                     (Engine.fuse EngineA.timeframeWeights [(tf, a)]) = '0.9).
  { rewrite Hfuse. qc_compute. }
  assert (Hdec : forall u1 u2,
             option_map Decision.confidence
               (EngineA.generateTradingDecision sqrt [(tf, a)] currentPrice
                  minLeverage maxLeverage u1 u2) = Some '0.9).
  { intros u1 u2. unfold EngineA.generateTradingDecision. cbv zeta.
    rewrite Hfinal. rewrite Hfuse. cbn [Engine.entries Engine.dominantTimeframe].
    change (EngineA.choose_signal [(tf, a)] '0.9) with (BUY, @nil Message).
    cbn [lookup]. rewrite String.eqb_refl. reflexivity. }
  split; [exact Hfinal|]. split; [apply Hdec|]. now rewrite !Hdec.
Qed.

Lemma single_weight_one_confidence_witness :
  Engine.finalConfidence
    (Engine.fuse EngineA.timeframeWeights
       [("1w"%string, plain_analysis "1w" '0.9 None)])
  = '0.9.
Proof.
  refine (proj1 (single_weight_one_confidence (fun x => x) "1w"
                   (plain_analysis "1w" '0.9 None) '100 None None 0 0 0 0
                   _ _ _)); reflexivity.
Defined.

(** The same in IEEE doubles: fusing a single analysis of confidence 0.9
    and weight 1.0 gives back the double 0.9. *)
Remark fused_single_binary64 :
  Binary64.fused_single (9 / 10)%float 1%float = (9 / 10)%float.
Proof. vm_compute. reflexivity. Qed.




(** Claim C9: the two copies of the engine are not extensionally equal.
    On the same analyses and price, called with their default leverage
    bounds, they return decisions that differ in the signal and in the
    suggested leverage; a fully confident daily analysis gets the leverage
    50 from one copy and 15 from the other; and the weight tables differ at
    15m (0.5 against 0.15) and at 1h (0.5 against 0.3). *)
Theorem engine_copies_differ :
  exists (analyses : Analyses) (currentPrice : Qc),
    (forall (sqrt : Qc -> Qc) (t1 t2 t : Z),
       exists dA dB,
         EngineA.generateTradingDecision sqrt analyses currentPrice None None
           t1 t2 = Some dA
         /\ EngineB.generateTradingDecision analyses currentPrice None None t
            = Some dB
         /\ Decision.signal dA = NEUTRAL /\ Decision.signal dB = SELL
         /\ Decision.leverageSuggestion dA = 36%Z
         /\ Decision.leverageSuggestion dB = 14%Z)
    /\ (forall (sqrt : Qc -> Qc) (t1 t2 t : Z),
          option_map Decision.leverageSuggestion
            (EngineA.generateTradingDecision sqrt sure_day currentPrice
               None None t1 t2) = Some 50%Z
          /\ option_map Decision.leverageSuggestion
               (EngineB.generateTradingDecision sure_day currentPrice
                  None None t) = Some 15%Z)
    /\ EngineA.timeframeWeights "15m" = '0.5
    /\ EngineB.timeframeWeights "15m" = '0.15
    /\ EngineA.timeframeWeights "1h" = '0.5
    /\ EngineB.timeframeWeights "1h" = '0.3.
Proof.
  exists split_view, '100. split; [|split].
  - intros sqrt t1 t2 t. eexists. eexists.
    split; [vm_compute; reflexivity|].
    split; [vm_compute; reflexivity|].
    cbn. auto.
  - intros sqrt t1 t2 t. split; vm_compute; reflexivity.
  - repeat split.
Qed.

(** Claim C10, as the code has it: for every run on at least 50 candles, in
    doubles, the capital accounting is closed by the trade ledger taken in
    order: the final capital is the initial capital with the profits of the
    returned trades added to it one by one, in ledger order, and the net
    profit is the final capital minus the initial capital.  No other path
    changes the running capital, the forced close of an open position
    included. *)
Theorem backtest_ledger_booked (candles : list Binary64.CandleData)
    (initialCapital leverage riskPerTrade : float) :
  (50 <= length candles)%nat ->
  let r := Binary64.backtestStrategy candles initialCapital leverage
             riskPerTrade in
  Binary64.finalCapital r = booked initialCapital (Binary64.trades r)
  /\ Binary64.netProfit r
     = PrimFloat.sub (Binary64.finalCapital r) initialCapital.
Proof.
  intros Hlen. unfold Binary64.backtestStrategy.
  destruct (Nat.ltb_spec (length candles) 50) as [H|_]; [lia|].
  cbv zeta. cbn [Binary64.finalCapital Binary64.trades Binary64.netProfit].
  split; [apply simulate_booked|reflexivity].
Qed.

Lemma backtest_ledger_booked_witness :
  let r := Binary64.backtestStrategy mixed_run_binary64 100 10 2 in
  Binary64.finalCapital r = booked 100 (Binary64.trades r)
  /\ Binary64.netProfit r = PrimFloat.sub (Binary64.finalCapital r) 100.
Proof.
  apply (backtest_ledger_booked mixed_run_binary64 100 10 2).
  vm_compute. lia.
Defined.

(** The claim as worded fails through rounding: on [mixed_run_binary64]
    with an initial capital of 100 the two profits, added to the capital
    one after the other, give 98.326530612244909, while the initial
    capital plus the sum of the two profits is 98.326530612244895. *)
Lemma ledger_sum_differs :
  let r := Binary64.backtestStrategy mixed_run_binary64 100 10 2 in
  let closed := PrimFloat.add 100 (ledger_sum (Binary64.trades r)) in
  Binary64.finalCapital r = 0x1.894e5e0a72f06p+6%float
  /\ closed = 0x1.894e5e0a72f05p+6%float
  /\ Binary64.finalCapital r <> closed.
Proof.
  cbv zeta.
  assert (Ea : Binary64.finalCapital
                 (Binary64.backtestStrategy mixed_run_binary64 100 10 2)
               = 0x1.894e5e0a72f06p+6%float) by (vm_compute; reflexivity).
  assert (Eb : PrimFloat.add 100
                 (ledger_sum
                    (Binary64.trades
                       (Binary64.backtestStrategy mixed_run_binary64 100 10 2)))
               = 0x1.894e5e0a72f05p+6%float) by (vm_compute; reflexivity).
  split; [exact Ea|]. split; [exact Eb|].
  intros E.
  assert (H : 0x1.894e5e0a72f06p+6%float = 0x1.894e5e0a72f05p+6%float)
    by (exact (eq_trans (eq_sym Ea) (eq_trans E Eb))).
  apply (f_equal (PrimFloat.ltb 0x1.894e5e0a72f05p+6%float)) in H.
  vm_compute in H. discriminate.
Qed.

(** In IEEE doubles, where the order of the additions matters: the final
    capital is the initial capital with the profits of the returned trades
    added one by one, in order. *)
Remark backtest_ledger_closed_binary64 (candles : list Binary64.CandleData)
    (initialCapital leverage riskPerTrade : float) :
  (50 <= length candles)%nat ->
  let r := Binary64.backtestStrategy candles initialCapital leverage
             riskPerTrade in
  Binary64.finalCapital r = booked initialCapital (Binary64.trades r)
  /\ Binary64.netProfit r
     = PrimFloat.sub (Binary64.finalCapital r) initialCapital.
Proof.
  intros Hlen. unfold Binary64.backtestStrategy.
  destruct (Nat.ltb_spec (length candles) 50); [lia|].
  cbn. split; [|reflexivity].
  apply simulate_booked.
Qed.

Lemma backtest_ledger_closed_binary64_witness :
  let r := Binary64.backtestStrategy
             (Binary64.flat_series Binary64.tenth 60) 1000 10 2 in
  Binary64.finalCapital r = booked 1000 (Binary64.trades r)
  /\ Binary64.netProfit r = PrimFloat.sub (Binary64.finalCapital r) 1000.
Proof.
  apply (backtest_ledger_closed_binary64
           (Binary64.flat_series Binary64.tenth 60) 1000 10 2).
  vm_compute. lia.
Defined.


(** Within its range the interpolation stays within integer bounds: for a
    fused confidence in [0, 1] and integer bounds [lo <= hi], the suggested
    leverage lies between them. *)
Remark suggest_leverage_bounded (signal : Signal) (finalConfidence : Qc)
    (lo hi : Z) :
  (lo <= hi)%Z -> 0 <= finalConfidence -> finalConfidence <= 1 ->
  (lo <= Engine.suggest_leverage signal finalConfidence (Js.of_Z lo)
           (Js.of_Z hi) <= hi)%Z.
Proof.
  intros Hb H0 H1. unfold Engine.suggest_leverage, Js.round.
  remember (Engine.absConfidence signal finalConfidence) as a eqn:Ea.
  assert (Ha : 0 <= a /\ a <= 1).
  { rewrite Ea. unfold Engine.absConfidence.
    destruct (Signal_eqb signal BUY).
    - auto.
    - split; to_Q; lra. }
  destruct Ha as [Ha0 Ha1].
  assert (Hq : (inject_Z lo <= inject_Z hi)%Q) by (rewrite <- Zle_Qle; exact Hb).
  set (x := Js.of_Z lo + (Js.of_Z hi - Js.of_Z lo) * a).
  assert (Hx : (inject_Z lo <= x + '0.5)%Q /\ (x + '0.5 < inject_Z hi + 1)%Q).
  { subst x. clear Ea. to_Q.
    clear - Hq Ha0 Ha1.
    assert (P1 : (0 <= (inject_Z hi - inject_Z lo) * a)%Q)
      by (apply Qmult_le_0_compat; lra).
    assert (P2 : (0 <= (inject_Z hi - inject_Z lo) * (1 - a))%Q)
      by (apply Qmult_le_0_compat; lra).
    split; lra. }
  destruct Hx as [Hx1 Hx2]. split.
  - pose proof (Qfloor_resp_le _ _ Hx1) as H. now rewrite Qfloor_Z in H.
  - assert (H : (inject_Z (Qfloor (x + '0.5)) < inject_Z (hi + 1))%Q).
    { rewrite inject_Z_plus. eapply Qle_lt_trans; [apply Qfloor_le|exact Hx2]. }
    rewrite <- Zlt_Qlt in H. lia.
Qed.

Lemma suggest_leverage_bounded_witness :
  (10 <= Engine.suggest_leverage SELL '0.2 (Js.of_Z 10) (Js.of_Z 50) <= 50)%Z.
Proof.
  apply (suggest_leverage_bounded SELL '0.2 10 50).
  - lia.
  - vm_compute. discriminate.
  - vm_compute. discriminate.
Defined.


(** * Further properties of the code *)

Lemma Forall_of_forallb {A : Type} (p : A -> bool) (P : A -> Prop) :
  (forall x, p x = true -> P x) ->
  forall l, forallb p l = true -> Forall P l.
Proof.
  intros H l Hl. apply Forall_forall. intros x Hx.
  rewrite forallb_forall in Hl. auto.
Qed.

(** ** The RSI series *)

Lemma length_changes (l : list Qc) : length (TA.changes l) = (length l - 1)%nat.
Proof.
  induction l as [|a [|b r] IH]; simpl in *; try reflexivity.
  rewrite IH. lia.
Qed.

Lemma length_rsi_smooth (p g l : Qc) (gl : list (Qc * Qc)) :
  length (TA.rsi_smooth p g l gl) = length gl.
Proof.
  revert g l. induction gl as [|[a b] r IH]; intros g l; simpl; [reflexivity|].
  now rewrite IH.
Qed.

Lemma eqb_neq_pos (l : Qc) : 0 <= l -> Js.eqb l 0 = false -> 0 < l.
Proof.
  intros Hl E. apply Qcle_lt_or_eq in Hl. destruct Hl as [H|H]; trivial.
  rewrite <- H in E. rewrite eqb_refl in E. discriminate.
Qed.

Lemma div_nonneg (a b : Qc) : 0 <= a -> 0 < b -> 0 <= a / b.
Proof.
  intros Ha Hb. to_Q. apply Qmult_le_0_compat; [exact Ha|].
  apply Qinv_le_0_compat. lra.
Qed.

Lemma rsi_value_range (g l : Qc) :
  0 <= g -> 0 <= l -> 0 <= TA.rsi_value g l /\ TA.rsi_value g l <= '100.
Proof.
  intros Hg Hl. unfold TA.rsi_value.
  destruct (Js.eqb l 0) eqn:E.
  - split; unfold Qcle; vm_compute; discriminate.
  - pose proof (div_nonneg g l Hg (eqb_neq_pos l Hl E)) as Hr.
    set (r := g / l) in *. clearbody r. clear - Hr.
    to_Q.
    assert (Hy : (0 < / (1 + r))%Q) by (apply Qinv_lt_0_compat; lra).
    assert (Hm : ((1 + r) * / (1 + r) == 1)%Q) by (apply Qmult_inv_r; lra).
    set (y := (/ (1 + r))%Q) in *. clearbody y.
    split; nra.
Qed.

Lemma sum_nonneg (l : list Qc) : Forall (fun x => 0 <= x) l -> 0 <= Js.sum l.
Proof.
  induction 1 as [|x l Hx _ IH].
  - unfold Qcle. vm_compute. discriminate.
  - rewrite sum_cons. to_Q. lra.
Qed.

Lemma of_nat_positive (n : nat) : (0 < n)%nat -> 0 < Js.of_nat n.
Proof.
  intros H. to_Q. change 0%Q with (inject_Z 0). rewrite <- Zlt_Qlt. lia.
Qed.

Lemma of_nat_ge_1 (n : nat) : (1 <= n)%nat -> 1 <= Js.of_nat n.
Proof.
  intros H. to_Q. change 1%Q with (inject_Z 1). rewrite <- Zle_Qle. lia.
Qed.

Lemma gains_nonneg (l : list Qc) :
  Forall (fun x => 0 <= x)
    (map (fun change => if Js.gtb change 0 then change else 0) l).
Proof.
  apply Forall_map, Forall_forall. intros x _.
  destruct (Js.gtb x 0) eqn:E.
  - apply ltb_lt in E. now apply Qclt_le_weak.
  - apply Qcle_refl.
Qed.

Lemma abs_nonneg (x : Qc) : 0 <= Js.abs x.
Proof. to_Q. apply Qabs_nonneg. Qed.

Lemma losses_nonneg (l : list Qc) :
  Forall (fun x => 0 <= x)
    (map (fun change => if Js.ltb change 0 then Js.abs change else 0) l).
Proof.
  apply Forall_map, Forall_forall. intros x _.
  destruct (Js.ltb x 0).
  - apply abs_nonneg.
  - apply Qcle_refl.
Qed.

Lemma smooth_nonneg (p avg x : Qc) :
  1 <= p -> 0 <= avg -> 0 <= x -> 0 <= (avg * (p - 1) + x) / p.
Proof.
  intros Hp Ha Hx. apply div_nonneg.
  - to_Q. assert (0 <= avg * (p - 1))%Q by (apply Qmult_le_0_compat; lra). lra.
  - to_Q. lra.
Qed.

Lemma rsi_smooth_range (p g l : Qc) (gl : list (Qc * Qc)) :
  1 <= p -> 0 <= g -> 0 <= l ->
  Forall (fun x => 0 <= fst x /\ 0 <= snd x) gl ->
  Forall (fun r => 0 <= r /\ r <= '100) (TA.rsi_smooth p g l gl).
Proof.
  intros Hp Hg Hl H. revert g l Hg Hl.
  induction H as [|[a b] r [Ha Hb] _ IH]; intros g l Hg Hl; simpl.
  - constructor.
  - simpl in Ha, Hb. constructor.
    + apply rsi_value_range; now apply smooth_nonneg.
    + apply IH; now apply smooth_nonneg.
Qed.

Lemma Forall_combine (P Q : Qc -> Prop) (l r : list Qc) :
  Forall P l -> Forall Q r ->
  Forall (fun x => P (fst x) /\ Q (snd x)) (combine l r).
Proof.
  intros Hl. revert r. induction Hl as [|x l Hx _ IH]; intros r Hr; simpl.
  - constructor.
  - destruct Hr as [|y r Hy Hr]; constructor; auto.
Qed.

(** The computed part of the RSI series. *)
Lemma rsi_computed (candles : list CandleData) (period : nat) :
  (1 <= period)%nat -> (period + 1 <= length candles)%nat ->
  exists values,
    TA.calculateRSI candles period = repeat None period ++ map Some values
    /\ length values = (length candles - period)%nat
    /\ Forall (fun r => 0 <= r /\ r <= '100) values.
Proof.
  intros Hp Hn. unfold TA.calculateRSI.
  destruct (Nat.ltb_spec (length candles) (period + 1)) as [H|_]; [lia|].
  set (ch := TA.changes (map close candles)).
  set (gains := map (fun change => if Js.gtb change 0 then change else 0) ch).
  set (losses := map (fun change => if Js.ltb change 0 then Js.abs change else 0) ch).
  set (p := Js.of_nat period).
  set (avgGain := Js.sum (Js.slice gains 0 period) / p).
  set (avgLoss := Js.sum (Js.slice losses 0 period) / p).
  set (rest := TA.rsi_smooth p avgGain avgLoss
                 (combine (skipn period gains) (skipn period losses))).
  assert (Hch : length ch = (length candles - 1)%nat).
  { unfold ch. now rewrite length_changes, length_map. }
  assert (Hp1 : 1 <= p) by (apply of_nat_ge_1; exact Hp).
  assert (Hp0 : 0 < p) by (apply of_nat_positive; lia).
  assert (Hg : 0 <= avgGain).
  { apply div_nonneg; trivial. apply sum_nonneg. unfold Js.slice.
    apply Forall_firstn, Forall_skipn, gains_nonneg. }
  assert (Hl : 0 <= avgLoss).
  { apply div_nonneg; trivial. apply sum_nonneg. unfold Js.slice.
    apply Forall_firstn, Forall_skipn, losses_nonneg. }
  exists (TA.rsi_value avgGain avgLoss :: rest). split; [reflexivity|]. split.
  - unfold rest. cbn [length].
    rewrite length_rsi_smooth, length_combine, !length_skipn.
    unfold gains, losses. rewrite !length_map, Hch. lia.
  - constructor.
    + now apply rsi_value_range.
    + apply rsi_smooth_range; trivial.
      apply Forall_combine; apply Forall_skipn;
        [apply gains_nonneg | apply losses_nonneg].
Qed.

(** [calculateRSI] returns one entry per candle: [period] undefined
    entries, then numbers between 0 and 100. *)
Theorem rsi_padded_and_in_range (candles : list CandleData) (period : nat) :
  (1 <= period)%nat -> (period + 1 <= length candles)%nat ->
  let rsi := TA.calculateRSI candles period in
  length rsi = length candles
  /\ (forall i, (i < period)%nat -> nth_error rsi i = Some None)
  /\ (forall i, (period <= i < length candles)%nat ->
        exists r, nth_error rsi i = Some (Some r) /\ 0 <= r /\ r <= '100).
Proof.
  intros Hp Hn. cbv zeta.
  destruct (rsi_computed candles period Hp Hn) as (values & -> & Hlen & Hr).
  split; [|split].
  - rewrite length_app, repeat_length, length_map, Hlen. lia.
  - intros i Hi. rewrite nth_error_app1 by (rewrite repeat_length; lia).
    apply nth_error_repeat. exact Hi.
  - intros i Hi. rewrite nth_error_app2 by (rewrite repeat_length; lia).
    rewrite repeat_length, nth_error_map.
    destruct (nth_error values (i - period)) as [r|] eqn:E.
    + exists r. split; [reflexivity|].
      rewrite Forall_forall in Hr. apply Hr.
      eapply nth_error_In; eassumption.
    + apply nth_error_None in E. lia.
Qed.

Lemma rsi_padded_and_in_range_witness :
  let rsi := TA.calculateRSI (series dip) 14 in
  length rsi = length (series dip)
  /\ (forall i, (i < 14)%nat -> nth_error rsi i = Some None)
  /\ (forall i, (14 <= i < length (series dip))%nat ->
        exists r, nth_error rsi i = Some (Some r) /\ 0 <= r /\ r <= '100).
Proof.
  apply (rsi_padded_and_in_range (series dip) 14).
  - lia.
  - vm_compute. lia.
Defined.

(** ** The EMA series *)

Lemma length_ema_loop_binary64 (m prev : float) (prices : list float) :
  length (Binary64.ema_loop m prev prices) = length prices.
Proof.
  revert prev. induction prices as [|x l IH]; intros prev; simpl;
    [reflexivity|]. now rewrite IH.
Qed.

(** [calculateEMA] pads and, on a short input, lengthens: for a period of
    at least 1 it returns as many entries as there are prices, but never
    fewer than [period]; the first [period - 1] are undefined and every
    later one holds a number.  The entry at [period - 1] is there even when
    the prices are fewer than [period]. *)
Theorem ema_padded (prices : list float) (period : nat) :
  (1 <= period)%nat ->
  let ema := Binary64.calculateEMA prices period in
  length ema = Nat.max (length prices) period
  /\ (forall i, (i < period - 1)%nat -> nth_error ema i = Some None)
  /\ (forall i, (period - 1 <= i < length ema)%nat ->
        exists e, nth_error ema i = Some (Some e)).
Proof.
  intros Hp. unfold Binary64.calculateEMA.
  set (sma := PrimFloat.div _ _).
  set (rest := Binary64.ema_loop _ sma (skipn period prices)).
  assert (Hrest : length rest = (length prices - period)%nat).
  { unfold rest. now rewrite length_ema_loop_binary64, length_skipn. }
  assert (Hlen : length (repeat (@None float) (period - 1)
                           ++ Some sma :: map Some rest)
                 = Nat.max (length prices) period).
  { rewrite length_app, repeat_length. simpl. rewrite length_map, Hrest. lia. }
  cbv zeta. split; [exact Hlen|split].
  - intros i Hi. rewrite nth_error_app1 by (rewrite repeat_length; lia).
    apply nth_error_repeat. exact Hi.
  - rewrite Hlen. intros i Hi.
    rewrite nth_error_app2 by (rewrite repeat_length; lia).
    rewrite repeat_length.
    change (Some sma :: map Some rest) with (map Some (sma :: rest)).
    rewrite nth_error_map.
    destruct (nth_error (sma :: rest) (i - (period - 1))) as [e|] eqn:E.
    + exists e. reflexivity.
    + apply nth_error_None in E. simpl in E. rewrite Hrest in E. lia.
Qed.

Lemma ema_padded_witness :
  let ema := Binary64.calculateEMA [100; 101; 102]%float 8 in
  length ema = Nat.max 3 8
  /\ (forall i, (i < 8 - 1)%nat -> nth_error ema i = Some None)
  /\ (forall i, (8 - 1 <= i < length ema)%nat ->
        exists e, nth_error ema i = Some (Some e)).
Proof.
  apply (ema_padded [100; 101; 102]%float 8). lia.
Defined.

(** ** The pattern scan *)

Lemma Forall_insert_by {A : Type} (P : A -> Prop) (cmp : A -> A -> Qc)
    (x : A) (l : list A) :
  P x -> Forall P l -> Forall P (Js.insert_by cmp x l).
Proof.
  intros Hx. induction 1 as [|y l Hy Hl IH]; simpl.
  - now repeat constructor.
  - destruct (Js.ltb (cmp x y) 0); repeat constructor; trivial.
Qed.

Lemma Forall_sort {A : Type} (P : A -> Prop) (cmp : A -> A -> Qc)
    (l : list A) :
  Forall P l -> Forall P (Js.sort cmp l).
Proof.
  unfold Js.sort. intros H.
  assert (G : forall acc, Forall P acc ->
            Forall P (fold_left (fun acc x => Js.insert_by cmp x acc) l acc)).
  { induction H as [|x l Hx _ IH]; intros acc Hacc; simpl; trivial.
    apply IH. now apply Forall_insert_by. }
  apply G. constructor.
Qed.

Lemma length_insert_by {A : Type} (cmp : A -> A -> Qc) (x : A) (l : list A) :
  length (Js.insert_by cmp x l) = S (length l).
Proof.
  induction l as [|y l IH]; simpl; trivial.
  destruct (Js.ltb (cmp x y) 0); simpl; now rewrite ?IH.
Qed.

Lemma length_sort {A : Type} (cmp : A -> A -> Qc) (l : list A) :
  length (Js.sort cmp l) = length l.
Proof.
  unfold Js.sort.
  assert (G : forall acc,
            length (fold_left (fun acc x => Js.insert_by cmp x acc) l acc)
            = (length l + length acc)%nat).
  { induction l as [|x l IH]; intros acc; simpl; trivial.
    rewrite IH, length_insert_by. lia. }
  rewrite G. simpl. lia.
Qed.

Lemma min_le_l (a b : Qc) : Js.min a b <= a.
Proof.
  unfold Js.min. destruct (Js.ltb b a) eqn:E.
  - apply ltb_lt in E. now apply Qclt_le_weak.
  - apply Qcle_refl.
Qed.

Lemma min_le_r (a b : Qc) : Js.min a b <= b.
Proof.
  unfold Js.min. destruct (Js.ltb b a) eqn:E.
  - apply Qcle_refl.
  - now apply ltb_ge in E.
Qed.

Lemma max_ge_l (a b : Qc) : a <= Js.max a b.
Proof.
  unfold Js.max. destruct (Js.ltb a b) eqn:E.
  - apply ltb_lt in E. now apply Qclt_le_weak.
  - apply Qcle_refl.
Qed.

Lemma max_ge_r (a b : Qc) : b <= Js.max a b.
Proof.
  unfold Js.max. destruct (Js.ltb a b) eqn:E.
  - apply Qcle_refl.
  - now apply ltb_ge in E.
Qed.

Lemma min_glb (a b c : Qc) : c <= a -> c <= b -> c <= Js.min a b.
Proof. intros Ha Hb. unfold Js.min. now destruct (Js.ltb b a). Qed.


Lemma significance_range (p : Candlestick.CandlestickPattern)
    (candles : list CandleData) (index : nat) (prevTrend : Candlestick.Trend) :
  0 <= Candlestick.calculateSignificance p candles index prevTrend
  /\ Candlestick.calculateSignificance p candles index prevTrend <= '100.
Proof.
  unfold Candlestick.calculateSignificance. split.
  - apply min_glb; [unfold Qcle; vm_compute; discriminate | apply max_ge_l].
  - apply min_le_l.
Qed.

Lemma patterns_at_well_formed (candles : list CandleData)
    (prevTrend : Candlestick.Trend) (i : nat) (current previous : CandleData) :
  (i < length candles)%nat ->
  Forall (well_formed_pattern (length candles))
    (Candlestick.patterns_at candles prevTrend i current previous).
Proof.
  intros Hi. unfold Candlestick.patterns_at.
  assert (W : forall p t idx,
            t = Candlestick.getPatternTrend p ->
            Forall (fun i => (i < length candles)%nat) idx ->
            well_formed_pattern (length candles)
              (Candlestick.mkPattern p
                 (Candlestick.calculateSignificance p candles i prevTrend)
                 t idx)).
  { intros p t idx Ht Hidx. unfold well_formed_pattern. cbn.
    repeat split; trivial; apply significance_range. }
  repeat (apply Forall_app; split);
    match goal with
    | |- Forall _ (if ?b then _ else _) => destruct b
    end;
    try apply Forall_nil;
    (apply Forall_cons; [|apply Forall_nil]);
    (apply W; [reflexivity | repeat constructor; lia]).
Qed.

(** [analyzeCandlestickPatterns] returns its detections ordered by falling
    significance; each carries a significance between 0 and 100, the trend
    of its pattern, and indices of candles of the input. *)
Theorem patterns_sorted_by_significance (candles : list CandleData) :
  let found := Candlestick.analyzeCandlestickPatterns candles in
  descending (map Candlestick.significance found)
  /\ Forall (well_formed_pattern (length candles)) found.
Proof.
  cbv zeta. unfold Candlestick.analyzeCandlestickPatterns.
  destruct (length candles <? 3)%nat.
  - split; constructor.
  - split.
    + apply Sorted_StronglySorted.
      { intros a b c Hab Hbc. exact (Qcle_trans _ _ _ Hbc Hab). }
      apply Sorted_map, sort_sorted; intros x y.
      * rewrite diff_negative. intros H. unfold Qcle, Qclt in *. lra.
      * now rewrite diff_not_negative.
    + apply Forall_sort. apply Forall_flat_map, Forall_forall.
      intros i Hi. apply in_seq in Hi.
      destruct (nth_error candles i), (nth_error candles (i - 1));
        try constructor.
      apply patterns_at_well_formed. lia.
Qed.





(** ** The fusion loop *)

Lemma round_between (x : Qc) (lo hi : Z) :
  Js.of_Z lo <= x -> x <= Js.of_Z hi -> (lo <= Js.round x <= hi)%Z.
Proof.
  intros H1 H2. unfold Js.round.
  assert (Hx : (inject_Z lo <= x + '0.5)%Q /\ (x + '0.5 < inject_Z hi + 1)%Q).
  { to_Q. split; lra. }
  destruct Hx as [Hx1 Hx2]. split.
  - pose proof (Qfloor_resp_le _ _ Hx1) as H. now rewrite Qfloor_Z in H.
  - assert (H : (inject_Z (Qfloor (x + '0.5)) < inject_Z (hi + 1))%Q).
    { rewrite inject_Z_plus. eapply Qle_lt_trans; [apply Qfloor_le|exact Hx2]. }
    rewrite <- Zlt_Qlt in H. lia.
Qed.

Lemma confidence_set_patterns (a : Analysis.MultiTimeframeAnalysis)
    (ps : list Candlestick.PatternResult) :
  Analysis.confidence (Analysis.set_candlestickPatterns a ps)
  = Analysis.confidence a.
Proof. reflexivity. Qed.

Section Fusion.

Variable weights : string -> Qc.
Hypothesis weights_positive : forall tf, 0 < weights tf.

(** The loop keeps the keys, in order. *)
Lemma fusion_step_keys (st : Engine.Fusion)
    (entry : string * Analysis.MultiTimeframeAnalysis) :
  map fst (Engine.entries (Engine.fusion_step weights st entry))
  = map fst (Engine.entries st) ++ [fst entry].
Proof.
  destruct entry as [tf a]. unfold Engine.fusion_step.
  destruct (Analysis.candleData a) as [cd|].
  - destruct (Candlestick.analyzeCandlestickPatterns cd).
    + cbn. now rewrite map_app.
    + cbv beta iota.
      destruct (Candlestick.incorporateCandlestickAnalysis _ _ _).
      cbn. now rewrite map_app.
  - cbn. now rewrite map_app.
Qed.

Lemma fold_fusion_keys (analyses : Analyses) (st : Engine.Fusion) :
  map fst (Engine.entries (fold_left (Engine.fusion_step weights) analyses st))
  = map fst (Engine.entries st) ++ map fst analyses.
Proof.
  revert st. induction analyses as [|e l IH]; intros st; simpl.
  - now rewrite app_nil_r.
  - rewrite IH, fusion_step_keys, <- app_assoc. reflexivity.
Qed.

Lemma fuse_keys (analyses : Analyses) :
  map fst (Engine.entries (Engine.fuse weights analyses)) = map fst analyses.
Proof. unfold Engine.fuse. now rewrite fold_fusion_keys. Qed.

(** Analyses of confidence exactly 0.5 never become dominant. *)
Lemma fold_fusion_no_dominant (analyses : Analyses) (st : Engine.Fusion) :
  Forall (fun e => Analysis.confidence (snd e) = '0.5) analyses ->
  Engine.dominantTimeframe st = ""%string ->
  Engine.highestConfidenceValue st = 0 ->
  Engine.dominantTimeframe
    (fold_left (Engine.fusion_step weights) analyses st) = ""%string.
Proof.
  intros H. revert st. induction H as [|[tf a] l Ha _ IH]; intros st Hd Hh;
    simpl; trivial.
  simpl in Ha. apply IH.
  - unfold Engine.fusion_step. rewrite Ha, Hh.
    replace (Js.gtb (Js.abs ('0.5 - '0.5)) 0) with false by reflexivity.
    destruct (Analysis.candleData a) as [cd|]; [|exact Hd].
    destruct (Candlestick.analyzeCandlestickPatterns cd); [exact Hd|].
    exact Hd.
  - unfold Engine.fusion_step. rewrite Ha, Hh.
    replace (Js.gtb (Js.abs ('0.5 - '0.5)) 0) with false by reflexivity.
    destruct (Analysis.candleData a) as [cd|]; [|reflexivity].
    destruct (Candlestick.analyzeCandlestickPatterns cd); reflexivity.
Qed.

Lemma lookup_absent (analyses : Analyses) (key : string) :
  ~ In key (map fst analyses) -> lookup analyses key = None.
Proof.
  induction analyses as [|[k a] l IH]; simpl; trivial.
  intros H. destruct (String.eqb_spec k key) as [->|_].
  - exfalso. apply H. now left.
  - apply IH. intros Hin. apply H. now right.
Qed.

Lemma fuse_no_dominant (analyses : Analyses) :
  Forall (fun e => Analysis.confidence (snd e) = '0.5) analyses ->
  ~ In ""%string (map fst analyses) ->
  lookup (Engine.entries (Engine.fuse weights analyses))
    (Engine.dominantTimeframe (Engine.fuse weights analyses)) = None.
Proof.
  intros H Hk. unfold Engine.fuse at 2.
  rewrite fold_fusion_no_dominant; trivial.
  apply lookup_absent. now rewrite fuse_keys.
Qed.




End Fusion.

(** ** The decision *)

Lemma weightsA_positive (tf : string) : 0 < EngineA.timeframeWeights tf.
Proof.
  unfold EngineA.timeframeWeights.
  repeat match goal with
         | |- context [String.eqb ?a ?b] => destruct (String.eqb a b)
         end; reflexivity.
Qed.

Lemma weightsB_positive (tf : string) : 0 < EngineB.timeframeWeights tf.
Proof.
  unfold EngineB.timeframeWeights.
  repeat match goal with
         | |- context [String.eqb ?a ?b] => destruct (String.eqb a b)
         end; reflexivity.
Qed.

Lemma lookup_present (analyses : Analyses) (key : string) :
  In key (map fst analyses) -> exists a, lookup analyses key = Some a.
Proof.
  induction analyses as [|[k a] l IH]; simpl; [contradiction|].
  intros H. destruct (String.eqb_spec k key) as [->|Hne].
  - now exists a.
  - destruct H as [H|H]; [contradiction|]. now apply IH.
Qed.

Lemma abs_pos (x : Qc) : x <> 0 -> 0 < Js.abs x.
Proof.
  intros H. assert (Hx : ~ (x == 0)%Q).
  { intros E. apply H. now apply Qc_is_canon. }
  to_Q. destruct (Qlt_le_dec 0 x) as [G|G].
  - rewrite Qabs_pos; lra.
  - rewrite Qabs_neg; trivial. destruct (Qle_lt_or_eq _ _ G); lra.
Qed.

Section Dominant.

Variable weights : string -> Qc.

Lemma fusion_step_dominated (keys : list string) (seen : bool)
    (st : Engine.Fusion) (entry : string * Analysis.MultiTimeframeAnalysis) :
  dominated keys seen st ->
  dominated (keys ++ [fst entry])
    (seen || negb (Js.eqb (Analysis.confidence (snd entry)) '0.5))
    (Engine.fusion_step weights st entry).
Proof.
  destruct entry as [tf a]. cbn [fst snd]. intros (H0 & H1 & H2).
  assert (G : dominated (keys ++ [tf])
                (seen || negb (Js.eqb (Analysis.confidence a) '0.5))
                (Engine.mkFusion 0 0
                   (snd (if Js.gtb (Js.abs (Analysis.confidence a - '0.5))
                              (Engine.highestConfidenceValue st)
                         then (Js.abs (Analysis.confidence a - '0.5), tf)
                         else (Engine.highestConfidenceValue st,
                               Engine.dominantTimeframe st)))
                   (fst (if Js.gtb (Js.abs (Analysis.confidence a - '0.5))
                              (Engine.highestConfidenceValue st)
                         then (Js.abs (Analysis.confidence a - '0.5), tf)
                         else (Engine.highestConfidenceValue st,
                               Engine.dominantTimeframe st)))
                   [])).
  { unfold dominated. cbn [Engine.highestConfidenceValue Engine.dominantTimeframe].
    destruct (Js.gtb _ _) eqn:E; cbn [fst snd].
    - apply ltb_lt in E. repeat split.
      + apply abs_nonneg.
      + intros _. apply in_or_app. right. now left.
      + intros _. eapply Qcle_lt_trans; eassumption.
    - apply ltb_ge in E. repeat split; trivial.
      + intros P. apply in_or_app. left. auto.
      + intros S. apply orb_true_iff in S. destruct S as [S|S]; auto.
        apply negb_true_iff in S.
        eapply Qclt_le_trans; [|exact E]. apply abs_pos.
        intros C. assert (C' : Analysis.confidence a = '0.5).
        { replace (Analysis.confidence a)
            with ((Analysis.confidence a - '0.5) + '0.5) by ring.
          rewrite C. ring. }
        rewrite C', eqb_refl in S. discriminate. }
  unfold Engine.fusion_step.
  destruct (Analysis.candleData a) as [cd|]; [|exact G].
  destruct (Candlestick.analyzeCandlestickPatterns cd); [exact G|].
  cbv beta iota.
  destruct (Candlestick.incorporateCandlestickAnalysis _ _ _). exact G.
Qed.

Lemma fold_fusion_dominated (analyses : Analyses) (keys : list string)
    (seen : bool) (st : Engine.Fusion) :
  dominated keys seen st ->
  dominated (keys ++ map fst analyses)
    (seen || existsb (fun e => negb (Js.eqb (Analysis.confidence (snd e)) '0.5))
               analyses)
    (fold_left (Engine.fusion_step weights) analyses st).
Proof.
  revert keys seen st. induction analyses as [|e l IH]; intros keys seen st H.
  - simpl. now rewrite app_nil_r, orb_false_r.
  - cbn [fold_left map existsb]. rewrite orb_assoc.
    replace (keys ++ fst e :: map fst l) with ((keys ++ [fst e]) ++ map fst l)
      by (now rewrite <- app_assoc).
    apply IH. now apply fusion_step_dominated.
Qed.

Lemma fuse_dominant_found (analyses : Analyses) :
  existsb (fun e => negb (Js.eqb (Analysis.confidence (snd e)) '0.5)) analyses
  = true ->
  exists a,
    lookup (Engine.entries (Engine.fuse weights analyses))
      (Engine.dominantTimeframe (Engine.fuse weights analyses)) = Some a.
Proof.
  intros H. apply lookup_present. rewrite fuse_keys.
  assert (D : dominated [] false Engine.fusion_init).
  { unfold dominated. cbn.
    split; [apply Qcle_refl | split; intros C; discriminate C]. }
  apply (fold_fusion_dominated analyses) in D. cbn [app orb] in D.
  destruct D as (_ & D1 & D2). apply D1, D2, H.
Qed.


End Dominant.

Lemma all_neutral_iff (analyses : Analyses) :
  existsb (fun e => negb (Js.eqb (Analysis.confidence (snd e)) '0.5)) analyses
  = false
  <-> Forall (fun e => Analysis.confidence (snd e) = '0.5) analyses.
Proof.
  induction analyses as [|e l IH]; simpl.
  - split; [constructor | reflexivity].
  - rewrite orb_false_iff, negb_false_iff, eqb_eq, IH. split.
    + intros [H1 H2]. now constructor.
    + intros H. inversion H. auto.
Qed.

(** A decision is made unless every analysis has confidence exactly 0.5:
    then no timeframe becomes dominant and reading the dominant analysis
    raises. *)
Theorem decision_raises_iff_all_neutral (sqrt : Qc -> Qc) (analyses : Analyses)
    (currentPrice : Qc) (minLeverage maxLeverage : option Qc) (t1 t2 : Z) :
  ~ In ""%string (map fst analyses) ->
  (EngineA.generateTradingDecision sqrt analyses currentPrice minLeverage
     maxLeverage t1 t2 = None
   <-> Forall (fun e => Analysis.confidence (snd e) = '0.5) analyses)
  /\ (EngineB.generateTradingDecision analyses currentPrice minLeverage
        maxLeverage t2 = None
      <-> Forall (fun e => Analysis.confidence (snd e) = '0.5) analyses).
Proof.
  intros Hk. split; split.
  - intros H. apply all_neutral_iff.
    destruct (existsb _ analyses) eqn:E; trivial.
    destruct (fuse_dominant_found EngineA.timeframeWeights analyses E)
      as [a Ha].
    unfold EngineA.generateTradingDecision in H.
    destruct (EngineA.choose_signal _ _) in H. rewrite Ha in H. discriminate.
  - intros H. unfold EngineA.generateTradingDecision.
    destruct (EngineA.choose_signal _ _).
    now rewrite fuse_no_dominant.
  - intros H. apply all_neutral_iff.
    destruct (existsb _ analyses) eqn:E; trivial.
    destruct (fuse_dominant_found EngineB.timeframeWeights analyses E)
      as [a Ha].
    unfold EngineB.generateTradingDecision in H.
    destruct (EngineB.choose_signal _ _) in H. rewrite Ha in H. discriminate.
  - intros H. unfold EngineB.generateTradingDecision.
    destruct (EngineB.choose_signal _ _).
    now rewrite fuse_no_dominant.
Qed.

Lemma decision_raises_iff_all_neutral_witness :
  (EngineA.generateTradingDecision (fun x => x)
     [("1h"%string, plain_analysis "1h" '0.5 (Some reversal));
      ("4h"%string, plain_analysis "4h" '0.5 None)] '100 None None 0 0 = None
   <-> Forall (fun e => Analysis.confidence (snd e) = '0.5)
         [("1h"%string, plain_analysis "1h" '0.5 (Some reversal));
          ("4h"%string, plain_analysis "4h" '0.5 None)])
  /\ (EngineB.generateTradingDecision
        [("1h"%string, plain_analysis "1h" '0.5 (Some reversal));
         ("4h"%string, plain_analysis "4h" '0.5 None)] '100 None None 0 = None
      <-> Forall (fun e => Analysis.confidence (snd e) = '0.5)
            [("1h"%string, plain_analysis "1h" '0.5 (Some reversal));
             ("4h"%string, plain_analysis "4h" '0.5 None)]).
Proof.
  apply (decision_raises_iff_all_neutral (fun x => x)
           [("1h"%string, plain_analysis "1h" '0.5 (Some reversal));
            ("4h"%string, plain_analysis "4h" '0.5 None)] '100 None None 0 0).
  simpl. intros [H|[H|[]]]; discriminate H.
Defined.




Lemma off_neutral_found (analyses : Analyses) :
  Exists (fun e => Analysis.confidence (snd e) <> '0.5) analyses ->
  existsb (fun e => negb (Js.eqb (Analysis.confidence (snd e)) '0.5)) analyses
  = true.
Proof.
  intros H. destruct (existsb _ analyses) eqn:E; trivial.
  apply all_neutral_iff in E. apply Exists_exists in H.
  destruct H as [e [He Hc]]. rewrite Forall_forall in E.
  now contradiction Hc; apply E.
Qed.



Lemma chosen_A (analyses : Analyses) (fc : Qc) :
  match fst (EngineA.choose_signal analyses fc) with
  | BUY => '0.7 < fc
  | SELL => fc < '0.3
  | NEUTRAL => True
  end.
Proof.
  unfold EngineA.choose_signal.
  destruct (Js.gtb fc '0.75) eqn:E1.
  { apply ltb_lt in E1. cbn. to_Q. lra. }
  destruct (Js.ltb fc '0.25) eqn:E2.
  { apply ltb_lt in E2. cbn. to_Q. lra. }
  destruct (Js.gtb fc '0.7) eqn:E3.
  { apply ltb_lt in E3. destruct (_ || _); cbn; trivial. }
  destruct (Js.ltb fc '0.3) eqn:E4.
  { apply ltb_lt in E4. destruct (_ || _); cbn; trivial. }
  exact I.
Qed.

Lemma chosen_B (analyses : Analyses) (fc : Qc) :
  match fst (EngineB.choose_signal analyses fc) with
  | BUY => '0.7 < fc
  | SELL => fc < '0.3
  | NEUTRAL => True
  end.
Proof.
  unfold EngineB.choose_signal.
  destruct (Js.gtb fc '0.75) eqn:E1.
  { apply ltb_lt in E1. cbn. to_Q. lra. }
  destruct (Js.ltb fc '0.25) eqn:E2.
  { apply ltb_lt in E2. cbn. to_Q. lra. }
  destruct (Js.gtb fc '0.7) eqn:E3.
  { apply ltb_lt in E3.
    destruct (Engine.trend_is _ _ _), (Engine.emaStatus_is _ _ _); cbn; trivial.
    all: destruct (Js.ltb fc '0.3) eqn:E4; cbn; trivial.
    all: apply ltb_lt in E4;
      destruct (Engine.trend_is _ _ _), (Engine.emaStatus_is _ _ _); cbn;
      trivial. }
  destruct (Js.ltb fc '0.3) eqn:E4.
  { apply ltb_lt in E4. cbn [andb].
    destruct (Engine.trend_is _ _ _), (Engine.emaStatus_is _ _ _); cbn;
      trivial. }
  exact I.
Qed.

Lemma sides_of_signal (signal : Signal) (fc currentPrice : Qc)
    (d : Decision.AiTradingDecision) :
  0 < currentPrice ->
  match signal with
  | BUY => '0.7 < fc
  | SELL => fc < '0.3
  | NEUTRAL => True
  end ->
  Decision.signal d = signal ->
  Decision.confidence d = Engine.reported_confidence signal fc ->
  Decision.price d = currentPrice ->
  Decision.stopLossSuggestion d = Engine.stopLoss signal currentPrice ->
  Decision.takeProfitSuggestion d = Engine.takeProfit signal currentPrice ->
  sides_agree d.
Proof.
  intros Hp Hs E1 E2 E3 E4 E5. unfold sides_agree.
  rewrite E1, E2, E3, E4, E5. clear E1 E2 E3 E4 E5.
  destruct signal; cbn.
  - split; [exact Hs|]. clear Hs. to_Q. repeat split; lra.
  - to_Q. repeat split; lra.
  - repeat split.
Qed.

(** When one analysis is off 0.5, either copy of the engine returns a
    decision, and the decision takes sides consistently: a BUY and a SELL
    report a confidence above 0.7 and bracket a positive price with a stop
    on the losing side and a target on the winning side that lies further
    away than the stop, a NEUTRAL reports 0.5 and no level. *)
Theorem decision_sides_agree (sqrt : Qc -> Qc) (analyses : Analyses)
    (currentPrice : Qc) (minLeverage maxLeverage : option Qc) (t1 t2 : Z) :
  0 < currentPrice ->
  Exists (fun e => Analysis.confidence (snd e) <> '0.5) analyses ->
  (exists d,
      EngineA.generateTradingDecision sqrt analyses currentPrice minLeverage
        maxLeverage t1 t2 = Some d
      /\ sides_agree d)
  /\ (exists d,
         EngineB.generateTradingDecision analyses currentPrice minLeverage
           maxLeverage t2 = Some d
         /\ sides_agree d).
Proof.
  intros Hp Hoff. apply off_neutral_found in Hoff. split.
  - destruct (fuse_dominant_found EngineA.timeframeWeights analyses Hoff)
      as [a Ha].
    unfold EngineA.generateTradingDecision.
    pose proof (chosen_A
                  (Engine.entries (Engine.fuse EngineA.timeframeWeights analyses))
                  (Engine.finalConfidence
                     (Engine.fuse EngineA.timeframeWeights analyses))) as C.
    destruct (EngineA.choose_signal _ _) as [signal reasoning].
    cbn [fst] in C. rewrite Ha. eexists. split; [reflexivity|].
    eapply sides_of_signal; try reflexivity; eassumption.
  - destruct (fuse_dominant_found EngineB.timeframeWeights analyses Hoff)
      as [a Ha].
    unfold EngineB.generateTradingDecision.
    pose proof (chosen_B
                  (Engine.entries (Engine.fuse EngineB.timeframeWeights analyses))
                  (Engine.finalConfidence
                     (Engine.fuse EngineB.timeframeWeights analyses))) as C.
    destruct (EngineB.choose_signal _ _) as [signal reasoning].
    cbn [fst] in C. rewrite Ha. eexists. split; [reflexivity|].
    eapply sides_of_signal; try reflexivity; eassumption.
Qed.

Lemma decision_sides_agree_witness :
  (exists d,
      EngineA.generateTradingDecision (fun x => x) bearish_week '100 None None
        0 0 = Some d
      /\ sides_agree d)
  /\ (exists d,
         EngineB.generateTradingDecision bearish_week '100 None None 0 = Some d
         /\ sides_agree d).
Proof.
  apply (decision_sides_agree (fun x => x) bearish_week '100 None None 0 0).
  - reflexivity.
  - apply Exists_cons_hd. vm_compute. discriminate.
Defined.

(** ** The statistics of a backtest *)

Lemma winners_losers_partition (trades : list Trade.Trade) :
  (length (Backtest.winners trades) + length (Backtest.losers trades)
   = length trades)%nat.
Proof.
  unfold Backtest.winners, Backtest.losers.
  induction trades as [|t l IH]; simpl; trivial.
  replace (Js.gtb (Trade.profit t) 0) with (negb (Js.leb (Trade.profit t) 0))
    by reflexivity.
  destruct (Js.leb (Trade.profit t) 0); simpl; lia.
Qed.

Lemma exit_step_marks (initialCapital leverage : Qc) (t : Z)
    (currentRsi : Qc) (e8 e21 : option Qc) (currentPrice : Qc)
    (st : Backtest.Sim) :
  0 < initialCapital -> marks_kept initialCapital st ->
  marks_kept initialCapital
    (Backtest.exit_step leverage t currentRsi e8 e21 currentPrice st).
Proof.
  intros Hi [H1 H2]. unfold Backtest.exit_step.
  destruct (Backtest.inPosition st); [|now split].
  match goal with |- context [if ?b then _ else st] => destruct b end;
    [|now split].
  set (capital := Backtest.capital st + _).
  destruct (Js.gtb capital (Backtest.highWaterMark st)) eqn:E.
  - apply ltb_lt in E. split; cbn; trivial.
    eapply Qcle_trans; [exact H1|]. now apply Qclt_le_weak.
  - apply ltb_ge in E.
    destruct (Js.gtb _ (Backtest.maxDrawdown st)) eqn:E2; split; cbn; trivial.
    apply ltb_lt in E2. eapply Qcle_trans; [exact H2|].
    now apply Qclt_le_weak.
Qed.

Lemma entry_step_marks (initialCapital riskPerTrade : Qc) (t : Z)
    (currentRsi : Qc) (e8 e21 : option Qc) (currentPrice : Qc)
    (st : Backtest.Sim) :
  marks_kept initialCapital st ->
  marks_kept initialCapital
    (Backtest.entry_step riskPerTrade t currentRsi e8 e21 currentPrice st).
Proof.
  intros H. unfold Backtest.entry_step.
  destruct (negb (Backtest.inPosition st)); trivial.
  match goal with |- context [match ?s with Some _ => _ | None => st end] =>
    destruct s end; trivial.
Qed.

Lemma simulate_marks (candles : list CandleData)
    (initialCapital leverage riskPerTrade : Qc) :
  0 < initialCapital ->
  marks_kept initialCapital
    (Backtest.simulate candles initialCapital leverage riskPerTrade).
Proof.
  intros Hi. unfold Backtest.simulate.
  assert (G : forall l st, marks_kept initialCapital st ->
            marks_kept initialCapital
              (fold_left (Backtest.step candles leverage riskPerTrade) l st)).
  { induction l as [|i l IH]; intros st H; simpl; trivial.
    apply IH. unfold Backtest.step.
    now apply entry_step_marks, exit_step_marks. }
  specialize (G (seq 50 (length candles - 1 - 50))
                (Backtest.sim_init initialCapital)).
  unfold Backtest.close_open.
  destruct (Backtest.inPosition _); apply G; split; cbn;
    apply Qcle_refl.
Qed.

Lemma ratio_percent (k n : nat) :
  (k <= n)%nat -> (0 < n)%nat ->
  0 <= Js.of_nat k / Js.of_nat n * '100
  /\ Js.of_nat k / Js.of_nat n * '100 <= '100.
Proof.
  intros Hk Hn.
  assert (H0 : 0 <= Js.of_nat k).
  { to_Q. change 0%Q with (inject_Z 0). rewrite <- Zle_Qle. lia. }
  assert (H1 : Js.of_nat k <= Js.of_nat n).
  { to_Q. rewrite <- Zle_Qle. lia. }
  pose proof (of_nat_positive n Hn) as Hp.
  set (a := Js.of_nat k) in *. set (b := Js.of_nat n) in *.
  clearbody a b.
  assert (E : a = (a / b) * b).
  { field. intros ->. revert Hp. unfold Qclt. apply Qlt_irrefl. }
  set (m := a / b) in *. clearbody m. rewrite E in H0, H1. clear E.
  to_Q. assert (M : (0 <= m /\ m <= 1)%Q) by (split; nra).
  split; lra.
Qed.

Lemma nonzero_closes (candles : list CandleData) :
  forallb (fun c => negb (Js.eqb (close c) 0)) candles = true ->
  Forall (fun c => close c <> 0) candles.
Proof.
  intros H. apply Forall_forall. intros c Hc.
  rewrite forallb_forall in H. specialize (H c Hc).
  apply negb_true_iff in H. intros E. rewrite E, eqb_refl in H. discriminate.
Qed.

(** The statistics of a run agree with its ledger: every trade is counted
    once, as a win or as a loss; the win rate is a percentage; the
    drawdown is not negative.  The closes are taken not to be zero, so that
    no position size is a quotient by zero. *)
Theorem backtest_statistics_consistent (candles : list CandleData)
    (initialCapital leverage riskPerTrade : Qc) :
  0 < initialCapital ->
  Forall (fun c => close c <> 0) candles ->
  let r := Backtest.backtestStrategy candles initialCapital leverage
             riskPerTrade in
  Result.totalTrades r = length (Result.trades r)
  /\ (Result.winningTrades r + Result.losingTrades r = Result.totalTrades r)%nat
  /\ 0 <= Result.winRate r /\ Result.winRate r <= '100
  /\ 0 <= Result.maxDrawdown r.
Proof.
  intros Hi _. cbv zeta. unfold Backtest.backtestStrategy.
  destruct (length candles <? 50)%nat.
  - cbn. repeat split; unfold Qcle; vm_compute; discriminate.
  - cbn [Result.totalTrades Result.trades Result.winningTrades
         Result.losingTrades Result.winRate Result.maxDrawdown].
    set (st := Backtest.simulate candles initialCapital leverage riskPerTrade).
    pose proof (winners_losers_partition (Backtest.trades st)) as P.
    split; [reflexivity|]. split; [exact P|].
    destruct (simulate_marks candles initialCapital leverage riskPerTrade Hi)
      as [_ M]. fold st in M.
    destruct (Nat.ltb_spec 0 (length (Backtest.trades st))) as [L|L].
    + destruct (ratio_percent (length (Backtest.winners (Backtest.trades st)))
                  (length (Backtest.trades st))) as [R1 R2]; [lia|lia|].
      auto.
    + repeat split; trivial; unfold Qcle; vm_compute; discriminate.
Qed.

Lemma backtest_statistics_consistent_witness :
  let r := Backtest.backtestStrategy mixed_run '1000 '10 '2 in
  Result.totalTrades r = length (Result.trades r)
  /\ (Result.winningTrades r + Result.losingTrades r = Result.totalTrades r)%nat
  /\ 0 <= Result.winRate r /\ Result.winRate r <= '100
  /\ 0 <= Result.maxDrawdown r.
Proof.
  apply (backtest_statistics_consistent mixed_run '1000 '10 '2).
  - reflexivity.
  - apply nonzero_closes. vm_compute. reflexivity.
Defined.

(** ** The order of the trades *)

Lemma timeline_snoc (trades : list Trade.Trade) (t : Trade.Trade) :
  timeline (trades ++ [t])
  = timeline trades ++ [Trade.entryTime t; Trade.exitTime t].
Proof. unfold timeline. rewrite flat_map_app. simpl. reflexivity. Qed.

Lemma sorted_snoc (l : list Z) (b x : Z) :
  StronglySorted Z.le l -> Forall (fun y => (y <= b)%Z) l -> (b <= x)%Z ->
  StronglySorted Z.le (l ++ [x]).
Proof.
  intros Hs Hb Hx. induction Hs as [|y l Hs IH Hy].
  - repeat constructor.
  - inversion Hb as [|? ? Hyb Hlb]; subst. simpl. constructor.
    + now apply IH.
    + apply Forall_app. split; trivial. constructor; [lia|constructor].
Qed.

Lemma bounded_weaken (l : list Z) (b c : Z) :
  Forall (fun y => (y <= b)%Z) l -> (b <= c)%Z -> Forall (fun y => (y <= c)%Z) l.
Proof.
  intros H Hbc. eapply Forall_impl; [|exact H]. simpl. intros. lia.
Qed.

Lemma exit_step_cases (leverage : Qc) (t : Z)
    (currentRsi : Qc) (e8 e21 : option Qc) (currentPrice : Qc)
    (st : Backtest.Sim) :
  let st' := Backtest.exit_step leverage t currentRsi e8 e21 currentPrice st in
  st' = st
  \/ (Backtest.inPosition st = true
      /\ Backtest.inPosition st' = false
      /\ exists tr,
           Backtest.trades st' = Backtest.trades st ++ [tr]
           /\ Trade.entryTime tr = Backtest.entryTime st
           /\ Trade.exitTime tr = t).
Proof.
  cbv zeta. unfold Backtest.exit_step.
  destruct (Backtest.inPosition st) eqn:Ein; [|now left].
  match goal with |- context [if ?c then _ else st] => destruct c end;
    [|now left].
  right. split; trivial.
  destruct (Js.gtb _ (Backtest.highWaterMark st));
    [|destruct (Js.gtb _ (Backtest.maxDrawdown st))];
    (split; [reflexivity|]); eexists; cbn [Backtest.trades];
    (split; [reflexivity|]); split; reflexivity.
Qed.

Lemma exit_step_chronological (leverage : Qc) (b t : Z)
    (currentRsi : Qc) (e8 e21 : option Qc) (currentPrice : Qc)
    (st : Backtest.Sim) :
  (b < t)%Z -> chronological b st ->
  chronological t
    (Backtest.exit_step leverage t currentRsi e8 e21 currentPrice st).
Proof.
  intros Hbt (H1 & H2 & H3).
  assert (W : chronological t st).
  { split; [exact H1|]. split; [|exact H3].
    apply (bounded_weaken _ b); [exact H2| lia]. }
  destruct (exit_step_cases leverage t currentRsi e8 e21 currentPrice st)
    as [->|(Ein & Eout & tr & Etr & Een & Eex)]; [exact W|].
  unfold chronological. rewrite Eout, Etr, app_nil_r, timeline_snoc, Een, Eex.
  rewrite Ein in H1, H2.
  assert (He : (Backtest.entryTime st <= b)%Z).
  { apply Forall_app in H2. destruct H2 as [_ H2]. now inversion H2. }
  replace (timeline (Backtest.trades st) ++ [Backtest.entryTime st; t])
    with ((timeline (Backtest.trades st) ++ [Backtest.entryTime st]) ++ [t])
    by (now rewrite <- app_assoc).
  split; [|split].
  - apply (sorted_snoc _ b); trivial. lia.
  - apply Forall_app. split.
    + apply (bounded_weaken _ b); [exact H2| lia].
    + constructor; [lia|constructor].
  - apply Forall_app. split; trivial. constructor; [|constructor].
    rewrite Een, Eex. lia.
Qed.

Lemma entry_step_cases (riskPerTrade : Qc) (t : Z)
    (currentRsi : Qc) (e8 e21 : option Qc) (currentPrice : Qc)
    (st : Backtest.Sim) :
  let st' :=
    Backtest.entry_step riskPerTrade t currentRsi e8 e21 currentPrice st in
  st' = st
  \/ (Backtest.inPosition st = false
      /\ Backtest.inPosition st' = true
      /\ Backtest.trades st' = Backtest.trades st
      /\ Backtest.entryTime st' = t).
Proof.
  cbv zeta. unfold Backtest.entry_step.
  destruct (Backtest.inPosition st) eqn:Ein; cbn [negb]; [now left|].
  match goal with |- context [match ?s with Some _ => _ | None => st end] =>
    destruct s end; [|now left].
  right. repeat split.
Qed.

Lemma entry_step_chronological (riskPerTrade : Qc) (t : Z)
    (currentRsi : Qc) (e8 e21 : option Qc) (currentPrice : Qc)
    (st : Backtest.Sim) :
  chronological t st ->
  chronological t
    (Backtest.entry_step riskPerTrade t currentRsi e8 e21 currentPrice st).
Proof.
  intros W.
  destruct (entry_step_cases riskPerTrade t currentRsi e8 e21 currentPrice st)
    as [->|(Ein & Eout & Etr & Een)]; [exact W|].
  destruct W as (H1 & H2 & H3).
  unfold chronological. rewrite Eout, Etr, Een.
  rewrite Ein, app_nil_r in H1, H2. split; [|split]; trivial.
  - apply (sorted_snoc _ t); trivial. lia.
  - apply Forall_app. split; trivial. constructor; [lia|constructor].
Qed.

Lemma time_at_increasing (candles : list CandleData) (i j : nat) :
  StronglySorted Z.lt (map time candles) ->
  (i < j < length candles)%nat ->
  (Backtest.time_at candles i < Backtest.time_at candles j)%Z.
Proof.
  intros Hs. revert i j. induction candles as [|c l IH]; intros i j Hij.
  - simpl in Hij. lia.
  - simpl in Hs. inversion Hs as [|? ? Hl Hc]; subst.
    destruct j as [|j]; [lia|]. destruct i as [|i].
    + unfold Backtest.time_at. cbn [nth_error].
      destruct (nth_error l j) as [d|] eqn:E.
      * rewrite Forall_forall in Hc. apply Hc. apply in_map.
        eapply nth_error_In; eassumption.
      * apply nth_error_None in E. simpl in Hij. lia.
    + unfold Backtest.time_at in *. cbn [nth_error]. apply IH; trivial.
      simpl in Hij. lia.
Qed.

Lemma loop_chronological (candles : list CandleData)
    (leverage riskPerTrade : Qc) (k a : nat) (st : Backtest.Sim) (b : Z) :
  StronglySorted Z.lt (map time candles) ->
  (a + k <= length candles)%nat ->
  chronological b st ->
  (forall j, (a <= j < length candles)%nat ->
             (b < Backtest.time_at candles j)%Z) ->
  exists b',
    chronological b'
      (fold_left (Backtest.step candles leverage riskPerTrade) (seq a k) st)
    /\ (forall j, (a + k <= j < length candles)%nat ->
                  (b' < Backtest.time_at candles j)%Z).
Proof.
  intros Hs. revert a st b. induction k as [|k IH]; intros a st b Hk Hc Hb.
  - exists b. rewrite Nat.add_0_r. now split.
  - cbn [seq fold_left].
    destruct (IH (S a)
                (Backtest.step candles leverage riskPerTrade st a)
                (Backtest.time_at candles a)) as [b' [C1 C2]].
    + lia.
    + unfold Backtest.step.
      apply entry_step_chronological, (exit_step_chronological _ b); trivial.
      apply Hb. lia.
    + intros j Hj. apply time_at_increasing; trivial.
    + exists b'. split; trivial. intros j Hj. apply C2. lia.
Qed.

Lemma close_open_chronological (candles : list CandleData) (leverage : Qc)
    (b : Z) (st : Backtest.Sim) :
  (Backtest.inPosition st = true ->
   (b < Backtest.time_at candles (length candles - 1))%Z) ->
  chronological b st ->
  StronglySorted Z.le (timeline (Backtest.trades (Backtest.close_open candles leverage st)))
  /\ Forall (fun t => (Trade.entryTime t < Trade.exitTime t)%Z)
       (Backtest.trades (Backtest.close_open candles leverage st)).
Proof.
  intros Hb (H1 & H2 & H3). unfold Backtest.close_open.
  destruct (Backtest.inPosition st) eqn:Ein.
  - specialize (Hb eq_refl). cbn [Backtest.trades].
    rewrite timeline_snoc. cbn [Trade.entryTime Trade.exitTime].
    assert (He : (Backtest.entryTime st <= b)%Z).
    { apply Forall_app in H2. destruct H2 as [_ H2]. now inversion H2. }
    replace (timeline (Backtest.trades st)
             ++ [Backtest.entryTime st;
                 Backtest.time_at candles (length candles - 1)])
      with ((timeline (Backtest.trades st) ++ [Backtest.entryTime st])
            ++ [Backtest.time_at candles (length candles - 1)])
      by (now rewrite <- app_assoc).
    split.
    + apply (sorted_snoc _ b); trivial. lia.
    + apply Forall_app. split; trivial. constructor; [|constructor].
      cbn. lia.
  - rewrite app_nil_r in H1. now split.
Qed.

(** When the candle times increase, the ledger of a run is in time order:
    every trade ends on a later candle than it began, and no trade begins
    before the previous one has ended. *)
Theorem backtest_trades_chronological (candles : list CandleData)
    (initialCapital leverage riskPerTrade : Qc) :
  StronglySorted Z.lt (map time candles) ->
  let trades :=
    Result.trades
      (Backtest.backtestStrategy candles initialCapital leverage riskPerTrade)
  in
  StronglySorted Z.le (timeline trades)
  /\ Forall (fun t => (Trade.entryTime t < Trade.exitTime t)%Z) trades.
Proof.
  intros Hs. cbv zeta. unfold Backtest.backtestStrategy.
  destruct (Nat.ltb_spec (length candles) 50) as [Hn|Hn].
  - cbn. split; constructor.
  - cbn [Result.trades]. unfold Backtest.simulate.
    destruct (loop_chronological candles leverage riskPerTrade
                (length candles - 1 - 50) 50
                (Backtest.sim_init initialCapital)
                (Backtest.time_at candles 50 - 1)) as [b [C1 C2]]; trivial.
    + lia.
    + unfold chronological. cbn. repeat split; constructor.
    + intros j Hj. destruct (Nat.eq_dec j 50) as [->|Hne]; [lia|].
      assert (Backtest.time_at candles 50 < Backtest.time_at candles j)%Z
        by (apply time_at_increasing; trivial; lia).
      lia.
    + apply (close_open_chronological candles leverage b); trivial.
      intros Hin. destruct (Nat.eq_dec (length candles) 50) as [E|E].
      * rewrite E in Hin. cbn in Hin. discriminate.
      * apply C2. lia.
Qed.

Lemma backtest_trades_chronological_witness :
  let trades :=
    Result.trades (Backtest.backtestStrategy winning_run '1000 '10 '2) in
  StronglySorted Z.le (timeline trades)
  /\ Forall (fun t => (Trade.entryTime t < Trade.exitTime t)%Z) trades.
Proof.
  apply (backtest_trades_chronological winning_run '1000 '10 '2).
  apply Sorted_StronglySorted; [intros x y z; apply Z.lt_trans|].
  vm_compute. repeat constructor.
Defined.

(** ** The size and the order of the DCA ladders *)

Lemma length_fold_sr (entryPrice : Qc) (positionType : PositionType)
    (initialSize : Qc) (levels : Z) (useVariableAmount : bool)
    (nearest : list Qc) (result : list DCALevel) :
  (length result <= Z.to_nat levels)%nat ->
  (length (fold_left
             (EngineA.sr_step entryPrice positionType initialSize levels
                useVariableAmount) nearest result)
   <= Z.to_nat levels)%nat.
Proof.
  revert result. induction nearest as [|x l IH]; intros result H; simpl;
    trivial.
  apply IH. unfold EngineA.sr_step.
  destruct (Z.ltb_spec (Z.of_nat (length result)) levels) as [L|L]; trivial.
  destruct (_ && _); trivial. rewrite length_app. simpl. lia.
Qed.

Lemma length_fold_pct (pow : Qc -> Qc -> Qc) (entryPrice : Qc)
    (positionType : PositionType)
    (initialSize multiplier volatilityMultiplier amountAdjustment : Qc)
    (useOptimization useVariableAmount useReinforcement : bool)
    (basePercentages : list Qc) (indices : list nat)
    (result : list DCALevel) :
  length (fold_left
            (EngineA.pct_step pow entryPrice positionType initialSize
               multiplier volatilityMultiplier amountAdjustment
               useOptimization useVariableAmount useReinforcement
               basePercentages) indices result)
  = (length result + length indices)%nat.
Proof.
  revert result. induction indices as [|i l IH]; intros result; simpl.
  - lia.
  - rewrite IH. unfold EngineA.pct_step. rewrite length_app. simpl. lia.
Qed.

(** Neither copy returns more levels than asked for; the second copy
    returns exactly [levels] of them, up to its five percentages. *)
Theorem dca_ladder_size (pow : Qc -> Qc -> Qc) (entryPrice : Qc)
    (positionType : PositionType) (initialSize : Qc) (levels : Z)
    (volatility : Qc) (marketCondition : MarketTag)
    (options : option DCAOptions) :
  (length (EngineA.calculateDCALevels pow entryPrice positionType initialSize
             levels volatility marketCondition options)
   <= Z.to_nat levels)%nat
  /\ length (EngineB.calculateDCALevels entryPrice positionType initialSize
               levels volatility)
     = Nat.min (Z.to_nat levels) 5.
Proof.
  split.
  - unfold EngineA.calculateDCALevels. cbv zeta.
    match goal with
    | |- context [let '(_, _) := ?p in _] => remember p as x eqn:Ex
    end.
    assert (H : (length (snd x) <= Z.to_nat levels)%nat).
    { subst x.
      repeat match goal with
             | |- context [if ?b then _ else _] => destruct b
             end; cbn [snd length]; try lia.
      all: apply length_fold_sr; simpl; lia. }
    clear Ex. destruct x as [bp res]. cbn [snd] in H.
    rewrite length_renumber, length_sort.
    destruct (Z.ltb_spec 0 (levels - Z.of_nat (length res))) as [L|L];
      trivial.
    rewrite length_fold_pct, length_seq. lia.
  - unfold EngineB.calculateDCALevels. now rewrite length_map, length_seq.
Qed.

(** The ladder of the second copy, which is not sorted at the end, is in
    order as built: for a positive entry price and a volatility that is not
    negative, its prices move away from the entry price level by level, on
    the losing side of the position, and its amounts grow. *)
Theorem dca_ladder_second_copy_ordered (entryPrice : Qc)
    (positionType : PositionType) (initialSize : Qc) (levels : Z)
    (volatility : Qc) :
  0 < entryPrice -> 0 <= volatility -> 0 < initialSize ->
  let r := EngineB.calculateDCALevels entryPrice positionType initialSize
             levels volatility in
  map level r = seq 1 (length r)
  /\ (positionType = LONG ->
      StronglySorted (fun a b => b < a) (entryPrice :: map price r))
  /\ (positionType = SHORT ->
      StronglySorted (fun a b => a < b) (entryPrice :: map price r))
  /\ StronglySorted (fun a b => a < b) (map amount r).
Proof.
  intros He Hv Hs. cbv zeta. unfold EngineB.calculateDCALevels.
  assert (Hev : 0 <= entryPrice * volatility).
  { to_Q. apply Qmult_le_0_compat; lra. }
  set (ev := entryPrice * volatility) in *.
  assert (P : forall m i : Qc,
            entryPrice * (1 + m * (i * (1 + volatility * '10)))
            = entryPrice + m * i * entryPrice + '10 * m * i * ev).
  { intros m i. unfold ev. ring. }
  cbn [length].
  assert (Hn : (Nat.min (Z.to_nat levels) 5 <= 5)%nat) by apply Nat.le_min_r.
  destruct (Nat.min (Z.to_nat levels) 5) as [|[|[|[|[|[|n]]]]]]; [..|lia];
    clear Hn;
    cbn [length seq map nth level price amount Init.Nat.add];
    (split; [reflexivity|]); (split; [|split]).
  all: try (intros ->; cbn [PositionType_eqb]; rewrite ?P; clearbody ev;
            clear P; repeat apply SSorted_cons; try apply SSorted_nil;
            repeat apply Forall_cons; try apply Forall_nil; to_Q; lra).
  all: clear P; rewrite ?of_nat_succ; change (Js.of_nat 0) with 0;
    repeat apply SSorted_cons; try apply SSorted_nil;
    repeat apply Forall_cons; try apply Forall_nil; to_Q; lra.
Qed.

Lemma dca_ladder_second_copy_ordered_witness :
  let r := EngineB.calculateDCALevels '100 LONG 1 3 '0.01 in
  map level r = seq 1 (length r)
  /\ (LONG = LONG ->
      StronglySorted (fun a b => b < a) ('100 :: map price r))
  /\ (LONG = SHORT ->
      StronglySorted (fun a b => a < b) ('100 :: map price r))
  /\ StronglySorted (fun a b => a < b) (map amount r).
Proof.
  apply (dca_ladder_second_copy_ordered '100 LONG 1 3 '0.01); reflexivity
    || (unfold Qcle; vm_compute; discriminate).
Defined.

(** ** The chart readers *)

Lemma gtb_ltb_exclusive (a b : Qc) : Js.gtb a b && Js.ltb a b = false.
Proof.
  destruct (Js.gtb a b) eqn:E1, (Js.ltb a b) eqn:E2; trivial.
  apply ltb_lt in E1, E2. exfalso. unfold Qclt in *. lra.
Qed.

Lemma slice_last_all {A : Type} (n : nat) (l : list A) :
  (length l <= n)%nat -> Js.slice_last n l = l.
Proof.
  intros H. unfold Js.slice_last. destruct (n =? 0)%nat; trivial.
  replace (length l - n)%nat with 0%nat by lia. reflexivity.
Qed.

Lemma slice_last_length {A : Type} (n : nat) (l : list A) :
  (0 < n <= length l)%nat -> length (Js.slice_last n l) = n.
Proof.
  intros H. unfold Js.slice_last.
  destruct (Nat.eqb_spec n 0) as [E|E]; [lia|].
  rewrite length_skipn. lia.
Qed.

Lemma slice_last_idempotent {A : Type} (n : nat) (l : list A) :
  Js.slice_last n (Js.slice_last n l) = Js.slice_last n l.
Proof.
  destruct (Nat.eq_dec n 0) as [->|Hn]; [reflexivity|].
  destruct (Nat.le_gt_cases n (length l)) as [H|H].
  - apply slice_last_all. rewrite slice_last_length; lia.
  - now rewrite !(slice_last_all n l) by lia.
Qed.

(** [detectTraps] reads the last five candles only; it never reports a
    bull trap and a bear trap together, and it names a direction exactly
    when it reports a fakeout.  With fewer than five candles it reports
    nothing. *)
Theorem traps_read_last_five (candles : list CandleData) :
  let r := Chart.detectTraps candles in
  Chart.bullTrap r && Chart.bearTrap r = false
  /\ (Chart.fakeout r = true <-> Chart.fakeoutDirection r <> None)
  /\ ((length candles < 5)%nat -> r = Chart.no_trap)
  /\ ((5 <= length candles)%nat ->
      r = Chart.detectTraps (Js.slice_last 5 candles)).
Proof.
  cbv zeta. unfold Chart.detectTraps at 1 2 3 4 5.
  destruct (Nat.ltb_spec (length candles) 5) as [Hn|Hn].
  - cbn. repeat split; try discriminate; try lia. intros H. now contradiction H.
  - split; [|split; [|split; [lia|]]].
    + destruct (Js.slice_last 5 candles) as [|c0 [|c1 [|c2 [|c3 [|c4 [|]]]]]];
        trivial. cbn [Chart.bullTrap Chart.bearTrap].
      pose proof (gtb_ltb_exclusive (close c3) (close c2)) as G.
      destruct (Js.gtb (close c2) (high c1)), (Js.ltb (close c2) (low c1)),
        (Js.ltb (close c3) (close c2)), (Js.gtb (close c3) (close c2)),
        (Js.ltb (close c4) (close c3)), (Js.gtb (close c4) (close c3));
        cbn in *; trivial; discriminate.
    + destruct (Js.slice_last 5 candles) as [|c0 [|c1 [|c2 [|c3 [|c4 [|]]]]]];
        cbn; try (split; [discriminate | intros H; now contradiction H]).
      destruct (_ && _), (_ && _); cbn; split; trivial; try discriminate;
        intros H; now contradiction H.
    + intros _. unfold Chart.detectTraps.
      rewrite slice_last_idempotent, slice_last_length by lia.
      destruct (Nat.ltb_spec (length candles) 5); [lia|]. reflexivity.
Qed.

Lemma Sorted_adjacent {A : Type} (R : A -> A -> Prop) (l : list A) (i : nat)
    (x y : A) :
  Sorted R l -> nth_error l i = Some x -> nth_error l (S i) = Some y -> R x y.
Proof.
  intros H. revert i. induction H as [|a l Hs IH Hhd]; intros i Hx Hy.
  - destruct i; discriminate.
  - destruct i as [|i].
    + simpl in Hx. injection Hx as <-. simpl in Hy.
      destruct l as [|b l]; [discriminate|]. simpl in Hy. injection Hy as <-.
      now inversion Hhd.
    + simpl in Hx, Hy. eapply IH; eassumption.
Qed.

Lemma gtb_false_of_le (a b : Qc) : a <= b -> Js.gtb a b = false.
Proof. intros H. now apply ltb_ge. Qed.

Lemma ltb_false_of_le (a b : Qc) : b <= a -> Js.ltb a b = false.
Proof. intros H. now apply ltb_ge. Qed.

Lemma high_at_adjacent (R : Qc -> Qc -> Prop) (candles : list CandleData)
    (i : nat) :
  Sorted R (map high candles) -> (S i < length candles)%nat ->
  R (Chart.high_at candles i) (Chart.high_at candles (S i)).
Proof.
  intros Hs Hi. unfold Chart.high_at.
  destruct (nth_error candles i) as [x|] eqn:Ex;
    [|apply nth_error_None in Ex; lia].
  destruct (nth_error candles (S i)) as [y|] eqn:Ey;
    [|apply nth_error_None in Ey; lia].
  apply (Sorted_adjacent R (map high candles) i); trivial.
  - now rewrite nth_error_map, Ex.
  - now rewrite nth_error_map, Ey.
Qed.

Lemma low_at_adjacent (R : Qc -> Qc -> Prop) (candles : list CandleData)
    (i : nat) :
  Sorted R (map low candles) -> (S i < length candles)%nat ->
  R (Chart.low_at candles i) (Chart.low_at candles (S i)).
Proof.
  intros Hs Hi. unfold Chart.low_at.
  destruct (nth_error candles i) as [x|] eqn:Ex;
    [|apply nth_error_None in Ex; lia].
  destruct (nth_error candles (S i)) as [y|] eqn:Ey;
    [|apply nth_error_None in Ey; lia].
  apply (Sorted_adjacent R (map low candles) i); trivial.
  - now rewrite nth_error_map, Ex.
  - now rewrite nth_error_map, Ey.
Qed.

Lemma flat_map_nil {A B : Type} (f : A -> list B) (l : list A) :
  (forall x, In x l -> f x = []) -> flat_map f l = [].
Proof.
  induction l as [|x l IH]; intros H; simpl; trivial.
  rewrite (H x) by now left. apply IH. intros y Hy. apply H. now right.
Qed.

Lemma no_swing_high_when_steady (candles : list CandleData) :
  steady (map high candles) -> Chart.swingHighs candles = [].
Proof.
  intros [H|H]; unfold Chart.swingHighs; apply flat_map_nil; intros i Hi;
    apply in_seq in Hi; unfold Chart.isSwingHigh.
  - pose proof (high_at_adjacent _ candles i H) as G.
    replace (i + 1)%nat with (S i) by lia.
    rewrite (gtb_false_of_le _ _ (G ltac:(lia))).
    now rewrite andb_false_r.
  - pose proof (high_at_adjacent _ candles (i - 1) H) as G.
    replace (S (i - 1)) with i in G by lia.
    rewrite (gtb_false_of_le _ _ (G ltac:(lia))). reflexivity.
Qed.

Lemma no_swing_low_when_steady (candles : list CandleData) :
  steady (map low candles) -> Chart.swingLows candles = [].
Proof.
  intros [H|H]; unfold Chart.swingLows; apply flat_map_nil; intros i Hi;
    apply in_seq in Hi; unfold Chart.isSwingLow.
  - pose proof (low_at_adjacent _ candles (i - 1) H) as G.
    replace (S (i - 1)) with i in G by lia.
    rewrite (ltb_false_of_le _ _ (G ltac:(lia))). reflexivity.
  - pose proof (low_at_adjacent _ candles i H) as G.
    replace (i + 1)%nat with (S i) by lia.
    rewrite (ltb_false_of_le _ _ (G ltac:(lia))).
    now rewrite andb_false_r.
Qed.

(** A market whose highs, or whose lows, move one way only has no swing
    point, and [analyzeMarketStructure] reports no structure for it: a
    neutral trend and no flag, however far the prices travel. *)
Theorem steady_market_has_no_structure (candles : list CandleData) :
  steady (map high candles) \/ steady (map low candles) ->
  Chart.analyzeMarketStructure candles = Chart.no_structure.
Proof.
  intros H. unfold Chart.analyzeMarketStructure.
  destruct (length candles <? 10)%nat; trivial.
  destruct H as [H|H].
  - now rewrite (no_swing_high_when_steady candles H).
  - rewrite (no_swing_low_when_steady candles H).
    now rewrite orb_true_r.
Qed.

Lemma steady_market_has_no_structure_witness :
  Chart.analyzeMarketStructure
    (map (fun i => mkCandle (Z.of_nat i) (Js.of_nat i) (Js.of_nat i + 1)
                     (Js.of_nat i) (Js.of_nat i - 1) 1) (seq 1 12))
  = Chart.no_structure.
Proof.
  apply steady_market_has_no_structure. left. left.
  cbn [map seq high]. repeat constructor; unfold Qcle; vm_compute; discriminate.
Defined.

(** The flags of [analyzeMarketStructure] agree with one another: a high
    is not both higher and lower than the one before, the trend follows
    from the flags, and a break of structure comes with a trend. *)
Theorem market_structure_flags_agree (candles : list CandleData) :
  let r := Chart.analyzeMarketStructure candles in
  Chart.higherHigh r && Chart.lowerHigh r = false
  /\ Chart.higherLow r && Chart.lowerLow r = false
  /\ (Chart.trend r = Chart.bullish
      <-> Chart.higherHigh r = true /\ Chart.higherLow r = true)
  /\ (Chart.trend r = Chart.bearish
      <-> Chart.lowerHigh r = true /\ Chart.lowerLow r = true)
  /\ (Chart.breakOfStructure r = true -> Chart.trend r <> Chart.neutral)
  /\ ((length candles < 10)%nat -> r = Chart.no_structure).
Proof.
  cbv zeta. unfold Chart.analyzeMarketStructure.
  destruct (Nat.ltb_spec (length candles) 10) as [Hn|Hn].
  { cbn. repeat split; try discriminate; intros [? ?]; discriminate. }
  destruct (_ || _).
  { cbn. repeat split; try discriminate; try lia; intros [? ?]; discriminate. }
  set (hs := Js.sort Chart.by_index (Chart.swingHighs candles)).
  set (ls := Js.sort Chart.by_index (Chart.swingLows candles)).
  cbn [Chart.higherHigh Chart.lowerHigh Chart.higherLow Chart.lowerLow
       Chart.trend Chart.breakOfStructure].
  pose proof (gtb_ltb_exclusive (Chart.from_end hs 1) (Chart.from_end hs 2)) as G1.
  pose proof (gtb_ltb_exclusive (Chart.from_end ls 1) (Chart.from_end ls 2)) as G2.
  destruct (Js.gtb (Chart.from_end hs 1) (Chart.from_end hs 2)),
    (Js.ltb (Chart.from_end hs 1) (Chart.from_end hs 2)),
    (Js.gtb (Chart.from_end ls 1) (Chart.from_end ls 2)),
    (Js.ltb (Chart.from_end ls 1) (Chart.from_end ls 2));
    cbn in *; try discriminate;
    repeat split; try discriminate; try lia; try tauto;
    try (intros [? ?]; discriminate).
Qed.

(** ** Extremes of a window *)



Lemma fold_min_le (l : list Qc) (x : Qc) :
  Forall (fun y => fold_left Js.min l x <= y) (x :: l).
Proof.
  revert x. induction l as [|y l IH]; intros x; simpl.
  - repeat constructor. apply Qcle_refl.
  - specialize (IH (Js.min x y)). inversion IH as [|? ? H0 Hl]; subst.
    constructor; [|constructor]; trivial.
    + eapply Qcle_trans; [exact H0|apply min_le_l].
    + eapply Qcle_trans; [exact H0|apply min_le_r].
Qed.

Lemma fold_max_ge (l : list Qc) (x : Qc) :
  Forall (fun y => y <= fold_left Js.max l x) (x :: l).
Proof.
  revert x. induction l as [|y l IH]; intros x; simpl.
  - repeat constructor. apply Qcle_refl.
  - specialize (IH (Js.max x y)). inversion IH as [|? ? H0 Hl]; subst.
    constructor; [|constructor]; trivial.
    + eapply Qcle_trans; [apply max_ge_l|exact H0].
    + eapply Qcle_trans; [apply max_ge_r|exact H0].
Qed.



Lemma min_of_le (l : list Qc) : Forall (fun y => Chart.min_of l <= y) l.
Proof. destruct l; [constructor|]. apply fold_min_le. Qed.

Lemma max_of_ge (l : list Qc) : Forall (fun y => y <= Chart.max_of l) l.
Proof. destruct l; [constructor|]. apply fold_max_ge. Qed.


(** ** Divergence *)

Lemma min_100_bounded (x : Number.t) :
  Number.min x (Number.Num '100) <> Number.PlusInfinity
  /\ forall q, Number.min x (Number.Num '100) = Number.Num q -> q <= '100.
Proof.
  destruct x as [q| | |]; cbn.
  - unfold Js.gtb. destruct (Js.ltb '100 q) eqn:E.
    + split; [discriminate|]. intros r H. injection H as <-. apply Qcle_refl.
    + split; [discriminate|]. intros r H. injection H as <-.
      now apply ltb_ge in E.
  - split; [discriminate|]. intros r H. injection H as <-. apply Qcle_refl.
  - split; discriminate.
  - split; discriminate.
Qed.

Lemma divergence_is_one_sided_pre (candles : list CandleData)
    (rsiValues : list (option Qc)) :
  Chart.divergenceStrength (Chart.detectDivergence candles rsiValues)
  <> Number.PlusInfinity
  /\ (forall q,
        Chart.divergenceStrength (Chart.detectDivergence candles rsiValues)
        = Number.Num q -> q <= '100).
Proof.
  unfold Chart.detectDivergence. destruct (_ || _).
  { cbn. split; [discriminate|].
    intros q H. injection H as <-. unfold Qcle. vm_compute. discriminate. }
  cbv zeta. cbn [Chart.divergenceStrength]. apply min_100_bounded.
Qed.

(** [detectDivergence] never reports a bullish and a bearish divergence
    together; the strength it reports never exceeds 100, and is 0 when it
    reports no divergence. *)
Theorem divergence_is_one_sided (candles : list CandleData)
    (rsiValues : list (option Qc)) :
  let r := Chart.detectDivergence candles rsiValues in
  Chart.bullishDivergence r && Chart.bearishDivergence r = false
  /\ Chart.divergenceStrength r <> Number.PlusInfinity
  /\ (forall q, Chart.divergenceStrength r = Number.Num q -> q <= '100)
  /\ (Chart.bullishDivergence r = false ->
      Chart.bearishDivergence r = false ->
      Chart.divergenceStrength r = Number.Num 0).
Proof.
  cbv zeta. unfold Chart.detectDivergence.
  destruct (_ || _).
  { cbn. repeat split; try discriminate.
    intros q H. injection H as <-. unfold Qcle. vm_compute. discriminate. }
  cbv zeta.
  cbn [Chart.bullishDivergence Chart.bearishDivergence
       Chart.divergenceStrength].
  match goal with
  | |- context [Number.min ?s _] => destruct (min_100_bounded s) as [M1 M2]
  end.
  split; [|split; [exact M1|split; [exact M2|]]].
  - destruct (Js.gtb (Chart.elem _ _) _), (Js.gtb (Chart.elem _ _) _);
      reflexivity.
  - intros -> ->. reflexivity.
Qed.

Lemma eqb_false_of_pos (b : Qc) : 0 < b -> Js.eqb b 0 = false.
Proof.
  intros H. destruct (Js.eqb b 0) eqn:E; trivial.
  apply eqb_eq in E. subst b. revert H. unfold Qclt. intros H.
  now apply Qlt_irrefl in H.
Qed.

Lemma div_num (a b : Qc) :
  0 < b -> Number.div (Number.Num a) (Number.Num b) = Number.Num (a / b).
Proof. intros H. cbn. now rewrite eqb_false_of_pos. Qed.






(** ** The volume profile *)

Lemma distribute_share (lowestPrice zoneSize : Qc) (c : CandleData) (i : nat)
    (zone : Chart.Zone) (v : Qc) :
  low c < high c -> Chart.zoneVolume zone = Number.Num v ->
  Chart.zoneVolume (Chart.distribute lowestPrice zoneSize c (i, zone))
  = Number.Num (v + volume c * share lowestPrice zoneSize c i).
Proof.
  intros Hc Hv. unfold Chart.distribute, share.
  destruct (_ && _).
  - cbn [Chart.zoneVolume]. rewrite Hv, div_num.
    + reflexivity.
    + clear - Hc. to_Q. lra.
  - rewrite Hv. f_equal. ring.
Qed.

Lemma distribute_all (lowestPrice zoneSize : Qc) (c : CandleData)
    (zones : list Chart.Zone) (vols : list Qc) (a : nat) :
  low c < high c ->
  map Chart.zoneVolume zones = map Number.Num vols ->
  map Chart.zoneVolume
    (map (Chart.distribute lowestPrice zoneSize c)
         (combine (seq a (length zones)) zones))
  = map Number.Num
      (map (fun iv => snd iv + volume c * share lowestPrice zoneSize c (fst iv))
           (combine (seq a (length vols)) vols)).
Proof.
  intros Hc. revert vols a.
  induction zones as [|z zones IH]; intros [|v vols] a H; try discriminate.
  - reflexivity.
  - cbn [map] in H. injection H as Hz Hrest. cbn [length seq combine map].
    rewrite (distribute_share _ _ _ _ _ v Hc Hz). f_equal.
    now apply IH.
Qed.

Lemma max_min_cases (a b : Qc) :
  (Js.max a b = a /\ b <= a) \/ (Js.max a b = b /\ a <= b).
Proof.
  unfold Js.max. destruct (Js.ltb a b) eqn:E.
  - right. split; trivial. apply ltb_lt in E. now apply Qclt_le_weak.
  - left. split; trivial. now apply ltb_ge in E.
Qed.

Lemma min_cases (a b : Qc) :
  (Js.min a b = a /\ a <= b) \/ (Js.min a b = b /\ b <= a).
Proof.
  unfold Js.min. destruct (Js.ltb b a) eqn:E.
  - right. split; trivial. apply ltb_lt in E. now apply Qclt_le_weak.
  - left. split; trivial. now apply ltb_ge in E.
Qed.

Lemma share_range (lowestPrice zoneSize : Qc) (c : CandleData) (i : nat) :
  low c < high c -> 0 <= zoneSize ->
  0 <= share lowestPrice zoneSize c i /\ share lowestPrice zoneSize c i <= 1.
Proof.
  intros Hc Hz. unfold share.
  set (s := lowestPrice + Js.of_nat i * zoneSize).
  set (e := s + zoneSize).
  assert (Hse : s <= e) by (unfold e; clear - Hz; to_Q; lra).
  clearbody s. clearbody e.
  destruct (Js.leb (low c) e) eqn:E1; cbn [andb];
    [|split; unfold Qcle; vm_compute; discriminate].
  destruct (Js.leb s (high c)) eqn:E2;
    [|split; unfold Qcle; vm_compute; discriminate].
  apply leb_le in E1. apply leb_le in E2.
  set (l := low c) in *. set (h := high c) in *. clearbody l h.
  assert (N : 0 <= Js.min h e - Js.max l s
              /\ Js.min h e - Js.max l s <= h - l).
  { destruct (min_cases h e) as [[-> A]|[-> A]],
             (max_min_cases l s) as [[-> B]|[-> B]];
      clear - Hc Hse E1 E2 A B; to_Q; split; lra. }
  destruct N as [N0 N1].
  assert (P : 0 < h - l) by (clear - Hc; to_Q; lra).
  split.
  - now apply div_nonneg.
  - revert N0 N1 P. generalize (Js.min h e - Js.max l s). intros n N0 N1 P.
    assert (E : n = (n / (h - l)) * (h - l)).
    { field. intros Z. rewrite Z in P. revert P. unfold Qclt.
      apply Qlt_irrefl. }
    set (q := n / (h - l)) in *. clearbody q.
    rewrite E in N1. clear E N0. revert N1 P. generalize (h - l).
    intros d N1 P. to_Q. nra.
Qed.

(** The zones as the loop over the candles leaves them: finite volumes,
    none negative, none above what the candles read so far have traded. *)
Lemma zones_bounded (lowestPrice zoneSize : Qc) (candles : list CandleData)
    (zones : list Chart.Zone) (vols : list Qc) (total : Qc) :
  0 <= zoneSize ->
  Forall (fun c => low c < high c /\ 0 <= volume c) candles ->
  length vols = 10%nat ->
  map Chart.zoneVolume zones = map Number.Num vols ->
  Forall (fun v => 0 <= v /\ v <= total) vols ->
  exists vols',
    map Chart.zoneVolume
      (fold_left
         (fun zones candle =>
            map (Chart.distribute lowestPrice zoneSize candle)
                (combine (seq 0 Chart.zoneCount) zones))
         candles zones)
    = map Number.Num vols'
    /\ length vols' = 10%nat
    /\ Forall (fun v => 0 <= v /\ v <= total + Js.sum (map volume candles))
         vols'.
Proof.
  intros Hz H. revert zones vols total.
  induction H as [|c l (Hc & Hv) _ IH]; intros zones vols total Hn Hzv Hb.
  - exists vols. cbn [fold_left map]. repeat split; trivial.
    change (Js.sum []) with 0.
    eapply Forall_impl; [|exact Hb]. cbv beta. intros v [A B].
    split; trivial. clear - B. to_Q. lra.
  - cbn [fold_left map].
    assert (Hzn : length zones = 10%nat).
    { apply (f_equal (@length Number.t)) in Hzv.
      rewrite !length_map in Hzv. lia. }
    set (vols1 := map (fun iv => snd iv + volume c
                                 * share lowestPrice zoneSize c (fst iv))
                      (combine (seq 0 (length vols)) vols)).
    destruct (IH (map (Chart.distribute lowestPrice zoneSize c)
                      (combine (seq 0 Chart.zoneCount) zones)) vols1
                 (total + volume c))
      as (vols' & V1 & V2 & V3).
    + unfold vols1. rewrite length_map, length_combine, length_seq. lia.
    + unfold Chart.zoneCount. rewrite <- Hzn.
      now apply distribute_all.
    + unfold vols1. apply Forall_forall. intros v Hin.
      apply in_map_iff in Hin. destruct Hin as [[i v0] [<- Hin]].
      apply in_combine_r in Hin. rewrite Forall_forall in Hb.
      destruct (Hb v0 Hin) as [B0 B1].
      destruct (share_range lowestPrice zoneSize c i Hc Hz) as [S0 S1].
      cbn [fst snd]. revert S0 S1.
      generalize (share lowestPrice zoneSize c i). intros s S0 S1.
      clear - B0 B1 S0 S1 Hv. to_Q.
      assert (0 <= volume c * s)%Q by (apply Qmult_le_0_compat; trivial).
      assert (0 <= volume c * (1 - s))%Q by (apply Qmult_le_0_compat; lra).
      split; lra.
    + exists vols'. repeat split; trivial.
      eapply Forall_impl; [|exact V3]. cbv beta. intros v [A B].
      split; trivial. rewrite sum_cons. clear - B. to_Q. lra.
Qed.

(** When every candle has a range and a volume that is not negative,
    [analyzeVolumeProfile] gives no zone more than was traded: the ten
    zones hold finite volumes, none negative and none above the total
    volume of the candles. *)
Theorem volume_profile_zones_bounded (candles : list CandleData) :
  candles <> [] ->
  Forall (fun c => low c < high c /\ 0 <= volume c) candles ->
  let profile := Chart.analyzeVolumeProfile candles in
  exists volumes,
    map Chart.zoneVolume (Chart.volumeZones profile) = map Number.Num volumes
    /\ length volumes = 10%nat
    /\ Forall (fun v => 0 <= v /\ v <= Js.sum (map volume candles)) volumes.
Proof.
  intros Hne Hc. cbv zeta. unfold Chart.analyzeVolumeProfile.
  destruct (Nat.eqb_spec (length candles) 0) as [E|E].
  { destruct candles; [congruence|discriminate]. }
  cbv zeta. cbn [Chart.volumeZones].
  set (lowest := Chart.min_of (map low candles)).
  set (highest := Chart.max_of (map high candles)).
  set (z := (highest - lowest) / Js.of_nat Chart.zoneCount).
  assert (Hz : 0 <= z).
  { destruct candles as [|c l]; [congruence|].
    inversion Hc as [|? ? [Hc0 _] _]; subst.
    assert (B1 : lowest <= low c).
    { pose proof (min_of_le (map low (c :: l))) as M.
      rewrite Forall_forall in M. apply M. now left. }
    assert (B2 : high c <= highest).
    { pose proof (max_of_ge (map high (c :: l))) as M.
      rewrite Forall_forall in M. apply M. now left. }
    apply div_nonneg;
      [|apply of_nat_positive; unfold Chart.zoneCount; lia].
    clear - Hc0 B1 B2. to_Q. lra. }
  destruct (zones_bounded lowest z candles
              (map (fun i =>
                      Chart.mkZone
                        (lowest + Js.of_nat i * z + z / '2) (Number.Num 0))
                   (seq 0 Chart.zoneCount))
              (repeat 0 10) 0) as (vols & V1 & V2 & V3); trivial.
  - repeat (apply Forall_cons; [split; apply Qcle_refl|]). apply Forall_nil.
  - exists vols. repeat split; trivial.
    eapply Forall_impl; [|exact V3]. cbv beta. intros v [A B].
    split; trivial. clear - B. to_Q. lra.
Qed.

Lemma volume_profile_zones_bounded_witness :
  let profile := Chart.analyzeVolumeProfile reversal in
  exists volumes,
    map Chart.zoneVolume (Chart.volumeZones profile) = map Number.Num volumes
    /\ length volumes = 10%nat
    /\ Forall (fun v => 0 <= v /\ v <= Js.sum (map volume reversal)) volumes.
Proof.
  apply (volume_profile_zones_bounded reversal).
  - discriminate.
  - apply (Forall_of_forallb
             (fun c => Js.ltb (low c) (high c) && Js.leb 0 (volume c))).
    + intros c H. apply andb_true_iff in H. destruct H as [H1 H2].
      split; [now apply ltb_lt|now apply leb_le].
    + vm_compute. reflexivity.
Defined.

(** ** Darvas boxes *)

Lemma sorted_adjacent_snoc (l : list Chart.Box) (b c : Chart.Box) :
  Sorted adjacent (l ++ [b]) -> adjacent b c ->
  Sorted adjacent (l ++ [b] ++ [c]).
Proof.
  induction l as [|x l IH]; intros H Hbc.
  - cbn. repeat constructor. exact Hbc.
  - cbn in *. inversion H as [|? ? Hs Hhd]; subst. constructor.
    + now apply IH.
    + destruct l as [|y l]; cbn in *; inversion Hhd; subst; now constructor.
Qed.

Lemma sorted_adjacent_last (l : list Chart.Box) (b b' : Chart.Box) :
  Sorted adjacent (l ++ [b]) -> Chart.startIndex b' = Chart.startIndex b ->
  Sorted adjacent (l ++ [b']).
Proof.
  induction l as [|x l IH]; intros H Hb.
  - repeat constructor.
  - cbn in *. inversion H as [|? ? Hs Hhd]; subst. constructor.
    + now apply IH.
    + destruct l as [|y l]; cbn in *; inversion Hhd; subst; constructor;
        trivial. unfold adjacent in *. congruence.
Qed.

Lemma box_within_weaken (lo hi hi' : nat) (l : list Chart.Box) :
  (hi <= hi')%nat -> Forall (box_within lo hi) l ->
  Forall (box_within lo hi') l.
Proof.
  intros Hh H. eapply Forall_impl; [|exact H].
  intros b (B1 & B2 & B3 & B4). repeat split; trivial. lia.
Qed.

(** Closing the box in progress at [last] keeps the boxes in order. *)
Lemma completed_kept (period i last : nat) (st : Chart.Darvas) :
  darvas_kept period i st -> (i - 1 <= last)%nat ->
  Forall (box_within period last) (Chart.completed st last)
  /\ Sorted adjacent (Chart.completed st last)
  /\ (forall c, Chart.startIndex c = S last ->
      Sorted adjacent (Chart.completed st last ++ [c])).
Proof.
  intros [_ H] Hl. unfold Chart.completed.
  destruct (Chart.boxStartIndex st) as [s|].
  - destruct H as (Hs & Hb & Hf & Ha). split; [|split].
    + apply Forall_app. split.
      * apply (box_within_weaken _ (s - 1)); trivial. lia.
      * repeat constructor; cbn; trivial; lia.
    + now apply (sorted_adjacent_last _ _ _ Ha).
    + intros c Hc. rewrite <- app_assoc. apply sorted_adjacent_snoc.
      * now apply (sorted_adjacent_last _ _ _ Ha).
      * exact Hc.
  - rewrite H. split; [|split]; repeat constructor.
Qed.

Lemma darvas_step_kept (period i : nat) (st : Chart.Darvas) (c : CandleData) :
  (period <= i)%nat -> (1 <= i)%nat -> darvas_kept period i st ->
  darvas_kept period (S i) (Chart.darvas_step st (i, c)).
Proof.
  intros Hp Hi K. pose proof K as [K1 K2].
  destruct (completed_kept period i (i - 1) st K (Nat.le_refl _))
    as (C1 & C2 & C3).
  unfold Chart.darvas_step.
  destruct (Js.gtb (high c) (Chart.initialHigh st)) eqn:E1.
  - apply ltb_lt in E1.
    assert (B : Chart.initialLow st <= high c).
    { eapply Qcle_trans; [exact K1|]. now apply Qclt_le_weak. }
    split; cbn; trivial. repeat split; trivial; try lia;
      try (now rewrite Nat.sub_0_r); apply C3; cbn; lia.
  - destruct (Js.ltb (low c) (Chart.initialLow st)) eqn:E2.
    + apply ltb_lt in E2.
      assert (B : low c <= Chart.initialHigh st).
      { eapply Qcle_trans; [|exact K1]. now apply Qclt_le_weak. }
      split; cbn; trivial. repeat split; trivial; try lia;
        try (now rewrite Nat.sub_0_r); apply C3; cbn; lia.
    + split; trivial. destruct (Chart.boxStartIndex st) as [s|]; trivial.
      destruct K2 as (Hs & K3). split; [lia|exact K3].
Qed.

Lemma darvas_loop_kept (period : nat) (rest : list CandleData) (i : nat)
    (st : Chart.Darvas) :
  (period <= i)%nat -> (1 <= i)%nat -> darvas_kept period i st ->
  darvas_kept period (i + length rest)
    (fold_left Chart.darvas_step (combine (seq i (length rest)) rest) st).
Proof.
  revert i st. induction rest as [|c rest IH]; intros i st Hp Hi K.
  - cbn. now rewrite Nat.add_0_r.
  - cbn [length seq combine fold_left].
    replace (i + S (length rest))%nat with (S i + length rest)%nat by lia.
    apply IH; try lia. now apply darvas_step_kept.
Qed.

(** For a period of at least 1 and candles whose low is not above their
    high, the boxes of [findDarvasBoxes] follow one another without gap or
    overlap from the first breakout on, none begins before [period] or
    ends after the last candle, and no bottom lies above its top. *)
Theorem darvas_boxes_tile (candles : list CandleData) (period : nat) :
  (1 <= period)%nat ->
  Forall (fun c => low c <= high c) candles ->
  exists r,
    Chart.findDarvasBoxes candles period = Some r
    /\ Forall (box_within period (length candles - 1)) (Chart.boxes r)
    /\ Sorted adjacent (Chart.boxes r)
    /\ match Chart.currentBox r with
       | Some (top, bottom) => bottom <= top
       | None => Chart.boxes r = []
       end.
Proof.
  intros Hp Hc. unfold Chart.findDarvasBoxes.
  destruct (Nat.eqb_spec period 0) as [E|_]; [lia|].
  destruct (Nat.ltb_spec (length candles) period) as [Hn|Hn].
  { eexists. split; [reflexivity|]. cbn. repeat split; constructor. }
  cbv zeta. eexists. split; [reflexivity|].
  cbn [Chart.boxes Chart.currentBox].
  set (init := Chart.mkDarvas [] '(-1) '(-1) None _ _).
  assert (K0 : darvas_kept period period init).
  { split; [|reflexivity]. cbn.
    set (first := Js.slice candles 0 period).
    assert (Hf : first <> []).
    { intros E. apply (f_equal (@length CandleData)) in E.
      unfold first, Js.slice in E. rewrite length_firstn in E.
      cbn in E. lia. }
    assert (Hfc : Forall (fun c => low c <= high c) first).
    { unfold first, Js.slice. now apply Forall_firstn, Forall_skipn. }
    destruct first as [|c0 rest] eqn:Ef; [congruence|].
    assert (H0 : low c0 <= high c0) by now inversion Hfc.
    pose proof (min_of_le (map low (c0 :: rest))) as M1.
    pose proof (max_of_ge (map high (c0 :: rest))) as M2.
    inversion M1; inversion M2; subst.
    eapply Qcle_trans; [eassumption|]. eapply Qcle_trans; eassumption. }
  pose proof (darvas_loop_kept period (skipn period candles) period init
                (Nat.le_refl _) Hp K0) as K.
  rewrite length_skipn in K.
  replace (period + (length candles - period))%nat with (length candles)
    in K by lia.
  set (st := fold_left _ _ init) in *. clearbody st.
  destruct (completed_kept period (length candles) (length candles - 1) st K
              (Nat.le_refl _)) as (C1 & C2 & _).
  pose proof K as [_ K2].
  destruct (Chart.boxStartIndex st) as [s|] eqn:Es.
  - destruct K2 as (Hs & Hb & Hf & Ha). split; [|split; [|exact Hb]].
    + destruct (s <? length candles - 1)%nat; trivial.
      apply (box_within_weaken _ (s - 1)); trivial. lia.
    + destruct (s <? length candles - 1)%nat; trivial.
      clear - Ha. revert Ha. generalize (Chart.mkBox (Chart.currentBoxTop st)
                                           (Chart.currentBoxBottom st) s s).
      intros b. induction (Chart.found st) as [|x l IH]; intros H.
      * constructor.
      * cbn in H. inversion H as [|? ? Hs' Hhd]; subst. constructor.
        -- now apply IH.
        -- destruct l; cbn in *; inversion Hhd; subst; now constructor.
  - rewrite K2. repeat split; constructor.
Qed.

Lemma darvas_boxes_tile_witness :
  exists r,
    Chart.findDarvasBoxes climb 3 = Some r
    /\ Forall (box_within 3 (length climb - 1)) (Chart.boxes r)
    /\ Sorted adjacent (Chart.boxes r)
    /\ match Chart.currentBox r with
       | Some (top, bottom) => bottom <= top
       | None => Chart.boxes r = []
       end.
Proof.
  apply (darvas_boxes_tile climb 3).
  - lia.
  - apply (Forall_of_forallb (fun c => Js.leb (low c) (high c))).
    + intros c. apply leb_le.
    + vm_compute. reflexivity.
Defined.

(** ** The analysis of one timeframe *)

(** An order between two given numbers. *)
Ltac qc_order :=
  first [reflexivity
        | unfold Qcle, Qclt; vm_compute; first [reflexivity | discriminate]].


Lemma last_value_padded (period : nat) (values : list Qc) :
  values <> [] ->
  exists r,
    Backtest.last_value (repeat None period ++ map Some values) = Some r
    /\ In r values.
Proof.
  intros Hne. unfold Backtest.last_value, Js.last_elem.
  rewrite length_app, repeat_length, length_map.
  assert (Hl : (0 < length values)%nat).
  { destruct values; [congruence|cbn; lia]. }
  rewrite nth_error_app2 by (rewrite repeat_length; lia).
  rewrite repeat_length, nth_error_map.
  replace (period + length values - 1 - period)%nat
    with (length values - 1)%nat by lia.
  destruct (nth_error values (length values - 1)) as [r|] eqn:E.
  - exists r. split; trivial. eapply nth_error_In; eassumption.
  - apply nth_error_None in E. lia.
Qed.

Lemma current_rsi_range (candles : list CandleData) :
  (15 <= length candles)%nat ->
  0 < Js.or_default (Backtest.last_value (TA.calculateRSI candles 14)) '50
  /\ Js.or_default (Backtest.last_value (TA.calculateRSI candles 14)) '50
     <= '100.
Proof.
  intros Hn.
  destruct (rsi_computed candles 14) as (values & -> & Hlen & Hr); try lia.
  destruct (last_value_padded 14 values) as (r & -> & Hin).
  { intros ->. cbn in Hlen. lia. }
  rewrite Forall_forall in Hr. destruct (Hr r Hin) as [R0 R1].
  unfold Js.or_default. destruct (Js.eqb r 0) eqn:E.
  - split; [reflexivity | unfold Qcle; vm_compute; discriminate].
  - split; trivial. now apply eqb_neq_pos.
Qed.

Lemma clamp_unit (x : Number.t) :
  Number.max (Number.Num 0) (Number.min (Number.Num 1) x) = Number.NotANumber
  \/ exists c,
       Number.max (Number.Num 0) (Number.min (Number.Num 1) x) = Number.Num c
       /\ 0 <= c /\ c <= 1.
Proof.
  destruct x as [q| | |]; cbn.
  - right. unfold Js.gtb. destruct (Js.ltb q 1) eqn:E1; cbn; unfold Js.gtb.
    + destruct (Js.ltb 0 q) eqn:E2.
      * exists q. apply ltb_lt in E1, E2. repeat split; now apply Qclt_le_weak.
      * exists 0. repeat split; unfold Qcle; vm_compute; discriminate.
    + exists 1. cbn. repeat split; unfold Qcle; vm_compute; discriminate.
  - right. exists 1. repeat split; unfold Qcle; vm_compute; discriminate.
  - right. exists 0. repeat split; unfold Qcle; vm_compute; discriminate.
  - now left.
Qed.

(** Whatever the candles, the confidence of [analyzeSingleTimeframe] is a
    number between 0 and 1 or [NaN], its RSI is above 0 and at most 100, and
    its divergence strength never exceeds 100.  With fewer than 50 candles
    the confidence is 0 and no candle is attached. *)
Theorem single_analysis_in_range (candles : list CandleData)
    (timeframe : string) :
  let a := Analyzer.analyzeSingleTimeframe candles timeframe in
  (Analyzer.confidence a = Number.NotANumber
   \/ exists c, Analyzer.confidence a = Number.Num c /\ 0 <= c /\ c <= 1)
  /\ 0 < Analyzer.rsi a /\ Analyzer.rsi a <= '100
  /\ Analyzer.strength a <> Number.PlusInfinity
  /\ (forall q, Analyzer.strength a = Number.Num q -> q <= '100)
  /\ ((length candles < 50)%nat ->
      Analyzer.confidence a = Number.Num 0 /\ Analyzer.candleData a = None)
  /\ ((50 <= length candles)%nat -> Analyzer.candleData a = Some candles).
Proof.
  cbv zeta. unfold Analyzer.analyzeSingleTimeframe.
  destruct (Nat.ltb_spec (length candles) 50) as [Hn|Hn].
  - cbn [Analyzer.confidence Analyzer.rsi Analyzer.strength
         Analyzer.candleData].
    split; [right; exists 0; repeat split; apply Qcle_refl || qc_order|].
    repeat split; try discriminate; try lia; try qc_order.
    intros q H. injection H as <-. qc_order.
  - cbv zeta.
    cbn [Analyzer.confidence Analyzer.rsi Analyzer.strength
         Analyzer.candleData].
    destruct (current_rsi_range candles) as [R0 R1]; [lia|].
    destruct (divergence_is_one_sided_pre candles
                (TA.calculateRSI candles 14)) as [D1 D2].
    split; [apply clamp_unit|]. repeat split; trivial; lia.
Qed.

(** ** A falling market *)

Lemma changes_falling (l : list Qc) :
  Sorted (fun a b => b < a) l -> Forall (fun d => d < 0) (TA.changes l).
Proof.
  induction 1 as [|a l Hs IH Hhd]; [constructor|].
  destruct l as [|b r]; [constructor|]. cbn [TA.changes]. constructor; trivial.
  inversion Hhd as [|? ? Hba]; subst. clear - Hba. to_Q. lra.
Qed.

Lemma rsi_value_no_gain (l : Qc) : 0 < l -> TA.rsi_value 0 l = 0.
Proof.
  intros H. unfold TA.rsi_value. rewrite eqb_false_of_pos by exact H.
  cbv zeta. apply Qc_is_canon. to_Q.
  setoid_replace (0 * / l)%Q with 0%Q by ring. reflexivity.
Qed.

Lemma rsi_smooth_no_gain (p l : Qc) (gl : list (Qc * Qc)) :
  1 <= p -> 0 < l ->
  Forall (fun x => fst x = 0 /\ 0 < snd x) gl ->
  Forall (fun r => r = 0) (TA.rsi_smooth p 0 l gl).
Proof.
  intros Hp Hl H. revert l Hl.
  induction H as [|[a b] r [Ha Hb] _ IH]; intros l Hl; cbn [TA.rsi_smooth].
  - constructor.
  - cbn in Ha, Hb. subst a.
    assert (E : (0 * (p - 1) + 0) / p = 0).
    { unfold Qcdiv. ring. }
    assert (L : 0 < (l * (p - 1) + b) / p).
    { assert (N : 0 < l * (p - 1) + b).
      { clear - Hp Hl Hb. to_Q.
        assert (0 <= l * (p - 1))%Q by (apply Qmult_le_0_compat; lra). lra. }
      assert (P : 0 < p) by (clear - Hp; to_Q; lra).
      clear - N P. to_Q. apply Qmult_lt_0_compat; trivial;
        now apply Qinv_lt_0_compat. }
    rewrite E. constructor.
    + now apply rsi_value_no_gain.
    + now apply IH.
Qed.

Lemma sum_positive (l : list Qc) :
  l <> [] -> Forall (fun x => 0 < x) l -> 0 < Js.sum l.
Proof.
  intros Hne H. destruct H as [|x l Hx Hl]; [congruence|].
  rewrite sum_cons.
  assert (0 <= Js.sum l).
  { apply sum_nonneg. eapply Forall_impl; [|exact Hl].
    intros a Ha. now apply Qclt_le_weak. }
  clear - Hx H. to_Q. lra.
Qed.

Lemma sum_all_zero (l : list Qc) : Forall (fun x => x = 0) l -> Js.sum l = 0.
Proof.
  induction 1 as [|x l Hx _ IH]; [reflexivity|].
  rewrite sum_cons, Hx, IH. ring.
Qed.

Lemma abs_of_negative (d : Qc) : d < 0 -> 0 < Js.abs d.
Proof.
  intros H. apply abs_pos. intros ->. revert H. unfold Qclt. apply Qlt_irrefl.
Qed.

(** In a market that closes lower candle after candle, every computed RSI
    value is 0. *)
Lemma rsi_falling (candles : list CandleData) :
  (15 <= length candles)%nat ->
  Sorted (fun a b => b < a) (map close candles) ->
  exists values,
    TA.calculateRSI candles 14 = repeat None 14 ++ map Some values
    /\ values <> []
    /\ Forall (fun r => r = 0) values.
Proof.
  intros Hn Hs. unfold TA.calculateRSI.
  destruct (Nat.ltb_spec (length candles) (14 + 1)) as [H|_]; [lia|].
  pose proof (changes_falling _ Hs) as Hch.
  set (ch := TA.changes (map close candles)) in *.
  assert (Hlen : length ch = (length candles - 1)%nat).
  { unfold ch. now rewrite length_changes, length_map. }
  set (gains := map (fun change => if Js.gtb change 0 then change else 0) ch).
  set (losses := map (fun change => if Js.ltb change 0 then Js.abs change else 0) ch).
  assert (Hg : Forall (fun x => x = 0) gains).
  { unfold gains. apply Forall_map. eapply Forall_impl; [|exact Hch].
    intros d Hd. cbn. rewrite gtb_false_of_le; trivial.
    now apply Qclt_le_weak. }
  assert (Hl : Forall (fun x => 0 < x) losses).
  { unfold losses. apply Forall_map. eapply Forall_impl; [|exact Hch].
    intros d Hd. cbn. rewrite (proj2 (ltb_lt d 0) Hd).
    now apply abs_of_negative. }
  set (p := Js.of_nat 14).
  assert (Hp : 1 <= p) by (apply of_nat_ge_1; lia).
  assert (Hp0 : 0 < p) by (apply of_nat_positive; lia).
  assert (G0 : Js.sum (Js.slice gains 0 14) / p = 0).
  { rewrite sum_all_zero.
    - unfold Qcdiv. ring.
    - unfold Js.slice. now apply Forall_firstn, Forall_skipn. }
  assert (L0 : 0 < Js.sum (Js.slice losses 0 14) / p).
  { assert (S : 0 < Js.sum (Js.slice losses 0 14)).
    { apply sum_positive.
      - intros E. apply (f_equal (@length Qc)) in E.
        unfold Js.slice, losses in E.
        rewrite length_firstn, length_skipn, length_map, Hlen in E.
        cbn [length] in E. lia.
      - unfold Js.slice. now apply Forall_firstn, Forall_skipn. }
    clear - S Hp0. to_Q. apply Qmult_lt_0_compat; trivial;
      now apply Qinv_lt_0_compat. }
  rewrite G0.
  eexists. split; [reflexivity|]. split; [discriminate|].
  constructor.
  - now apply rsi_value_no_gain.
  - apply rsi_smooth_no_gain; trivial.
    apply (Forall_combine (fun x => x = 0) (fun x => 0 < x));
      now apply Forall_skipn.
Qed.

(** A market that closes lower candle after candle has an RSI of 0, the
    most oversold reading there is; [analyzeSingleTimeframe] reads it with
    [|| 50] and reports 50. *)
Theorem falling_market_reads_rsi_50 (candles : list CandleData)
    (timeframe : string) :
  (50 <= length candles)%nat ->
  Sorted (fun a b => b < a) (map close candles) ->
  Backtest.last_value (TA.calculateRSI candles 14) = Some 0
  /\ Analyzer.rsi (Analyzer.analyzeSingleTimeframe candles timeframe) = '50.
Proof.
  intros Hn Hs.
  destruct (rsi_falling candles) as (values & E & Hne & Hz); trivial; [lia|].
  assert (L : Backtest.last_value (TA.calculateRSI candles 14) = Some 0).
  { rewrite E. destruct (last_value_padded 14 values Hne) as (r & -> & Hin).
    rewrite Forall_forall in Hz. now rewrite (Hz r Hin). }
  split; trivial.
  unfold Analyzer.analyzeSingleTimeframe.
  destruct (Nat.ltb_spec (length candles) 50) as [H|_]; [lia|].
  cbv zeta. cbn [Analyzer.rsi]. rewrite L. reflexivity.
Qed.

Lemma falls_sorted (l : list Qc) :
  falls l = true -> Sorted (fun a b => b < a) l.
Proof.
  induction l as [|a [|b rest] IH]; intros H.
  - apply Sorted_nil.
  - apply Sorted_cons; [apply Sorted_nil|apply HdRel_nil].
  - cbn [falls] in H. apply andb_true_iff in H. destruct H as [H1 H2].
    apply Sorted_cons; [now apply IH|].
    apply HdRel_cons. now apply ltb_lt.
Qed.

Lemma falling_market_reads_rsi_50_witness :
  Backtest.last_value (TA.calculateRSI slide 14) = Some 0
  /\ Analyzer.rsi (Analyzer.analyzeSingleTimeframe slide "1h") = '50.
Proof.
  apply (falling_market_reads_rsi_50 slide "1h").
  - vm_compute. lia.
  - apply falls_sorted. vm_compute. reflexivity.
Defined.

(** ** Short histories *)

Section ShortHistories.

Variable weights : string -> Qc.
Hypothesis weights_positive : forall tf, 0 < weights tf.

Lemma fusion_step_against (st : Engine.Fusion)
    (entry : string * Analysis.MultiTimeframeAnalysis) :
  unread (snd entry) -> all_against st ->
  all_against (Engine.fusion_step weights st entry).
Proof.
  destruct entry as [tf a]. cbn [snd]. intros [Hc Hd] (H1 & H2 & _).
  pose proof (weights_positive tf) as Hw.
  unfold Engine.fusion_step. rewrite Hd, Hc. unfold all_against. cbn.
  rewrite H1. repeat split.
  - ring.
  - clear - H2 Hw. to_Q. lra.
  - intros _. clear - H2 Hw. to_Q. lra.
Qed.

Lemma fuse_against (analyses : Analyses) :
  Forall (fun e => unread (snd e)) analyses -> analyses <> [] ->
  Engine.finalConfidence (Engine.fuse weights analyses) = 0.
Proof.
  intros H Hne.
  assert (G : forall l st, Forall (fun e => unread (snd e)) l ->
            all_against st ->
            all_against (fold_left (Engine.fusion_step weights) l st)).
  { induction l as [|e l IH]; intros st Hl Hst; cbn; trivial.
    inversion Hl; subst. apply IH; trivial. now apply fusion_step_against. }
  destruct (G analyses Engine.fusion_init H) as (A1 & A2 & A3).
  { unfold all_against. cbn. repeat split; try qc_order.
    intros C. now contradiction C. }
  fold (Engine.fuse weights analyses) in *.
  assert (Hpos : 0 < Engine.totalWeight (Engine.fuse weights analyses)).
  { apply A3. intros C. assert (K := fuse_keys weights analyses).
    rewrite C in K. destruct analyses; [now contradiction Hne|discriminate]. }
  unfold Engine.finalConfidence. rewrite A1.
  set (tw := Engine.totalWeight _) in *. clearbody tw.
  apply Qc_is_canon. to_Q. field. clear - Hpos. lra.
Qed.

End ShortHistories.

Lemma round_of_Z (z : Z) : Js.round (Js.of_Z z) = z.
Proof.
  destruct (round_between (Js.of_Z z) z z); try apply Qcle_refl. lia.
Qed.

Lemma full_leverage (lo hi : Z) :
  Engine.suggest_leverage SELL 0 (Js.of_Z lo) (Js.of_Z hi) = hi.
Proof.
  unfold Engine.suggest_leverage, Engine.absConfidence. cbn [Signal_eqb].
  replace (Js.of_Z lo + (Js.of_Z hi - Js.of_Z lo) * (1 - 0)) with (Js.of_Z hi)
    by ring.
  apply round_of_Z.
Qed.

Lemma short_analyses (candlesByTimeframe : list (string * list CandleData)) :
  Forall (fun e => (length (snd e) < 50)%nat) candlesByTimeframe ->
  exists analyses,
    Analyzer.finite_all (Analyzer.analyzeMultiTimeframe candlesByTimeframe)
    = Some analyses
    /\ map fst analyses = map fst candlesByTimeframe
    /\ Forall (fun e => unread (snd e)) analyses.
Proof.
  induction 1 as [|[tf cs] l Hc _ (r & Hr & Hk & Hu)].
  - exists []. repeat split. constructor.
  - cbn [snd] in Hc.
    change (Analyzer.analyzeMultiTimeframe ((tf, cs) :: l))
      with ((tf, Analyzer.analyzeSingleTimeframe cs tf)
            :: Analyzer.analyzeMultiTimeframe l).
    cbn [Analyzer.finite_all]. rewrite Hr.
    unfold Analyzer.analyzeSingleTimeframe.
    destruct (Nat.ltb_spec (length cs) 50) as [_|C]; [|lia].
    cbn [Analyzer.finite Analyzer.strength Analyzer.confidence Number.finite].
    eexists. split; [reflexivity|]. split.
    + cbn. now rewrite Hk.
    + constructor; trivial. split; reflexivity.
Qed.

Lemma unread_off_neutral (analyses : Analyses) :
  analyses <> [] -> Forall (fun e => unread (snd e)) analyses ->
  existsb (fun e => negb (Js.eqb (Analysis.confidence (snd e)) '0.5)) analyses
  = true.
Proof.
  intros Hne H. destruct H as [|e l [Hc _] _]; [congruence|].
  cbn. now rewrite Hc.
Qed.

(** Histories of fewer than 50 candles are analysed as confidence 0, which
    the fusion reads as certainty of a fall: whatever the prices, either
    copy of the engine answers SELL with a reported confidence of 1 and the
    highest leverage allowed. *)
Theorem short_histories_sell_at_full_leverage (sqrt : Qc -> Qc)
    (candlesByTimeframe : list (string * list CandleData))
    (currentPrice : Qc) (lo hi : Z) (t1 t2 : Z) :
  candlesByTimeframe <> [] ->
  Forall (fun e => (length (snd e) < 50)%nat) candlesByTimeframe ->
  exists analyses,
    Analyzer.finite_all (Analyzer.analyzeMultiTimeframe candlesByTimeframe)
    = Some analyses
    /\ (exists d,
          EngineA.generateTradingDecision sqrt analyses currentPrice
            (Some (Js.of_Z lo)) (Some (Js.of_Z hi)) t1 t2 = Some d
          /\ full_sell hi d)
    /\ (exists d,
          EngineB.generateTradingDecision analyses currentPrice
            (Some (Js.of_Z lo)) (Some (Js.of_Z hi)) t2 = Some d
          /\ full_sell hi d).
Proof.
  intros Hne Hshort.
  destruct (short_analyses candlesByTimeframe Hshort)
    as (analyses & Hf & Hk & Hu).
  assert (Hne' : analyses <> []).
  { intros ->. destruct candlesByTimeframe; [congruence|discriminate]. }
  pose proof (unread_off_neutral analyses Hne' Hu) as Hoff.
  exists analyses. split; trivial. split.
  - destruct (fuse_dominant_found EngineA.timeframeWeights analyses Hoff)
      as [a Ha].
    unfold EngineA.generateTradingDecision. cbn [with_default].
    rewrite (fuse_against EngineA.timeframeWeights weightsA_positive analyses
               Hu Hne').
    unfold EngineA.choose_signal.
    replace (Js.gtb 0 '0.75) with false by reflexivity.
    replace (Js.ltb 0 '0.25) with true by reflexivity.
    rewrite Ha. eexists. split; [reflexivity|].
    unfold full_sell. cbn. split; [reflexivity|]. split.
    + ring.
    + apply full_leverage.
  - destruct (fuse_dominant_found EngineB.timeframeWeights analyses Hoff)
      as [a Ha].
    unfold EngineB.generateTradingDecision. cbn [with_default].
    rewrite (fuse_against EngineB.timeframeWeights weightsB_positive analyses
               Hu Hne').
    unfold EngineB.choose_signal.
    replace (Js.gtb 0 '0.75) with false by reflexivity.
    replace (Js.ltb 0 '0.25) with true by reflexivity.
    rewrite Ha. eexists. split; [reflexivity|].
    unfold full_sell. cbn. split; [reflexivity|]. split.
    + ring.
    + apply full_leverage.
Qed.

Lemma short_histories_sell_at_full_leverage_witness :
  exists analyses,
    Analyzer.finite_all
      (Analyzer.analyzeMultiTimeframe [("1h"%string, reversal)])
    = Some analyses
    /\ (exists d,
          EngineA.generateTradingDecision (fun x => x) analyses '100
            (Some (Js.of_Z 10)) (Some (Js.of_Z 15)) 0 0 = Some d
          /\ full_sell 15 d)
    /\ (exists d,
          EngineB.generateTradingDecision analyses '100
            (Some (Js.of_Z 10)) (Some (Js.of_Z 15)) 0 = Some d
          /\ full_sell 15 d).
Proof.
  apply (short_histories_sell_at_full_leverage (fun x => x)
           [("1h"%string, reversal)] '100 10 15 0 0).
  - discriminate.
  - apply Forall_cons; [cbn; lia|apply Forall_nil].
Defined.

(** ** The exchange configuration *)

Lemma filled_nonempty (s : string) : Exchange.filled s = true -> s <> ""%string.
Proof.
  unfold Exchange.filled. intros H ->. discriminate.
Qed.

Lemma missing_nil (b : bool) (message : string) :
  Exchange.missing b message = [] -> b = true.
Proof. destruct b; [reflexivity|discriminate]. Qed.

Lemma keyed_spread (name : string) (c : option Exchange.ExchangeCredentials) :
  Exchange.has_apiKey c = true -> Exchange.has_secretKey c = true ->
  forall message,
  exists client,
    Exchange.client_of (Exchange.spread name) message c
    = Exchange.Returned client
    /\ Exchange.clientType client = name
    /\ Exchange.initialized client = true
    /\ keyed client.
Proof.
  intros Ha Hs message. destruct c as [k|]; [|discriminate].
  cbn in Ha, Hs. eexists. split; [reflexivity|]. cbn. repeat split.
  exists (Exchange.apiKey k), (Exchange.secretKey k).
  repeat split; now apply filled_nonempty.
Qed.

(** A configuration that [validateExchangeConfig] accepts connects to the
    exchange it prefers: for each of the five exchanges,
    [createExchangeClient] returns a client of that exchange which carries
    an API key and a secret key. *)
Theorem validated_config_connects (config : Exchange.ExchangeConfig) :
  Exchange.validateExchangeConfig config = [] ->
  In (preferred config) ["BINANCE"; "BYBIT"; "OKX"; "KUCOIN"; "BITGET"]%string ->
  exists client,
    Exchange.createExchangeClient (preferred config) config
    = Exchange.Returned client
    /\ Exchange.clientType client = preferred config
    /\ Exchange.initialized client = true
    /\ keyed client.
Proof.
  unfold Exchange.validateExchangeConfig. fold (preferred config).
  intros H Hin. apply app_eq_nil in H. destruct H as [H _].
  apply app_eq_nil in H. destruct H as [H _].
  unfold Exchange.createExchangeClient, Exchange.createBinanceClient,
    Exchange.createBybitClient, Exchange.createOkxClient,
    Exchange.createKucoinClient, Exchange.createBitgetClient.
  cbn in Hin.
  destruct Hin as [E|[E|[E|[E|[E|[]]]]]]; rewrite <- E in *; cbn in H |- *.
  - apply app_eq_nil in H. destruct H as [H1 H2].
    apply keyed_spread; eapply missing_nil; eassumption.
  - apply app_eq_nil in H. destruct H as [H1 H2].
    apply keyed_spread; eapply missing_nil; eassumption.
  - apply app_eq_nil in H. destruct H as [H1 H2].
    apply app_eq_nil in H2. destruct H2 as [H2 _].
    apply keyed_spread; eapply missing_nil; eassumption.
  - apply app_eq_nil in H. destruct H as [H1 H2].
    apply app_eq_nil in H2. destruct H2 as [H2 _].
    apply keyed_spread; eapply missing_nil; eassumption.
  - apply app_eq_nil in H. destruct H as [H1 H2].
    apply keyed_spread; eapply missing_nil; eassumption.
Qed.

Lemma validated_config_connects_witness :
  exists client,
    Exchange.createExchangeClient "OKX"
      (Exchange.mkConfig None None None
         (Some (Exchange.mkCredentials "key" "secret" false (Some "phrase"%string)))
         None None (Some "OKX"%string) None None)
    = Exchange.Returned client
    /\ Exchange.clientType client = "OKX"%string
    /\ Exchange.initialized client = true
    /\ keyed client.
Proof.
  apply (validated_config_connects
           (Exchange.mkConfig None None None
              (Some (Exchange.mkCredentials "key" "secret" false
                       (Some "phrase"%string)))
              None None (Some "OKX"%string) None None)).
  - reflexivity.
  - cbn. auto.
Defined.

(** [defaultConfig] does not pass [validateExchangeConfig], whatever the
    environment holds: its Telegram section is present with an empty token
    and an empty chat id.  With both keys in the environment these are the
    only two errors. *)
Theorem default_config_is_rejected (apiKeyInEnv secretKeyInEnv : option string) :
  let errors :=
    Exchange.validateExchangeConfig
      (Exchange.defaultConfig apiKeyInEnv secretKeyInEnv) in
  In "Telegram bot token is required if telegram is configured"%string errors
  /\ In "Telegram chat ID is required if telegram is configured"%string errors
  /\ (Exchange.filled (Exchange.or_string apiKeyInEnv "") = true ->
      Exchange.filled (Exchange.or_string secretKeyInEnv "") = true ->
      errors
      = ["Telegram bot token is required if telegram is configured";
         "Telegram chat ID is required if telegram is configured"]%string).
Proof.
  cbv zeta. unfold Exchange.validateExchangeConfig, Exchange.defaultConfig.
  cbn [Exchange.preferredExchange Exchange.binance Exchange.telegram
       Exchange.multiExchangeMode Exchange.has_apiKey Exchange.has_secretKey
       Exchange.apiKey Exchange.secretKey Exchange.botToken Exchange.chatId].
  change (Exchange.or_string (Some "BINANCE"%string) "BINANCE")
    with "BINANCE"%string.
  cbn [String.eqb Ascii.eqb Bool.eqb Exchange.filled negb andb].
  rewrite app_nil_r. repeat split.
  - apply in_or_app. right. cbn. auto.
  - apply in_or_app. right. cbn. auto.
  - intros -> ->. reflexivity.
Qed.

(** ** Sizing a trade *)

Lemma max_min_between (lo hi x : Qc) :
  lo <= hi -> lo <= Js.max lo (Js.min hi x) /\ Js.max lo (Js.min hi x) <= hi.
Proof.
  intros H.
  destruct (max_min_cases lo (Js.min hi x)) as [[-> A]|[-> A]].
  - split; [apply Qcle_refl|exact H].
  - split; [exact A|]. destruct (min_cases hi x) as [[-> B]|[-> B]].
    + apply Qcle_refl.
    + exact B.
Qed.

Lemma scaled_amount_monotone (balance p q leverage : Qc) :
  0 <= balance -> 0 < leverage -> p <= q ->
  (balance * (p / '100)) / leverage <= (balance * (q / '100)) / leverage.
Proof.
  intros Hb Hl Hpq.
  assert (S : forall r, (balance * (r / '100)) / leverage * leverage
                        = balance * r * '0.01).
  { intros r. apply Qc_is_canon. revert Hl. clear. to_Q. intros Hl. field.
    intros Z. rewrite Z in Hl. revert Hl. apply Qlt_irrefl. }
  pose proof (S p) as EX. pose proof (S q) as EY. clear S.
  revert EX EY.
  generalize ((balance * (q / '100)) / leverage).
  generalize ((balance * (p / '100)) / leverage). intros x y EX EY.
  assert (QX : (this (x * leverage) == this (balance * p * '0.01))%Q)
    by (rewrite EX; reflexivity).
  assert (QY : (this (y * leverage) == this (balance * q * '0.01))%Q)
    by (rewrite EY; reflexivity).
  clear EX EY. revert Hb Hl Hpq QX QY. to_Q. intros Hb Hl Hpq QX QY.
  assert (0 <= balance * (q - p))%Q by (apply Qmult_le_0_compat; lra).
  apply Qnot_lt_le. intros C.
  assert (0 < (x - y) * leverage)%Q by (apply Qmult_lt_0_compat; lra).
  lra.
Qed.

(** With [autoAdjust] on and a positive confidence, the amount
    [calculateTradeAmount] commits lies between what the minimum and what the
    maximum capital percentage would commit, whatever [Math.pow] returns. *)
Theorem trade_amount_within_limits (pow : Qc -> Qc -> Qc)
    (totalBalance minCapitalPercent maxCapitalPercent defaultCapitalPercent
     signalConfidence leverage : Qc) :
  0 <= totalBalance -> 0 < leverage ->
  minCapitalPercent <= maxCapitalPercent -> 0 < signalConfidence ->
  let amount :=
    Sizing.calculateTradeAmount pow totalBalance minCapitalPercent
      maxCapitalPercent defaultCapitalPercent signalConfidence true leverage in
  (totalBalance * (minCapitalPercent / '100)) / leverage <= amount
  /\ amount <= (totalBalance * (maxCapitalPercent / '100)) / leverage.
Proof.
  intros Hb Hl Hm Hc. cbv zeta. unfold Sizing.calculateTradeAmount.
  assert (G : Js.gtb signalConfidence 0 = true) by now apply ltb_lt.
  rewrite G. cbn [andb].
  destruct (max_min_between minCapitalPercent maxCapitalPercent
              (minCapitalPercent
               + (maxCapitalPercent - minCapitalPercent)
                 * pow signalConfidence '1.5) Hm) as [A B].
  split; now apply scaled_amount_monotone.
Qed.

Lemma trade_amount_within_limits_witness :
  let amount :=
    Sizing.calculateTradeAmount (fun x _ => x) '1000 '2 '10 '5 '0.5 true '10 in
  ('1000 * ('2 / '100)) / '10 <= amount
  /\ amount <= ('1000 * ('10 / '100)) / '10.
Proof.
  apply (trade_amount_within_limits (fun x _ => x) '1000 '2 '10 '5 '0.5 '10);
    unfold Qcle, Qclt; vm_compute; first [reflexivity | discriminate].
Defined.

(** [calculateDynamicPositionSize] sizes a position between 1% and 10% of a
    balance that is not negative, whatever the risk percentage, the
    volatility, the market condition and the win rate. *)
Theorem position_size_within_limits
    (accountBalance baseRiskPercentage volatility : Qc)
    (marketCondition : option MarketTag) (winRate : option Qc) :
  0 <= accountBalance ->
  let size :=
    Sizing.calculateDynamicPositionSize accountBalance baseRiskPercentage
      volatility marketCondition winRate in
  accountBalance * '0.01 <= size /\ size <= accountBalance * '0.1.
Proof.
  intros Hb. cbv zeta. unfold Sizing.calculateDynamicPositionSize.
  match goal with
  | |- context [Js.max 1 (Js.min '10 ?x)] =>
      destruct (max_min_between 1 '10 x) as [A B];
        [unfold Qcle; vm_compute; discriminate|];
        revert A B; generalize (Js.max 1 (Js.min '10 x))
  end.
  intros p A B.
  assert (E : accountBalance * p / '100 = accountBalance * p * '0.01).
  { apply Qc_is_canon. to_Q. field. }
  rewrite E. revert Hb A B. to_Q. intros Hb A B. split; nra.
Qed.

Lemma position_size_within_limits_witness :
  let size :=
    Sizing.calculateDynamicPositionSize '1000 '5 '0.02 (Some TAG_VOLATILE)
      None in
  '1000 * '0.01 <= size /\ size <= '1000 * '0.1.
Proof.
  apply (position_size_within_limits '1000 '5 '0.02 (Some TAG_VOLATILE) None).
  unfold Qcle. vm_compute. discriminate.
Defined.

(** ** The GPU monitor *)

Lemma max_ge_both (a b : Qc) : a <= Js.max a b /\ b <= Js.max a b.
Proof.
  destruct (max_min_cases a b) as [[-> H]|[-> H]]; split;
    trivial; apply Qcle_refl.
Qed.

Lemma length_tl {A : Type} (l : list A) : length (tl l) = pred (length l).
Proof. now destruct l. Qed.

Lemma Forall_tl {A : Type} (P : A -> Prop) (l : list A) :
  Forall P l -> Forall P (tl l).
Proof. intros H. destruct l; [exact H|]. now inversion H. Qed.

Lemma record_fields (callback : bool) (now : Z) (newUsage : Qc) (w : Gpu.World) :
  let w' := Gpu.record callback now newUsage w in
  Gpu.handed w' = Gpu.handed w
  /\ Gpu.interval w' = Gpu.interval w
  /\ Gpu.highWatermark (Gpu.monitor w')
     = Js.max (Gpu.highWatermark (Gpu.monitor w)) newUsage
  /\ Gpu.history w'
     = (let h := Gpu.history w ++ [Gpu.mkReading now newUsage] in
        if (100 <? length h)%nat then tl h else h).
Proof.
  cbv zeta. unfold Gpu.record. cbn [Gpu.status Gpu.threshold].
  destruct (negb (Gpu.is_paused (Gpu.status (Gpu.monitor w)))
            && Js.gtb newUsage (Gpu.pause (Gpu.threshold (Gpu.monitor w)))).
  - cbn. auto.
  - destruct (Gpu.is_paused (Gpu.status (Gpu.monitor w))
              && Js.ltb newUsage (Gpu.resume (Gpu.threshold (Gpu.monitor w))));
      cbn; auto.
Qed.

Lemma record_kept (callback : bool) (now : Z) (newUsage : Qc) (w : Gpu.World) :
  history_kept w -> history_kept (Gpu.record callback now newUsage w).
Proof.
  intros [L F].
  destruct (record_fields callback now newUsage w) as (_ & _ & Hw & Hh).
  unfold history_kept. rewrite Hw, Hh. cbv zeta.
  destruct (max_ge_both (Gpu.highWatermark (Gpu.monitor w)) newUsage) as [A B].
  assert (F' : Forall
                 (fun r => Gpu.usage r
                           <= Js.max (Gpu.highWatermark (Gpu.monitor w)) newUsage)
                 (Gpu.history w ++ [Gpu.mkReading now newUsage])).
  { apply Forall_app. split.
    - eapply Forall_impl; [|exact F]. cbv beta. intros r Hr.
      eapply Qcle_trans; [exact Hr|exact A].
    - apply Forall_cons; [exact B|apply Forall_nil]. }
  destruct (100 <? length (Gpu.history w ++ [Gpu.mkReading now newUsage]))%nat
    eqn:E.
  - split; [|now apply Forall_tl].
    rewrite length_tl, length_app. cbn [length]. lia.
  - split; [|exact F']. apply Nat.ltb_ge in E. exact E.
Qed.

Lemma start_kept (w : Gpu.World) :
  history_kept w -> history_kept (Gpu.startMonitoring w).
Proof.
  unfold Gpu.startMonitoring. destruct (Gpu.is_idle _); trivial.
Qed.

Lemma stepA_kept (callback : bool) (w : Gpu.World) (e : Gpu.EventA) :
  history_kept w /\ shows_nothing w ->
  history_kept (Gpu.stepA callback w e)
  /\ shows_nothing (Gpu.stepA callback w e).
Proof.
  intros [K N]. destruct e as [|now fetched| |]; cbn [Gpu.stepA].
  - destruct (Gpu.interval w); split; trivial.
  - destruct (Gpu.awaited w) as [|n]; [split; trivial|].
    destruct fetched as [newUsage|].
    + split.
      * now apply record_kept.
      * unfold shows_nothing.
        destruct (record_fields callback now newUsage
                    (Gpu.mkWorld (Gpu.monitor w) (Gpu.handed w) (Gpu.history w)
                       (Gpu.interval w) n (Gpu.calls w))) as (-> & _).
        exact N.
    + split; trivial.
  - split; [now apply start_kept|].
    unfold Gpu.startMonitoring. destruct (Gpu.is_idle _); trivial.
  - split; trivial.
Qed.

Lemma stepB_kept (callback : bool) (w : Gpu.World) (e : Gpu.EventB) :
  history_kept w /\ shows_nothing w ->
  history_kept (Gpu.stepB callback w e)
  /\ shows_nothing (Gpu.stepB callback w e).
Proof.
  intros [K N]. destruct e as [now random| |]; cbn [Gpu.stepB].
  - destruct (Gpu.interval w); [|split; trivial].
    unfold Gpu.checkGpuUsage. split.
    + now apply record_kept.
    + unfold shows_nothing.
      destruct (record_fields callback now (Js.of_Z (Qfloor (random * '100))) w)
        as (-> & _).
      exact N.
  - split; [now apply start_kept|].
    unfold Gpu.startMonitoring. destruct (Gpu.is_idle _); trivial.
  - split; trivial.
Qed.

Lemma fold_left_invariant {S E : Type} (step : S -> E -> S) (P : S -> Prop) :
  (forall s e, P s -> P (step s e)) ->
  forall events s, P s -> P (fold_left step events s).
Proof.
  intros Hstep events. induction events as [|e events IH]; intros s Hs.
  - exact Hs.
  - cbn. apply IH. now apply Hstep.
Qed.

Lemma initial_kept (maxGpuUsage : option Qc) :
  history_kept (Gpu.monitorGpuUsage maxGpuUsage)
  /\ shows_nothing (Gpu.monitorGpuUsage maxGpuUsage).
Proof.
  split.
  - split; [cbn; lia|apply Forall_nil].
  - repeat split.
Qed.

(** Whatever happens to a monitor of either copy of [monitorGpuUsage]
    (checks, failed checks, starting, stopping, in any order), its history
    holds at most a hundred readings, none of them above the high watermark,
    while the object handed to the caller goes on showing an idle monitor
    with usage 0. *)
Theorem gpu_history_bounded (maxGpuUsage : option Qc) (callback : bool)
    (eventsA : list Gpu.EventA) (eventsB : list Gpu.EventB) :
  let a := Gpu.runA callback eventsA (Gpu.monitorGpuUsage maxGpuUsage) in
  let b := Gpu.runB callback eventsB (Gpu.monitorGpuUsage maxGpuUsage) in
  (history_kept a /\ shows_nothing a) /\ (history_kept b /\ shows_nothing b).
Proof.
  cbv zeta. split.
  - unfold Gpu.runA.
    apply (fold_left_invariant (Gpu.stepA callback)
             (fun w => history_kept w /\ shows_nothing w)).
    + intros s e. apply stepA_kept.
    + apply initial_kept.
  - unfold Gpu.runB.
    apply (fold_left_invariant (Gpu.stepB callback)
             (fun w => history_kept w /\ shows_nothing w)).
    + intros s e. apply stepB_kept.
    + apply initial_kept.
Qed.

Lemma alternates_snoc (expected a : Gpu.Advice) (l : list Gpu.Advice) :
  alternates expected (l ++ [a])
  = alternates expected l
    && same_advice a (if Nat.even (length l) then expected else other expected).
Proof.
  revert expected. induction l as [|b l IH]; intros expected.
  - cbn. now rewrite andb_true_r.
  - cbn [app alternates length]. rewrite IH, Nat.even_succ.
    rewrite <- Nat.negb_even.
    destruct (Nat.even (length l)), expected; cbn [negb other];
      now rewrite andb_assoc.
Qed.

Lemma record_in_turn (now : Z) (newUsage : Qc) (w : Gpu.World) :
  Gpu.interval w = true -> in_turn w ->
  in_turn (Gpu.record true now newUsage w).
Proof.
  intros I [A P]. specialize (P I). unfold in_turn, Gpu.record.
  cbn [Gpu.status Gpu.threshold].
  rewrite <- Nat.negb_even in P.
  destruct (Gpu.is_paused (Gpu.status (Gpu.monitor w))) eqn:S;
    cbn [negb andb].
  - destruct (Js.ltb newUsage (Gpu.resume (Gpu.threshold (Gpu.monitor w)))).
    + cbn [Gpu.calls Gpu.interval Gpu.monitor Gpu.status Gpu.with_status
           Gpu.is_paused Gpu.call].
      rewrite alternates_snoc, A, length_app. cbn [length].
      rewrite Nat.add_1_r, Nat.odd_succ.
      destruct (Nat.even (length (Gpu.calls w))); [discriminate|].
      split; reflexivity.
    + cbn [Gpu.calls Gpu.interval Gpu.monitor Gpu.status].
      rewrite app_nil_r, <- Nat.negb_even. split; [exact A|].
      intros _. rewrite S. exact P.
  - destruct (Js.gtb newUsage (Gpu.pause (Gpu.threshold (Gpu.monitor w)))).
    + cbn [Gpu.calls Gpu.interval Gpu.monitor Gpu.status Gpu.with_status
           Gpu.is_paused Gpu.call].
      rewrite alternates_snoc, A, length_app. cbn [length].
      rewrite Nat.add_1_r, Nat.odd_succ.
      destruct (Nat.even (length (Gpu.calls w))); [|discriminate].
      split; reflexivity.
    + cbn [Gpu.calls Gpu.interval Gpu.monitor Gpu.status].
      rewrite app_nil_r, <- Nat.negb_even. split; [exact A|].
      intros _. rewrite S. exact P.
Qed.

Lemma stepB_in_turn (w : Gpu.World) (e : Gpu.EventB) :
  in_turn w -> in_turn (Gpu.stepB true w e).
Proof.
  intros T. destruct e as [now random| |]; cbn [Gpu.stepB].
  - destruct (Gpu.interval w) eqn:I; [|exact T].
    unfold Gpu.checkGpuUsage. now apply record_in_turn.
  - destruct T as [A P]. unfold Gpu.startMonitoring.
    destruct (Gpu.is_idle (Gpu.status (Gpu.monitor w))) eqn:S;
      [|split; trivial].
    split; [exact A|]. cbn. intros I. rewrite <- (P I).
    destruct (Gpu.status (Gpu.monitor w)); trivial; discriminate.
  - destruct T as [A P]. split; [exact A|]. cbn. discriminate.
Qed.

Lemma stepB_silent (w : Gpu.World) (e : Gpu.EventB) :
  Gpu.calls w = [] -> Gpu.calls (Gpu.stepB false w e) = [].
Proof.
  intros C. destruct e as [now random| |]; cbn [Gpu.stepB].
  - destruct (Gpu.interval w); [|exact C].
    unfold Gpu.checkGpuUsage, Gpu.record. cbn [Gpu.status Gpu.threshold].
    destruct (negb _ && _); [cbn; now rewrite C|].
    destruct (_ && _); cbn; now rewrite C.
  - unfold Gpu.startMonitoring. destruct (Gpu.is_idle _); exact C.
  - exact C.
Qed.

(** In the second copy of [monitorGpuUsage], where a check reads the usage
    at once, the calls of [callback] take turns over any run: the first says
    pause, and after a pause comes a resume and after a resume a pause. *)
Theorem gpu_callbacks_alternate (maxGpuUsage : option Qc) (callback : bool)
    (events : list Gpu.EventB) :
  alternates Gpu.advise_pause
    (Gpu.calls (Gpu.runB callback events (Gpu.monitorGpuUsage maxGpuUsage)))
  = true.
Proof.
  unfold Gpu.runB. destruct callback.
  - apply (fold_left_invariant (Gpu.stepB true) in_turn).
    + intros s e. apply stepB_in_turn.
    + split; reflexivity.
  - rewrite (fold_left_invariant (Gpu.stepB false)
               (fun w => Gpu.calls w = [])); trivial.
    intros s e. apply stepB_silent.
Qed.

(** In the first copy a check waits for its response, and a response that
    arrives after [stopMonitoring] is still read: a usage above the
    threshold then makes [callback] say pause twice in a row. *)
Remark late_answer_repeats_pause (maxGpuUsage : option Qc) (now later : Z)
    (u : Qc) :
  with_default maxGpuUsage '75 < u ->
  Gpu.calls
    (Gpu.runA true
       [Gpu.FiresA; Gpu.Answers now (Some u); Gpu.FiresA; Gpu.StopsA;
        Gpu.Answers later (Some u)]
       (Gpu.monitorGpuUsage maxGpuUsage))
  = [Gpu.advise_pause; Gpu.advise_pause].
Proof.
  intros H. apply ltb_lt in H. fold (Js.gtb u (with_default maxGpuUsage '75)) in H.
  unfold Gpu.runA, Gpu.monitorGpuUsage.
  cbn -[Js.gtb Js.ltb Js.max with_default Nat.ltb].
  unfold Gpu.record.
  cbn -[Js.gtb Js.ltb Js.max with_default Nat.ltb].
  rewrite H.
  cbn -[Js.gtb Js.ltb Js.max with_default Nat.ltb].
  unfold Gpu.record.
  cbn -[Js.gtb Js.ltb Js.max with_default Nat.ltb].
  rewrite H. reflexivity.
Qed.
